(** * Transformer encoder-decoder with incremental decoding

    A shallow embedding of [models/transformer_other.py]: the feed-forward
    block [FFN], the multi-head attention unit [MultiHeadAttn], the
    [Transformer] encoder/decoder stacks with their masks and sinusoidal
    timing signal, and the [Model] wrapper with its incremental decoding
    state; and of [src/run.py] the command-line configuration that [main]
    hands to [run_model].

    Conventions of the embedding.
    - A TensorFlow tensor is a shape together with a value at every index:
      records [tensor1] .. [tensor4] hold the dimensions as [nat] fields and
      the entries as a function of the indices.  Entries are real numbers
      (the idealisation of float32); integer tensors hold [Z].
    - TensorFlow primitives are total functions named [tf_*].  Where
      TensorFlow would reject ill-shaped operands the model still returns a
      tensor; Python-level [raise] and [assert] statements are modelled with
      the [result] type.
    - The dropout switch of [lib.layers] ([dropout_scope(is_train)],
      [is_dropout_enabled()]) is a boolean argument [is_dropout_enabled].
    - Randomness (dropout noise, random position offsets) is an explicit
      argument of type [random_source]: every run of an operation receives
      the draws it will use.
    - [Dense], [LayerNorm], [Embedding], [ResidualLayerWrapper] and
      [infer_length] are defined in [lib.layers] and [lib.tensor_utils];
      they are modelled from the specification or taken as section
      variables, and say so in their comments.  [tf.Print] under [debug] is
      the identity and is left out. *)

From Stdlib Require Import Reals Lra Lia List String ZArith Bool Arith.
From Stdlib Require Import Ascii DecimalString.
From Stdlib Require Floats.
From Stdlib Require Import FunctionalExtensionality.
Import ListNotations.

Local Open Scope string_scope.
Local Open Scope nat_scope.

(* ------------------------------------------------------------------ *)
(** ** Python results *)

Inductive exn : Type :=
| Exception (msg : string)
| AssertionError (msg : string)
| IndexError
| AttributeError
| ZeroDivisionError.

Inductive result (A : Type) : Type :=
| Ok (a : A)
| Raise (e : exn).

Arguments Ok {A} a.
Arguments Raise {A} e.

Definition bind {A B : Type} (r : result A) (k : A -> result B) : result B :=
  match r with
  | Ok a => k a
  | Raise e => Raise e
  end.

Notation "x <- r ;; k" := (bind r (fun x => k))
  (at level 61, r at next level, right associativity).
Notation "' p <- r ;; k" := (bind r (fun p => k))
  (at level 61, p pattern, r at next level, right associativity).

(** Whether a call returned. *)
Definition is_ok {A : Type} (r : result A) : bool :=
  match r with
  | Ok _ => true
  | Raise _ => false
  end.

(** The value of a call that returns, and [default] otherwise. *)
Definition from_ok {A : Type} (default : A) (r : result A) : A :=
  match r with
  | Ok a => a
  | Raise _ => default
  end.

(** [for x in xs: acc = f(acc, x)] with early exit on a raise. *)
Fixpoint foldM {A B : Type} (f : A -> B -> result A) (acc : A) (xs : list B)
  : result A :=
  match xs with
  | [] => Ok acc
  | x :: rest => acc' <- f acc x ;; foldM f acc' rest
  end.

(** [[f(x) for x in xs]] where [f] may raise. *)
Fixpoint mapM {A B : Type} (f : A -> result B) (xs : list A) : result (list B) :=
  match xs with
  | [] => Ok []
  | x :: rest => y <- f x ;; ys <- mapM f rest ;; Ok (y :: ys)
  end.

(** [xs[i]] on a Python list. *)
Definition py_index {A : Type} (xs : list A) (i : nat) : result A :=
  match nth_error xs i with
  | Some x => Ok x
  | None => Raise IndexError
  end.

(** ['%i' % i] *)
Definition fmt_i (i : nat) : string := NilEmpty.string_of_uint (Nat.to_uint i).

(** [a % b] on non-negative Python integers; a zero divisor raises. *)
Definition py_mod (a b : nat) : result nat :=
  if b =? 0 then Raise ZeroDivisionError else Ok (a mod b).

(* ------------------------------------------------------------------ *)
(** ** Tensors *)

Record tensor1 : Type := T1 { len1 : nat; at1 : nat -> R }.
Record tensor2 : Type := T2 { rows2 : nat; cols2 : nat; at2 : nat -> nat -> R }.
Record tensor3 : Type :=
  T3 { dim0 : nat; dim1 : nat; dim2 : nat; at3 : nat -> nat -> nat -> R }.
Record tensor4 : Type :=
  T4 { e0 : nat; e1 : nat; e2 : nat; e3 : nat;
       at4 : nat -> nat -> nat -> nat -> R }.

(** Integer tensors: [int32[n]] and [int32[n * m]]. *)
Record itensor1 : Type := I1 { ilen : nat; iat1 : nat -> Z }.
Record itensor2 : Type := I2 { irows : nat; icols : nat; iat2 : nat -> nat -> Z }.

(** Two tensors are the same tensor when their shapes agree and their
    entries agree at every index inside the shape. *)
Definition teq3 (a b : tensor3) : Prop :=
  dim0 a = dim0 b /\ dim1 a = dim1 b /\ dim2 a = dim2 b /\
  forall i j k, i < dim0 a -> j < dim1 a -> k < dim2 a ->
                at3 a i j k = at3 b i j k.

(** Sum of [f 0 .. f (n-1)]. *)
Fixpoint sum_n (n : nat) (f : nat -> R) : R :=
  match n with
  | O => 0%R
  | S m => (sum_n m f + f m)%R
  end.

(** *** Broadcasting

    A dimension of size 1 is stretched to the size of the other operand. *)
Definition bdim (a b : nat) : nat := if a =? 1 then b else a.
Definition bidx (d i : nat) : nat := if d =? 1 then 0 else i.

Definition bmap3 (f : R -> R -> R) (x y : tensor3) : tensor3 :=
  {| dim0 := bdim (dim0 x) (dim0 y);
     dim1 := bdim (dim1 x) (dim1 y);
     dim2 := bdim (dim2 x) (dim2 y);
     at3 := fun i j k =>
       f (at3 x (bidx (dim0 x) i) (bidx (dim1 x) j) (bidx (dim2 x) k))
         (at3 y (bidx (dim0 y) i) (bidx (dim1 y) j) (bidx (dim2 y) k)) |}.

Definition bmap4 (f : R -> R -> R) (x y : tensor4) : tensor4 :=
  {| e0 := bdim (e0 x) (e0 y);
     e1 := bdim (e1 x) (e1 y);
     e2 := bdim (e2 x) (e2 y);
     e3 := bdim (e3 x) (e3 y);
     at4 := fun b h i j =>
       f (at4 x (bidx (e0 x) b) (bidx (e1 x) h) (bidx (e2 x) i) (bidx (e3 x) j))
         (at4 y (bidx (e0 y) b) (bidx (e1 y) h) (bidx (e2 y) i) (bidx (e3 y) j)) |}.

Definition map3 (f : R -> R) (x : tensor3) : tensor3 :=
  {| dim0 := dim0 x; dim1 := dim1 x; dim2 := dim2 x;
     at3 := fun i j k => f (at3 x i j k) |}.

Definition map4 (f : R -> R) (x : tensor4) : tensor4 :=
  {| e0 := e0 x; e1 := e1 x; e2 := e2 x; e3 := e3 x;
     at4 := fun b h i j => f (at4 x b h i j) |}.

Definition tf_add3 : tensor3 -> tensor3 -> tensor3 := bmap3 Rplus.
Definition tf_mul3 : tensor3 -> tensor3 -> tensor3 := bmap3 Rmult.
Definition tf_add4 : tensor4 -> tensor4 -> tensor4 := bmap4 Rplus.

(** [tf.zeros([a, b, c])], [tf.zeros([a, b])], [tf.zeros((a,))] *)
Definition tf_zeros3 (a b c : nat) : tensor3 :=
  {| dim0 := a; dim1 := b; dim2 := c; at3 := fun _ _ _ => 0%R |}.
Definition tf_zeros2 (a b : nat) : tensor2 :=
  {| rows2 := a; cols2 := b; at2 := fun _ _ => 0%R |}.
Definition tf_zeros1 (a : nat) : tensor1 :=
  {| len1 := a; at1 := fun _ => 0%R |}.
Definition tf_zeros_i2 (a b : nat) : itensor2 :=
  {| irows := a; icols := b; iat2 := fun _ _ => 0%Z |}.

(** [tf.concat([x, y], axis=1)] and [tf.concat([x, y], axis=-1)] on rank 3. *)
Definition tf_concat3_axis1 (x y : tensor3) : tensor3 :=
  {| dim0 := dim0 x; dim1 := dim1 x + dim1 y; dim2 := dim2 x;
     at3 := fun i j k =>
       if j <? dim1 x then at3 x i j k else at3 y i (j - dim1 x) k |}.

Definition tf_concat3_axis2 (x y : tensor3) : tensor3 :=
  {| dim0 := dim0 x; dim1 := dim1 x; dim2 := dim2 x + dim2 y;
     at3 := fun i j k =>
       if k <? dim2 x then at3 x i j k else at3 y i j (k - dim2 x) |}.

(** [tf.pad(x, [[0, 0], [before, 0], [0, 0]])] and
    [tf.pad(x, [[0, 0], [0, 0], [0, after]])]: the new entries are zero. *)
Definition tf_pad3_axis1_before (before : nat) (x : tensor3) : tensor3 :=
  {| dim0 := dim0 x; dim1 := before + dim1 x; dim2 := dim2 x;
     at3 := fun i j k => if j <? before then 0%R else at3 x i (j - before) k |}.

Definition tf_pad3_axis2_after (after : nat) (x : tensor3) : tensor3 :=
  {| dim0 := dim0 x; dim1 := dim1 x; dim2 := dim2 x + after;
     at3 := fun i j k => if k <? dim2 x then at3 x i j k else 0%R |}.

(** [x[:, :-1, :]] *)
Definition slice3_drop_last_axis1 (x : tensor3) : tensor3 :=
  {| dim0 := dim0 x; dim1 := dim1 x - 1; dim2 := dim2 x; at3 := at3 x |}.

(** [x[:, -1]]: the last time-step, of shape [dim0 * dim2].  A negative
    index on an empty axis is out of range. *)
Definition slice3_last_axis1 (x : tensor3) : tensor2 :=
  {| rows2 := dim0 x; cols2 := dim2 x;
     at2 := fun i k => at3 x i (dim1 x - 1) k |}.

(** One piece of [tf.split(x, sizes, axis=2)]: [size] channels from [start]. *)
Definition split3_piece (x : tensor3) (start size : nat) : tensor3 :=
  {| dim0 := dim0 x; dim1 := dim1 x; dim2 := size;
     at3 := fun i j k => at3 x i j (start + k) |}.

(** [tf.matmul(x, y)] on rank 4: the two leading axes are batch axes. *)
Definition tf_matmul4 (x y : tensor4) : tensor4 :=
  {| e0 := e0 x; e1 := e1 x; e2 := e2 x; e3 := e3 y;
     at4 := fun b h i j =>
       sum_n (e3 x) (fun c => (at4 x b h i c * at4 y b h c j)%R) |}.

(** [tf.transpose(x, perm)] on rank 4.  Axis [m] of the result is axis
    [perm[m]] of [x]. *)
Definition sel4 {A : Type} (p : nat) (a b c d : A) : A :=
  match p with 0 => a | 1 => b | 2 => c | _ => d end.

Definition unperm4 (p0 p1 p2 p3 m : nat) (i0 i1 i2 i3 : nat) : nat :=
  if p0 =? m then i0 else if p1 =? m then i1 else if p2 =? m then i2 else i3.

Definition tf_transpose4 (x : tensor4) (p0 p1 p2 p3 : nat) : tensor4 :=
  {| e0 := sel4 p0 (e0 x) (e1 x) (e2 x) (e3 x);
     e1 := sel4 p1 (e0 x) (e1 x) (e2 x) (e3 x);
     e2 := sel4 p2 (e0 x) (e1 x) (e2 x) (e3 x);
     e3 := sel4 p3 (e0 x) (e1 x) (e2 x) (e3 x);
     at4 := fun i0 i1 i2 i3 =>
       at4 x (unperm4 p0 p1 p2 p3 0 i0 i1 i2 i3)
             (unperm4 p0 p1 p2 p3 1 i0 i1 i2 i3)
             (unperm4 p0 p1 p2 p3 2 i0 i1 i2 i3)
             (unperm4 p0 p1 p2 p3 3 i0 i1 i2 i3) |}.

(** [tf.nn.softmax(x)]: over the last axis, in exact arithmetic (in
    float32 a term [exp(-1e9 + ..)] beside a term of ordinary size
    underflows to 0). *)
Definition tf_softmax4 (x : tensor4) : tensor4 :=
  {| e0 := e0 x; e1 := e1 x; e2 := e2 x; e3 := e3 x;
     at4 := fun b h i j =>
       (exp (at4 x b h i j) / sum_n (e3 x) (fun j' => exp (at4 x b h i j')))%R |}.

(** [tf.squeeze(x, 3)]: the axis has size 1 (TensorFlow rejects any other
    size); the result reads its only index. *)
Definition tf_squeeze4_axis3 (x : tensor4) : tensor3 :=
  {| dim0 := e0 x; dim1 := e1 x; dim2 := e2 x;
     at3 := fun i j k => at4 x i j k 0 |}.

(** [tf.reduce_mean(x, axis=[0, 1], keep_dims=True)] *)
Definition tf_reduce_mean3_axes01 (x : tensor3) : tensor3 :=
  {| dim0 := 1; dim1 := 1; dim2 := dim2 x;
     at3 := fun _ _ k =>
       (sum_n (dim0 x) (fun i => sum_n (dim1 x) (fun j => at3 x i j k))
        / INR (dim0 x * dim1 x))%R |}.

(** [tf.sequence_mask(lengths, dtype=float32, maxlen=n)] *)
Definition tf_sequence_mask (lengths : itensor1) (maxlen : nat) : tensor2 :=
  {| rows2 := ilen lengths; cols2 := maxlen;
     at2 := fun i j => if (Z.of_nat j <? iat1 lengths i)%Z then 1%R else 0%R |}.

(** [x[:, None, None, :]] *)
Definition expand_dims_1_2 (x : tensor2) : tensor4 :=
  {| e0 := rows2 x; e1 := 1; e2 := 1; e3 := cols2 x;
     at4 := fun b _ _ j => at2 x b j |}.

(** [tf.matrix_band_part(tf.ones([n, n]), -1, 0)]: the lower triangle. *)
Definition tf_lower_triangle (n : nat) : tensor2 :=
  {| rows2 := n; cols2 := n;
     at2 := fun i j => if j <=? i then 1%R else 0%R |}.

(* ------------------------------------------------------------------ *)
(** ** Randomness *)

(** The draws one run of an operation consumes: for every random op,
    identified by its name, an integer and a uniform number in [0, 1) at
    every index. *)
Record random_source : Type :=
  { draw_int : string -> nat -> nat -> nat -> Z;
    draw_unit : string -> nat -> nat -> nat -> nat -> R }.

(** [tf.random_uniform(shape, minval, maxval, dtype=tf.int32)] on a rank-3
    shape: integers in [[minval, maxval)]. *)
Definition tf_random_uniform_i3 (rs : random_source) (site : string)
           (a b c : nat) (minval maxval : Z) : tensor3 :=
  {| dim0 := a; dim1 := b; dim2 := c;
     at3 := fun i j k =>
       IZR (minval + (draw_int rs site i j k) mod (maxval - minval)) |}.

(** The same on a rank-1 shape. *)
Definition tf_random_uniform_i1 (rs : random_source) (site : string)
           (a : nat) (minval maxval : Z) : tensor1 :=
  {| len1 := a;
     at1 := fun i =>
       IZR (minval + (draw_int rs site i 0 0) mod (maxval - minval)) |}.

(** [tf.nn.dropout(x, keep_prob)]: every entry is kept and scaled by
    [1 / keep_prob] when [keep_prob + u >= 1], and zeroed otherwise. *)
Definition dropout_entry (keep_prob u x : R) : R :=
  (x / keep_prob * IZR (Int_part (keep_prob + u)))%R.

Definition tf_nn_dropout3 (rs : random_source) (site : string)
           (x : tensor3) (keep_prob : R) : tensor3 :=
  {| dim0 := dim0 x; dim1 := dim1 x; dim2 := dim2 x;
     at3 := fun i j k =>
       dropout_entry keep_prob (draw_unit rs site i j k 0) (at3 x i j k) |}.

Definition tf_nn_dropout4 (rs : random_source) (site : string)
           (x : tensor4) (keep_prob : R) : tensor4 :=
  {| e0 := e0 x; e1 := e1 x; e2 := e2 x; e3 := e3 x;
     at4 := fun b h i j =>
       dropout_entry keep_prob (draw_unit rs site b h i j) (at4 x b h i j) |}.

(* ------------------------------------------------------------------ *)
(** ** The layer library

    [Dense], [LayerNorm], [Embedding], [ResidualLayerWrapper] and the
    dropout switch come from [lib.layers], [infer_length] from
    [lib.tensor_utils]. *)

(** The values of the TensorFlow variables of a session, by full variable
    name.  A vector variable uses row 0.  The constructors read the
    variables they create from it. *)
Definition variable_store : Type := string -> nat -> nat -> R.

Section Layers.

(** Modelled from the spec: [LayerNorm.__call__] of [lib.layers].  The
    normalisation is described only as a step that normalises its input; it
    is taken to act on every position on its own: [LayerNorm_row name n row]
    is the normalised feature vector of one position, for the layer of the
    given name and size. *)
Variable LayerNorm_row : string -> nat -> (nat -> R) -> nat -> R.

(** Modelled from the spec: [infer_length(seq, eos, time_major=False)] of
    [lib.tensor_utils], the length of every row of a batch of token ids,
    found by scanning for the end-of-sequence id. *)
Variable infer_length : itensor2 -> Z -> itensor1.

Definition scoped (scope name : string) : string := scope ++ "/" ++ name.

(** [tf.get_variable(name, shape=[n, m])] and [shape=[n]]. *)
Definition get_variable2 (vs : variable_store) (name : string) (n m : nat)
  : tensor2 :=
  {| rows2 := n; cols2 := m; at2 := vs name |}.
Definition get_variable1 (vs : variable_store) (name : string) (n : nat)
  : tensor1 :=
  {| len1 := n; at1 := vs name 0 |}.

(** [W[:, :n]], [W[:, n:]], [b[:n]], [b[n:]] *)
Definition slice2_cols_to (W : tensor2) (n : nat) : tensor2 :=
  {| rows2 := rows2 W; cols2 := Nat.min n (cols2 W); at2 := at2 W |}.
Definition slice2_cols_from (W : tensor2) (n : nat) : tensor2 :=
  {| rows2 := rows2 W; cols2 := cols2 W - n;
     at2 := fun l k => at2 W l (n + k) |}.
Definition slice1_to (b : tensor1) (n : nat) : tensor1 :=
  {| len1 := Nat.min n (len1 b); at1 := at1 b |}.
Definition slice1_from (b : tensor1) (n : nat) : tensor1 :=
  {| len1 := len1 b - n; at1 := fun k => at1 b (n + k) |}.

(** [tf.concat([W1, W2], axis=1)] and [tf.concat([b1, b2], axis=0)] *)
Definition tf_concat2_axis1 (W1 W2 : tensor2) : tensor2 :=
  {| rows2 := rows2 W1; cols2 := cols2 W1 + cols2 W2;
     at2 := fun l k =>
       if k <? cols2 W1 then at2 W1 l k else at2 W2 l (k - cols2 W1) |}.
Definition tf_concat1 (b1 b2 : tensor1) : tensor1 :=
  {| len1 := len1 b1 + len1 b2;
     at1 := fun k => if k <? len1 b1 then at1 b1 k else at1 b2 (k - len1 b1) |}.

Definition tf_transpose2 (W : tensor2) : tensor2 :=
  {| rows2 := cols2 W; cols2 := rows2 W; at2 := fun i j => at2 W j i |}.

(** *** Dense *)

(** Modelled from the spec: the class [Dense] of [lib.layers], an affine
    projection of the feature axis with an activation, whose weight and
    bias are either variables of its own or tensors handed in at
    construction (slices or concatenations of another projection's
    parameters). *)
Record Dense : Type :=
  { dense_name : string;
    dense_inp_size : nat;
    dense_out_size : nat;
    dense_activation : R -> R;
    dense_W : tensor2;
    dense_b : tensor1 }.

(** Modelled from the spec: [Dense.__init__].  [W] and [b] are the tensors
    handed in, or [None] for a variable (or an initializer) of the layer's
    own. *)
Definition Dense_init (vs : variable_store) (scope name : string)
           (inp_size out_size : nat)
           (activation : R -> R) (W : option tensor2) (b : option tensor1)
  : Dense :=
  {| dense_name := scoped scope name;
     dense_inp_size := inp_size;
     dense_out_size := out_size;
     dense_activation := activation;
     dense_W := match W with
                | Some w => w
                | None => get_variable2 vs (scoped (scoped scope name) "W")
                                        inp_size out_size
                end;
     dense_b := match b with
                | Some v => v
                | None =>
                    get_variable1 vs (scoped (scoped scope name) "b") out_size
                end |}.

(** Modelled from the spec: [Dense.__call__],
    [activation(x . W + b)] along the last axis, on rank 3 and on rank 2. *)
Definition Dense_call (d : Dense) (x : tensor3) : tensor3 :=
  {| dim0 := dim0 x; dim1 := dim1 x; dim2 := cols2 (dense_W d);
     at3 := fun i j k =>
       dense_activation d
         (sum_n (rows2 (dense_W d))
                (fun l => (at3 x i j l * at2 (dense_W d) l k)%R)
          + at1 (dense_b d) k)%R |}.

(** Modelled from the spec: [Dense.__call__] on rank 2. *)
Definition Dense_call2 (d : Dense) (x : tensor2) : tensor2 :=
  {| rows2 := rows2 x; cols2 := cols2 (dense_W d);
     at2 := fun i k =>
       dense_activation d
         (sum_n (rows2 (dense_W d))
                (fun l => (at2 x i l * at2 (dense_W d) l k)%R)
          + at1 (dense_b d) k)%R |}.

Definition tf_nn_relu (x : R) : R := Rmax 0 x.
Definition identity (x : R) : R := x.

(** *** LayerNorm *)

(** Modelled from the spec: the class [LayerNorm] of [lib.layers], built
    from a name and a size and applied to every position. *)
Record LayerNorm : Type := { ln_name : string; ln_size : nat }.

Definition LayerNorm_init (scope name : string) (inp_size : nat) : LayerNorm :=
  {| ln_name := scoped scope name; ln_size := inp_size |}.

Definition LayerNorm_call (ln : LayerNorm) (x : tensor3) : tensor3 :=
  {| dim0 := dim0 x; dim1 := dim1 x; dim2 := dim2 x;
     at3 := fun i j k =>
       LayerNorm_row (ln_name ln) (ln_size ln) (fun k' => at3 x i j k') k |}.

(** *** Embedding *)

(** Modelled from the spec: the class [Embedding] of [lib.layers].  Token
    ids are embedded by looking up rows of the embedding matrix [mat],
    which may be shared with another embedding. *)
Record Embedding : Type :=
  { emb_name : string; emb_voc_size : nat; emb_dim : nat; mat : tensor2 }.

(** Modelled from the spec: [Embedding.__init__]; [matrix] is the matrix
    handed in, or [None] for a variable of the embedding's own. *)
Definition Embedding_init (vs : variable_store) (scope name : string)
           (voc_size emb_size : nat)
           (matrix : option tensor2) : Embedding :=
  {| emb_name := scoped scope name;
     emb_voc_size := voc_size;
     emb_dim := emb_size;
     mat := match matrix with
            | Some m => m
            | None => get_variable2 vs (scoped (scoped scope name) "mat")
                                    voc_size emb_size
            end |}.

(** Modelled from the spec: [Embedding.__call__], the rows of [mat] at the
    given ids. *)
Definition Embedding_call (e : Embedding) (ids : itensor2) : tensor3 :=
  {| dim0 := irows ids; dim1 := icols ids; dim2 := cols2 (mat e);
     at3 := fun i j k => at2 (mat e) (Z.to_nat (iat2 ids i j)) k |}.

(** *** ResidualLayerWrapper *)

(** Modelled from the spec: the class [ResidualLayerWrapper] of
    [lib.layers].  The wrapper runs an inner layer inside a
    pipeline of steps named by the characters of [steps]: ['l'] normalises
    the input before the inner layer, ['d'] applies dropout to the inner
    output, ['a'] adds the wrapper's input, ['n'] normalises the result.
    The steps after the inner layer run in the order of the string; a step
    that is absent is skipped.  With ['a'] present the input and output
    sizes must agree. *)
Record ResidualLayerWrapper (L : Type) : Type :=
  { rlw_name : string;
    wrapped_layer : L;
    rlw_inp_size : nat;
    rlw_out_size : nat;
    rlw_steps : string;
    rlw_dropout : R;
    rlw_norm_inp : LayerNorm;
    rlw_norm_out : LayerNorm }.

Arguments rlw_name {L} _.
Arguments wrapped_layer {L} _.
Arguments rlw_inp_size {L} _.
Arguments rlw_out_size {L} _.
Arguments rlw_steps {L} _.
Arguments rlw_dropout {L} _.
Arguments rlw_norm_inp {L} _.
Arguments rlw_norm_out {L} _.

Fixpoint has_step (c : Ascii.ascii) (steps : string) : bool :=
  match steps with
  | EmptyString => false
  | String c' rest => if Ascii.eqb c c' then true else has_step c rest
  end.

(** Modelled from the spec: [ResidualLayerWrapper.__init__]; mismatched
    sizes with ['a'] present are a configuration error. *)
Definition ResidualLayerWrapper_init {L : Type} (scope name : string)
           (wrapped : L) (inp_size out_size : nat) (steps : string)
           (dropout : R) : result (ResidualLayerWrapper L) :=
  if has_step "a"%char steps && negb (inp_size =? out_size)
  then Raise (Exception "residual add needs equal input and output sizes")
  else Ok {| rlw_name := scoped scope name;
             wrapped_layer := wrapped;
             rlw_inp_size := inp_size;
             rlw_out_size := out_size;
             rlw_steps := steps;
             rlw_dropout := dropout;
             rlw_norm_inp :=
               LayerNorm_init (scoped scope name) "layer_norm" inp_size;
             rlw_norm_out :=
               LayerNorm_init (scoped scope name) "out_norm" out_size |}.

(** Modelled from the spec: [ResidualLayerWrapper.preprocess], the
    pre-normalise step alone. *)
Definition preprocess {L : Type} (w : ResidualLayerWrapper L) (inp : tensor3)
  : tensor3 :=
  if has_step "l"%char (rlw_steps w) then LayerNorm_call (rlw_norm_inp w) inp
  else inp.

(** Modelled from the spec: the steps of the wrapper that follow the inner
    layer, in the order of [steps]. *)
Fixpoint postprocess_steps {L : Type} (w : ResidualLayerWrapper L)
         (is_dropout_enabled : bool) (rs : random_source)
         (steps : string) (out inp : tensor3) : tensor3 :=
  match steps with
  | EmptyString => out
  | String c rest =>
      let out' :=
        if Ascii.eqb c "d"%char then
          if is_dropout_enabled
          then tf_nn_dropout3 rs (rlw_name w ++ "/dropout") out
                              (1 - rlw_dropout w)%R
          else out
        else if Ascii.eqb c "a"%char then tf_add3 out inp
        else if Ascii.eqb c "n"%char then LayerNorm_call (rlw_norm_out w) out
        else out in
      postprocess_steps w is_dropout_enabled rs rest out' inp
  end.

(** Modelled from the spec: [ResidualLayerWrapper.__call__].  [call] runs
    the inner layer with the extra arguments of the call. *)
Definition ResidualLayerWrapper_call {L : Type} (w : ResidualLayerWrapper L)
           (is_dropout_enabled : bool) (rs : random_source)
           (call : L -> tensor3 -> result tensor3) (inp : tensor3)
  : result tensor3 :=
  out <- call (wrapped_layer w) (preprocess w inp) ;;
  Ok (postprocess_steps w is_dropout_enabled rs (rlw_steps w) out inp).

(* ------------------------------------------------------------------ *)
(** ** FFN: the feed-forward layer *)

Record FFN : Type :=
  { ffn_name : string;
    relu_dropout : R;
    first_conv : Dense;
    second_conv : Dense }.

Definition FFN_init (vs : variable_store) (scope name : string)
           (inp_size hid_size out_size : nat)
           (relu_dropout : R) : FFN :=
  {| ffn_name := scoped scope name;
     relu_dropout := relu_dropout;
     first_conv := Dense_init vs (scoped scope name) "conv1" inp_size hid_size
                              tf_nn_relu None None;
     second_conv := Dense_init vs (scoped scope name) "conv2" hid_size out_size
                               identity None None |}.

Definition FFN_call (self : FFN) (is_dropout_enabled : bool)
           (rs : random_source) (inputs : tensor3) : result tensor3 :=
  let hidden := Dense_call (first_conv self) inputs in
  let hidden :=
    if is_dropout_enabled
    then tf_nn_dropout3 rs (ffn_name self ++ "/dropout") hidden
                        (1 - relu_dropout self)%R
    else hidden in
  let outputs := Dense_call (second_conv self) hidden in
  Ok outputs.

(* ------------------------------------------------------------------ *)
(** ** MultiHeadAttn: multi-head scaled dot-product attention *)

Definition ATTN_BIAS_VALUE : R := (-1e9)%R.

Record MultiHeadAttn : Type :=
  { mha_name : string;
    key_depth : nat;
    value_depth : nat;
    num_heads : nat;
    attn_dropout : R;
    attn_value_dropout : R;
    mha_debug : bool;
    format : string;
    query_conv : Dense;
    kv_conv : Dense;
    combined_conv : Dense;
    out_conv : Dense }.

Definition MultiHeadAttn_init (vs : variable_store) (scope name : string)
           (inp_size key_depth value_depth output_depth num_heads : nat)
           (attn_dropout attn_value_dropout : R) (debug : bool)
           (_format : string) : result MultiHeadAttn :=
  let sc := scoped scope name in
  '(query_conv, kv_conv, combined_conv) <-
    (if String.eqb _format "use_kv" then
       let query_conv :=
         Dense_init vs sc "query_conv" inp_size key_depth identity None None in
       let kv_conv :=
         Dense_init vs sc "mem_conv" inp_size (key_depth + value_depth)
                    identity None None in
       let combined_conv :=
         Dense_init vs sc "combined_conv" inp_size (key_depth * 2 + value_depth)
                    identity
                    (Some (tf_concat2_axis1 (dense_W query_conv) (dense_W kv_conv)))
                    (Some (tf_concat1 (dense_b query_conv) (dense_b kv_conv))) in
       Ok (query_conv, kv_conv, combined_conv)
     else if String.eqb _format "combined" then
       let combined_conv :=
         Dense_init vs sc "mem_conv" inp_size (key_depth * 2 + value_depth)
                    identity None None in
       let query_conv :=
         Dense_init vs sc "query_conv" inp_size key_depth identity
                    (Some (slice2_cols_to (dense_W combined_conv) key_depth))
                    (Some (slice1_to (dense_b combined_conv) key_depth)) in
       let kv_conv :=
         Dense_init vs sc "kv_conv" inp_size (key_depth + value_depth) identity
                    (Some (slice2_cols_from (dense_W combined_conv) key_depth))
                    (Some (slice1_from (dense_b combined_conv) key_depth)) in
       Ok (query_conv, kv_conv, combined_conv)
     else Raise (Exception ("Unexpected format: " ++ _format))) ;;
  Ok {| mha_name := name;
        key_depth := key_depth;
        value_depth := value_depth;
        num_heads := num_heads;
        attn_dropout := attn_dropout;
        attn_value_dropout := attn_value_dropout;
        mha_debug := debug;
        format := _format;
        query_conv := query_conv;
        kv_conv := kv_conv;
        combined_conv := combined_conv;
        out_conv := Dense_init vs sc "out_conv" value_depth output_depth
                               identity None None |}.

(** [tf.reshape(x, [.., num_heads, -1])]: the last axis is cut into
    [num_heads] consecutive blocks. *)
Definition tf_reshape_split_last (x : tensor3) (n : nat) : tensor4 :=
  {| e0 := dim0 x; e1 := dim1 x; e2 := n; e3 := dim2 x / n;
     at4 := fun b t h c => at3 x b t (h * (dim2 x / n) + c) |}.

(** [tf.reshape(x, [.., -1])]: the last two axes are merged. *)
Definition tf_reshape_merge_last (x : tensor4) : tensor3 :=
  {| dim0 := e0 x; dim1 := e1 x; dim2 := e2 x * e3 x;
     at3 := fun b t k => at4 x b t (k / e3 x) (k mod e3 x) |}.

(** Split channels (dimension 3) into multiple heads (dimension 1).  The
    static shape divides the channel size by [num_heads]. *)
Definition MultiHeadAttn_split_heads (self : MultiHeadAttn) (x : tensor3)
  : result tensor4 :=
  if num_heads self =? 0 then Raise ZeroDivisionError
  else
    let ret := tf_reshape_split_last x (num_heads self) in
    Ok (tf_transpose4 ret 0 2 1 3).

(** Inverse of split heads. *)
Definition MultiHeadAttn_combine_heads (self : MultiHeadAttn) (x : tensor4)
  : tensor3 :=
  let x := tf_transpose4 x 0 2 1 3 in
  tf_reshape_merge_last x.

(** The first lines of [__call__]: which projections produce [q], [k] and
    [v]. *)
Definition MultiHeadAttn_qkv (self : MultiHeadAttn) (query_inp : tensor3)
           (kv_inp kv : option tensor3)
  : result (tensor3 * tensor3 * tensor3) :=
  let split_kv (kv : tensor3) :=
    (split3_piece kv 0 (key_depth self),
     split3_piece kv (key_depth self) (value_depth self)) in
  match kv, kv_inp with
  | Some _, Some _ =>
      Raise (AssertionError "please only feed one of kv or kv_inp")
  | Some kv, None =>
      let q := Dense_call (query_conv self) query_inp in
      Ok (q, fst (split_kv kv), snd (split_kv kv))
  | None, Some kv_inp =>
      let q := Dense_call (query_conv self) query_inp in
      let kv := Dense_call (kv_conv self) kv_inp in
      Ok (q, fst (split_kv kv), snd (split_kv kv))
  | None, None =>
      let combined := Dense_call (combined_conv self) query_inp in
      Ok (split3_piece combined 0 (key_depth self),
          split3_piece combined (key_depth self) (key_depth self),
          split3_piece combined (key_depth self + key_depth self)
                       (value_depth self))
  end.

(** Dot-product attention logits: [q] is scaled, multiplied with the
    transposed keys, and the mask bias is added. *)
Definition MultiHeadAttn_logits (self : MultiHeadAttn) (q k attn_mask : tensor4)
  : tensor4 :=
  let key_depth_per_head := (INR (key_depth self) / INR (num_heads self))%R in
  let q := map4 (fun x => x / sqrt key_depth_per_head)%R q in
  let attn_bias := map4 (fun m => ATTN_BIAS_VALUE * (1 - m))%R attn_mask in
  tf_add4 (tf_matmul4 (tf_transpose4 q 0 1 2 3) (tf_transpose4 k 0 1 3 2))
          attn_bias.

(** The scaled dot product of query [i] and key [j] of head [h], and the
    entry of the mask that broadcasts to position [(b, h, i, j)]. *)
Definition scaled_score (self : MultiHeadAttn) (q k : tensor4)
           (b h i j : nat) : R :=
  (sum_n (e3 q) (fun c => at4 q b h i c * at4 k b h j c)
   / sqrt (INR (key_depth self) / INR (num_heads self)))%R.

Definition mask_entry (attn_mask : tensor4) (b h i j : nat) : R :=
  at4 attn_mask (bidx (e0 attn_mask) b) (bidx (e1 attn_mask) h)
      (bidx (e2 attn_mask) i) (bidx (e3 attn_mask) j).

(** [__call__] up to [weights = tf.nn.softmax(logits)]: the weights and
    the value heads they will be applied to. *)
Definition MultiHeadAttn_attention (self : MultiHeadAttn) (query_inp : tensor3)
           (attn_mask : tensor4) (kv_inp kv : option tensor3)
  : result (tensor4 * tensor4) :=
  '(q, k, v) <- MultiHeadAttn_qkv self query_inp kv_inp kv ;;
  q <- MultiHeadAttn_split_heads self q ;;
  k <- MultiHeadAttn_split_heads self k ;;
  v <- MultiHeadAttn_split_heads self v ;;
  let logits := MultiHeadAttn_logits self q k attn_mask in
  let weights := tf_softmax4 logits in
  Ok (weights, v).

(** The attention weights of a call. *)
Definition MultiHeadAttn_weights (self : MultiHeadAttn) (query_inp : tensor3)
           (attn_mask : tensor4) (kv_inp kv : option tensor3)
  : result tensor4 :=
  '(weights, v) <- MultiHeadAttn_attention self query_inp attn_mask kv_inp kv ;;
  Ok weights.

Definition MultiHeadAttn_call (self : MultiHeadAttn)
           (is_dropout_enabled : bool) (rs : random_source)
           (query_inp : tensor3) (attn_mask : tensor4)
           (kv_inp kv : option tensor3) : result tensor3 :=
  '(weights, v) <- MultiHeadAttn_attention self query_inp attn_mask kv_inp kv ;;
  let weights :=
    if is_dropout_enabled
    then tf_nn_dropout4 rs (mha_name self ++ "/dropout") weights
                        (1 - attn_dropout self)%R
    else weights in
  let x := tf_matmul4 weights (tf_transpose4 v 0 1 2 3) in
  let combined_x := MultiHeadAttn_combine_heads self x in
  let combined_x :=
    if is_dropout_enabled
    then tf_nn_dropout3 rs (mha_name self ++ "/dropout_1") combined_x
                        (1 - attn_value_dropout self)%R
    else combined_x in
  let outputs := Dense_call (out_conv self) combined_x in
  Ok outputs.

(* ------------------------------------------------------------------ *)
(** ** Transformer *)

(** What the model uses of a vocabulary: [len(voc)] and [voc.eos]. *)
Record Vocab : Type := { voc_len : nat; eos : Z }.

(** The keyword arguments of [Transformer.__init__] (and [dwwt], read by
    [Model.__init__]).  [None] stands for an argument left at [None];
    [ff_size] is an integer or [None]. *)
Record hparams : Type :=
  { hp_emb_size : option nat;
    hp_hid_size : nat;
    hp_key_size : option nat;
    hp_value_size : option nat;
    hp_inner_hid_size : option nat;
    hp_ff_size : option nat;
    hp_num_heads : nat;
    hp_num_layers : nat;
    hp_attn_dropout : R;
    hp_attn_value_dropout : R;
    hp_relu_dropout : R;
    hp_res_dropout : R;
    hp_debug : bool;
    hp_share_emb : bool;
    hp_inp_emb_bias : bool;
    hp_rescale_emb : bool;
    hp_dst_reverse : bool;
    hp_dst_rand_offset : bool;
    hp_res_steps : string;
    hp_normalize_out : bool;
    hp_multihead_attn_format : string;
    hp_dwwt : bool }.

(** [x if x else d]: [None] and [0] are both false. *)
Definition py_or (x : option nat) (d : nat) : nat :=
  match x with
  | Some (S n) => S n
  | _ => d
  end.

Record Transformer : Type :=
  { t_name : string;
    num_layers_enc : nat;
    num_layers_dec : nat;
    res_dropout : R;
    emb_size : nat;
    hid_size : nat;
    rescale_emb : bool;
    dst_reverse : bool;
    dst_rand_offset : bool;
    normalize_out : bool;
    emb_inp : Embedding;
    emb_out : Embedding;
    emb_inp_bias : option tensor3;
    enc_attn : list (ResidualLayerWrapper MultiHeadAttn);
    enc_ffn : list (ResidualLayerWrapper FFN);
    enc_out_norm : option LayerNorm;
    dec_attn : list (ResidualLayerWrapper MultiHeadAttn);
    dec_enc_attn : list (ResidualLayerWrapper MultiHeadAttn);
    dec_ffn : list (ResidualLayerWrapper FFN);
    dec_out_norm : option LayerNorm }.

(** The sizes [Transformer.__init__] settles before it builds anything:
    the checks on the positional arguments and on the number of heads.
    Returns [(emb_size, key_size, value_size)]. *)
Definition Transformer_init_sizes (_args : list unit) (hp : hparams)
  : result (nat * nat * nat) :=
  match _args with
  | _ :: _ => Raise (Exception "Unexpected positional arguments")
  | [] =>
      let emb_size := py_or (hp_emb_size hp) (hp_hid_size hp) in
      let key_size := py_or (hp_key_size hp) (hp_hid_size hp) in
      let value_size := py_or (hp_value_size hp) (hp_hid_size hp) in
      rk <- py_mod key_size (hp_num_heads hp) ;;
      if negb (rk =? 0) then Raise (Exception "Bad number of heads")
      else
        rv <- py_mod value_size (hp_num_heads hp) ;;
        if negb (rv =? 0) then Raise (Exception "Bad number of heads")
        else Ok (emb_size, key_size, value_size)
  end.

Definition Transformer_init (vs : variable_store) (name : string)
           (inp_voc out_voc : Vocab)
           (_args : list unit) (hp : hparams) : result Transformer :=
  '(emb_size, key_size, value_size) <- Transformer_init_sizes _args hp ;;
  let hid_size := hp_hid_size hp in
  let num_layers := hp_num_layers hp in
  let sz (i : nat) := if i =? 0 then emb_size else hid_size in
  let max_voc_size := Nat.max (voc_len inp_voc) (voc_len out_voc) in
  let emb_inp :=
    Embedding_init vs name "emb_inp"
      (if hp_share_emb hp then max_voc_size else voc_len inp_voc) emb_size
      None in
  let emb_out_matrix := if hp_share_emb hp then Some (mat emb_inp) else None in
  let emb_out :=
    Embedding_init vs name "emb_out"
      (if hp_share_emb hp then max_voc_size else voc_len out_voc) emb_size
      emb_out_matrix in
  let emb_inp_bias :=
    if hp_inp_emb_bias hp
    then Some {| dim0 := 1; dim1 := 1; dim2 := emb_size;
                 at3 := fun _ _ k => vs (scoped name "emb_inp_bias") 0 k |}
    else None in
  let attn_layer (prefix _format : string) (i : nat) :=
    attn <- MultiHeadAttn_init vs name (prefix ++ fmt_i i) (sz i)
              key_size value_size hid_size (hp_num_heads hp)
              (hp_attn_dropout hp) (hp_attn_value_dropout hp) (hp_debug hp)
              _format ;;
    ResidualLayerWrapper_init name (prefix ++ fmt_i i) attn (sz i) (sz i)
                              (hp_res_steps hp) (hp_res_dropout hp) in
  let ffn_layer (prefix : string) (ffn_hid : nat) (i : nat) :=
    ResidualLayerWrapper_init name (prefix ++ fmt_i i)
      (FFN_init vs name (prefix ++ fmt_i i) (sz i) ffn_hid hid_size
                (hp_relu_dropout hp))
      (sz i) hid_size (hp_res_steps hp) (hp_res_dropout hp) in
  enc_attn <- mapM (attn_layer "enc_attn-" "combined") (seq 0 num_layers) ;;
  enc_ffn <- mapM (ffn_layer "enc_ffn-"
                     (py_or (hp_ff_size hp)
                            (py_or (hp_inner_hid_size hp) hid_size)))
                  (seq 0 num_layers) ;;
  let enc_out_norm :=
    if hp_normalize_out hp
    then Some (LayerNorm_init name "enc_out_norm"
                 (if num_layers =? 0 then emb_size else hid_size))
    else None in
  dec_attn <- mapM (attn_layer "dec_attn-" "combined") (seq 0 num_layers) ;;
  dec_enc_attn <-
    mapM (attn_layer "dec_enc_attn-"
            (if String.eqb (hp_multihead_attn_format hp) "v1"
             then "use_kv" else "combined"))
         (seq 0 num_layers) ;;
  dec_ffn <- mapM (ffn_layer "dec_ffn-" (py_or (hp_ff_size hp) hid_size))
                  (seq 0 num_layers) ;;
  let dec_out_norm :=
    if hp_normalize_out hp
    then Some (LayerNorm_init name "dec_out_norm"
                 (if num_layers =? 0 then emb_size else hid_size))
    else None in
  Ok {| t_name := name;
        num_layers_enc := num_layers;
        num_layers_dec := num_layers;
        res_dropout := hp_res_dropout hp;
        emb_size := emb_size;
        hid_size := hid_size;
        rescale_emb := hp_rescale_emb hp;
        dst_reverse := hp_dst_reverse hp;
        dst_rand_offset := hp_dst_rand_offset hp;
        normalize_out := hp_normalize_out hp;
        emb_inp := emb_inp;
        emb_out := emb_out;
        emb_inp_bias := emb_inp_bias;
        enc_attn := enc_attn;
        enc_ffn := enc_ffn;
        enc_out_norm := enc_out_norm;
        dec_attn := dec_attn;
        dec_enc_attn := dec_enc_attn;
        dec_ffn := dec_ffn;
        dec_out_norm := dec_out_norm |}.

(** [_make_enc_attn_mask]: [attn_mask = [batch_size * 1 * 1 * ninp]] *)
Definition Transformer_make_enc_attn_mask (inp : itensor2) (inp_len : itensor1)
  : tensor4 :=
  let inp_mask := tf_sequence_mask inp_len (icols inp) in
  expand_dims_1_2 inp_mask.

(** [_make_dec_attn_mask]: [attn_mask = [1 * 1 * nout * nout]] *)
Definition Transformer_make_dec_attn_mask (out : itensor2) : tensor4 :=
  let length := icols out in
  let lower_triangle := tf_lower_triangle length in
  {| e0 := 1; e1 := 1; e2 := length; e3 := length;
     at4 := fun _ _ i j => at2 lower_triangle i j |}.

(** The [offset] argument of [_add_timing_signal]: a Python number, a
    tensor of some rank, or the string ['random']. *)
Inductive offset_value : Type :=
| OffsetNumber (x : R)
| OffsetTensor0 (x : R)
| OffsetTensor1 (t : tensor1)
| OffsetTensor2 (t : tensor2)
| OffsetTensor3 (t : tensor3).

Inductive offset_arg : Type :=
| Offset (v : offset_value)
| OffsetRandom.

(** The value [signal] of [_add_timing_signal], for an input with [ninp]
    positions of [hid_size] channels.  With a single timescale
    ([hid_size // 2 = 1]) the increment of the log timescale divides by
    zero in the code; the division of the model is total. *)
Definition timing_signal (rs : random_source) (ninp hid_size : nat)
           (min_timescale max_timescale : R) (offset : offset_arg)
           (inp_reverse : option itensor1) : result tensor3 :=
  let position :=
    {| dim0 := 1; dim1 := ninp; dim2 := 1; at3 := fun _ j _ => INR j |} in
  let offset :=
    match offset with
    | OffsetRandom =>
        let BIG_LEN := 32000%Z in
        OffsetTensor3
          (tf_random_uniform_i3 rs "add_timing_signal/random_uniform"
             (dim0 position) (dim1 position) (dim2 position)
             (- BIG_LEN) BIG_LEN)
    | Offset v => v
    end in
  (* force broadcasting over batch axis *)
  offset <-
    match offset with
    | OffsetNumber x =>
        Ok {| dim0 := 1; dim1 := 1; dim2 := 1; at3 := fun _ _ _ => x |}
    | OffsetTensor0 x =>
        Ok {| dim0 := 1; dim1 := 1; dim2 := 1; at3 := fun _ _ _ => x |}
    | OffsetTensor1 t =>
        Ok {| dim0 := len1 t; dim1 := 1; dim2 := 1;
              at3 := fun i _ _ => at1 t i |}
    | OffsetTensor2 t =>
        Ok {| dim0 := rows2 t; dim1 := cols2 t; dim2 := 1;
              at3 := fun i j _ => at2 t i j |}
    | OffsetTensor3 _ =>
        Raise (AssertionError "offset.shape.ndims in (0, 1, 2)")
    end ;;
  let position := tf_add3 position offset in
  let position :=
    match inp_reverse with
    | Some inp_reverse =>
        tf_mul3 position
          {| dim0 := ilen inp_reverse; dim1 := 1; dim2 := 1;
             at3 := fun i _ _ =>
               if (iat1 inp_reverse i =? 0)%Z then 1%R else (-1.0 * 1)%R |}
    | None => position
    end in
  let num_timescales := hid_size / 2 in
  let log_timescale_increment :=
    (ln (max_timescale / min_timescale) / (INR num_timescales - 1))%R in
  let inv_timescales :=
    {| len1 := num_timescales;
       at1 := fun k =>
         (min_timescale * exp (INR k * - log_timescale_increment))%R |} in
  let scaled_time :=
    tf_mul3 position
      {| dim0 := 1; dim1 := 1; dim2 := len1 inv_timescales;
         at3 := fun _ _ k => at1 inv_timescales k |} in
  let signal := tf_concat3_axis2 (map3 sin scaled_time) (map3 cos scaled_time) in
  let signal := tf_pad3_axis2_after (hid_size mod 2) signal in
  Ok signal.

Definition Transformer_add_timing_signal (rs : random_source) (inp : tensor3)
           (min_timescale max_timescale : R) (offset : offset_arg)
           (inp_reverse : option itensor1) : result tensor3 :=
  let ninp := dim1 inp in
  let hid_size := dim2 inp in
  signal <- timing_signal rs ninp hid_size min_timescale max_timescale
                          offset inp_reverse ;;
  Ok (tf_add3 inp signal).

(** [tf.nn.dropout] under [if is_dropout_enabled():]. *)
Definition dropout_if (is_dropout_enabled : bool) (rs : random_source)
           (site : string) (x : tensor3) (keep_prob : R) : tensor3 :=
  if is_dropout_enabled then tf_nn_dropout3 rs site x keep_prob else x.

(** [x *= self.emb_size ** .5] under [if self.rescale_emb:]. *)
Definition rescale_if (self : Transformer) (x : tensor3) : tensor3 :=
  if rescale_emb self then map3 (fun v => v * sqrt (INR (emb_size self)))%R x
  else x.

(** [norm(x)] under [if self.normalize_out:]; the norm layer exists only
    when the model was built with [normalize_out]. *)
Definition normalize_out_if (self : Transformer) (norm : option LayerNorm)
           (x : tensor3) : result tensor3 :=
  if normalize_out self then
    match norm with
    | Some ln => Ok (LayerNorm_call ln x)
    | None => Raise AttributeError
    end
  else Ok x.

(** The bypass of the decoder input for [num_layers_dec == 0]. *)
Definition bypass_if_no_layers (self : Transformer) (enc_out : tensor3)
           (enc_attn_mask : tensor4) (dec_inp : tensor3) : tensor3 :=
  if num_layers_dec self =? 0 then
    let inp_mask := tf_squeeze4_axis3 (tf_transpose4 enc_attn_mask 3 1 2 0) in
    tf_add3 dec_inp (tf_reduce_mean3_axes01 (tf_mul3 enc_out inp_mask))
  else dec_inp.

Definition Transformer_encode (self : Transformer) (rs : random_source)
           (inp : itensor2) (inp_len : itensor1) (is_train : bool)
  : result (tensor3 * tensor4) :=
  let is_dropout_enabled := is_train in
  (* Embeddings *)
  let emb_inp := Embedding_call (emb_inp self) inp in
  let emb_inp := rescale_if self emb_inp in
  let emb_inp :=
    match emb_inp_bias self with
    | Some bias => tf_add3 emb_inp bias
    | None => map3 (fun v => v + 0)%R emb_inp
    end in
  (* Prepare decoder *)
  let enc_attn_mask := Transformer_make_enc_attn_mask inp inp_len in
  enc_inp <- Transformer_add_timing_signal rs emb_inp 1.0 1.0e4
               (Offset (OffsetNumber 0)) None ;;
  (* Apply dropouts *)
  let enc_inp := dropout_if is_dropout_enabled rs (t_name self ++ "_enc/dropout")
                            enc_inp (1.0 - res_dropout self)%R in
  (* Encoder *)
  enc_inp <-
    foldM (fun enc_inp layer =>
             attn <- py_index (enc_attn self) layer ;;
             enc_inp <- ResidualLayerWrapper_call attn is_dropout_enabled rs
                          (fun a x => MultiHeadAttn_call a is_dropout_enabled rs
                                        x enc_attn_mask None None)
                          enc_inp ;;
             ffn <- py_index (enc_ffn self) layer ;;
             ResidualLayerWrapper_call ffn is_dropout_enabled rs
               (fun f x => FFN_call f is_dropout_enabled rs x) enc_inp)
          enc_inp (seq 0 (num_layers_enc self)) ;;
  enc_inp <- normalize_out_if self (enc_out_norm self) enc_inp ;;
  let enc_out := enc_inp in
  Ok (enc_out, enc_attn_mask).

(** Shift right; drop embedding for last word:
    [tf.pad(emb_out, [[0, 0], [1, 0], [0, 0]])[:, :-1, :]]. *)
Definition shift_right (emb_out : tensor3) : tensor3 :=
  slice3_drop_last_axis1 (tf_pad3_axis1_before 1 emb_out).

(** The decoder input built by the first half of [Transformer.decode]:
    embedded, shifted targets plus timing signal, after dropout and the
    zero-layer bypass. *)
Definition Transformer_decode_input (self : Transformer) (rs : random_source)
           (out : itensor2) (out_reverse : option itensor1)
           (enc_out : tensor3) (enc_attn_mask : tensor4) (is_train : bool)
  : result tensor3 :=
  let is_dropout_enabled := is_train in
  (* Embeddings *)
  let emb_out := Embedding_call (emb_out self) out in
  let emb_out := rescale_if self emb_out in
  (* Shift right; drop embedding for last word *)
  let emb_out := shift_right emb_out in
  let offset := if dst_rand_offset self then OffsetRandom
                else Offset (OffsetNumber 0) in
  dec_inp <- Transformer_add_timing_signal rs emb_out 1.0 1.0e4
               offset out_reverse ;;
  (* Apply dropouts *)
  let dec_inp := dropout_if is_dropout_enabled rs (t_name self ++ "_dec/dropout")
                            dec_inp (1.0 - res_dropout self)%R in
  (* bypass info from Encoder to avoid None gradients for num_layers_dec == 0 *)
  Ok (bypass_if_no_layers self enc_out enc_attn_mask dec_inp).

Definition Transformer_decode (self : Transformer) (rs : random_source)
           (out : itensor2) (out_len : itensor1)
           (out_reverse : option itensor1)
           (enc_out : tensor3) (enc_attn_mask : tensor4) (is_train : bool)
  : result tensor3 :=
  let is_dropout_enabled := is_train in
  (* Prepare decoder *)
  let dec_attn_mask := Transformer_make_dec_attn_mask out in
  dec_inp <- Transformer_decode_input self rs out out_reverse enc_out
               enc_attn_mask is_train ;;
  (* Decoder *)
  dec_inp <-
    foldM (fun dec_inp layer =>
             attn <- py_index (dec_attn self) layer ;;
             dec_inp <- ResidualLayerWrapper_call attn is_dropout_enabled rs
                          (fun a x => MultiHeadAttn_call a is_dropout_enabled rs
                                        x dec_attn_mask None None)
                          dec_inp ;;
             enc_attn <- py_index (dec_enc_attn self) layer ;;
             dec_inp <- ResidualLayerWrapper_call enc_attn is_dropout_enabled rs
                          (fun a x => MultiHeadAttn_call a is_dropout_enabled rs
                                        x enc_attn_mask (Some enc_out) None)
                          dec_inp ;;
             ffn <- py_index (dec_ffn self) layer ;;
             ResidualLayerWrapper_call ffn is_dropout_enabled rs
               (fun f x => FFN_call f is_dropout_enabled rs x) dec_inp)
          dec_inp (seq 0 (num_layers_dec self)) ;;
  dec_inp <- normalize_out_if self (dec_out_norm self) dec_inp ;;
  let dec_out := dec_inp in
  Ok dec_out.

(* ------------------------------------------------------------------ *)
(** ** Model *)

Record DecState : Type :=
  { st_enc_out : tensor3;
    st_enc_attn_mask : tensor4;
    st_attnP : tensor2;
    st_rdo : tensor2;
    st_out_seq : itensor2;
    st_offset : tensor1;
    st_emb : tensor3;
    st_dec_layers : list tensor3;
    st_dec_enc_kv : list tensor3;
    st_dec_dec_kv : list tensor3 }.

Record Model : Type :=
  { m_name : string;
    inp_voc : Vocab;
    out_voc : Vocab;
    hp : hparams;
    debug : bool;
    transformer : Transformer;
    logits : Dense }.

(** [default_activation] is the activation of a [Dense] of [lib.layers]
    built without an [activation] argument. *)
Definition Model_init (vs : variable_store) (default_activation : R -> R)
           (name : string) (inp_voc out_voc : Vocab) (hp : hparams)
  : result Model :=
  (* Parameters *)
  transformer <- Transformer_init vs name inp_voc out_voc [] hp ;;
  let projection_matrix :=
    if hp_dwwt hp then Some (tf_transpose2 (mat (emb_out transformer)))
    else None in
  Ok {| m_name := name;
        inp_voc := inp_voc;
        out_voc := out_voc;
        hp := hp;
        debug := hp_debug hp;
        transformer := transformer;
        logits := Dense_init vs name "logits" (hid_size transformer)
                             (voc_len out_voc) default_activation
                             projection_matrix None |}.

(** [batch]: a dict containing ['inp'] and optionally ['inp_len']. *)
Record Batch : Type := { b_inp : itensor2; b_inp_len : option itensor1 }.

(** [tf.concat([out_seq, tf.expand_dims(words, 1)], 1)] *)
Definition append_words (out_seq : itensor2) (words : itensor1) : itensor2 :=
  {| irows := irows out_seq; icols := icols out_seq + 1;
     iat2 := fun i j =>
       if j <? icols out_seq then iat2 out_seq i j else iat1 words i |}.

(** [tf.pad(out_seq, [(0, 0), (0, 1)])] *)
Definition pad_out_seq (out_seq : itensor2) : itensor2 :=
  {| irows := irows out_seq; icols := icols out_seq + 1;
     iat2 := fun i j => if j <? icols out_seq then iat2 out_seq i j else 0%Z |}.

(** [mask[:, :, -1:, :]] *)
Definition slice4_last_axis2 (x : tensor4) : tensor4 :=
  {| e0 := e0 x; e1 := e1 x; e2 := Nat.min 1 (e2 x); e3 := e3 x;
     at4 := fun b h i j => at4 x b h (e2 x - 1 + i) j |}.

(** [words[:, None]] *)
Definition expand_words (words : itensor1) : itensor2 :=
  {| irows := ilen words; icols := 1; iat2 := fun i _ => iat1 words i |}.

(** One layer of the decoding loop of [Model.decode].  The loop carries the
    newest time-step [dec_inp_t] and the two lists it appends to. *)
Definition Model_decode_layer (trans : Transformer)
           (is_dropout_enabled : bool) (rs : random_source)
           (dec_state : DecState) (dec_attn_mask : tensor4)
           (acc : tensor3 * list tensor3 * list tensor3) (layer : nat)
  : result (tensor3 * list tensor3 * list tensor3) :=
  let '(dec_inp_t, new_dec_layers, new_dec_dec_kv) := acc in
  let enc_attn_mask := st_enc_attn_mask dec_state in
  (* multi-head self-attention: use only the newest time-step as query,
     but all time-steps up to newest one as keys/values *)
  attn <- py_index (dec_attn trans) layer ;;
  let next_dec_kv :=
    Dense_call (kv_conv (wrapped_layer attn)) (preprocess attn dec_inp_t) in
  old_dec_kv <- py_index (st_dec_dec_kv dec_state) layer ;;
  let new_dec_dec_kv :=
    (new_dec_dec_kv ++ [tf_concat3_axis1 old_dec_kv next_dec_kv])%list in
  kv <- py_index new_dec_dec_kv layer ;;
  dec_inp_t <- ResidualLayerWrapper_call attn is_dropout_enabled rs
                 (fun a x => MultiHeadAttn_call a is_dropout_enabled rs
                               x dec_attn_mask None (Some kv))
                 dec_inp_t ;;
  enc_attn <- py_index (dec_enc_attn trans) layer ;;
  enc_kv <- py_index (st_dec_enc_kv dec_state) layer ;;
  dec_inp_t <- ResidualLayerWrapper_call enc_attn is_dropout_enabled rs
                 (fun a x => MultiHeadAttn_call a is_dropout_enabled rs
                               x enc_attn_mask None (Some enc_kv))
                 dec_inp_t ;;
  ffn <- py_index (dec_ffn trans) layer ;;
  dec_inp_t <- ResidualLayerWrapper_call ffn is_dropout_enabled rs
                 (fun f x => FFN_call f is_dropout_enabled rs x) dec_inp_t ;;
  prev_dec_layer <- py_index (st_dec_layers dec_state) layer ;;
  let new_dec_inp := tf_concat3_axis1 prev_dec_layer dec_inp_t in
  let new_dec_layers := (new_dec_layers ++ [new_dec_inp])%list in
  Ok (dec_inp_t, new_dec_layers, new_dec_dec_kv).

(** The embedding block of [Model.decode]: zero embeddings on the initial
    step ([words] is [None]), the (rescaled) embedding of the words
    otherwise. *)
Definition Model_decode_embedding (trans : Transformer) (batch_size : nat)
           (words : option itensor1) : tensor3 :=
  match words with
  | None => tf_zeros3 batch_size 1 (emb_size trans)
  | Some words =>
      rescale_if trans (Embedding_call (emb_out trans) (expand_words words))
  end.

(** Performs decoding step given words and previous state.  Returns next
    state.  [words = None] uses zero embeddings (first step). *)
Definition Model_decode (self : Model) (rs : random_source)
           (dec_state : DecState) (words : option itensor1) (is_train : bool)
  : result DecState :=
  let trans := transformer self in
  let enc_out := st_enc_out dec_state in
  let enc_attn_mask := st_enc_attn_mask dec_state in
  let attnP := st_attnP dec_state in
  let rdo := st_rdo dec_state in
  let out_seq := st_out_seq dec_state in
  let offset := st_offset dec_state in
  let prev_emb := st_emb dec_state in
  let dec_enc_kv := st_dec_enc_kv dec_state in
  let batch_size := rows2 rdo in
  let out_seq :=
    match words with
    | Some words => append_words out_seq words
    | None => out_seq
    end in
  let is_dropout_enabled := is_train in
  (* Embeddings *)
  let emb_out := Model_decode_embedding trans batch_size words in
  (* Prepare decoder *)
  dec_inp_t <- Transformer_add_timing_signal rs emb_out 1.0 1.0e4
                 (Offset (OffsetTensor1 offset)) None ;;
  (* Apply dropouts *)
  let dec_inp_t := dropout_if is_dropout_enabled rs (t_name trans ++ "/dropout")
                              dec_inp_t (1.0 - res_dropout trans)%R in
  (* bypass info from Encoder to avoid None gradients for num_layers_dec == 0 *)
  let dec_inp_t := bypass_if_no_layers trans enc_out enc_attn_mask dec_inp_t in
  (* Decoder *)
  let new_emb := tf_concat3_axis1 prev_emb dec_inp_t in
  let _out := pad_out_seq out_seq in
  let dec_attn_mask :=
    slice4_last_axis2 (Transformer_make_dec_attn_mask _out) in
  '(dec_inp_t, new_dec_layers, new_dec_dec_kv) <-
    foldM (Model_decode_layer trans is_dropout_enabled rs dec_state dec_attn_mask)
          (dec_inp_t, [], []) (seq 0 (num_layers_dec trans)) ;;
  dec_inp_t <- normalize_out_if trans (dec_out_norm trans) dec_inp_t ;;
  let rdo := slice3_last_axis1 dec_inp_t in
  let new_state :=
    {| st_enc_out := enc_out;
       st_enc_attn_mask := enc_attn_mask;
       st_attnP := attnP;
       st_rdo := rdo;
       st_out_seq := out_seq;
       st_offset := {| len1 := len1 offset;
                       at1 := fun i => (at1 offset i + 1)%R |};
       st_emb := new_emb;
       st_dec_layers := new_dec_layers;
       st_dec_enc_kv := dec_enc_kv;
       st_dec_dec_kv := new_dec_dec_kv |} in
  Ok new_state.

(** [mapM] over [enumerate(xs)]. *)
Fixpoint mapM_enumerate {A B : Type} (f : nat -> A -> result B) (start : nat)
         (xs : list A) : result (list B) :=
  match xs with
  | [] => Ok []
  | x :: rest =>
      y <- f start x ;; ys <- mapM_enumerate f (S start) rest ;; Ok (y :: ys)
  end.

(** The [offset] of the state built by [Model.encode]: zeros, plus a random
    integer per batch element when [dst_rand_offset] is set. *)
Definition Model_encode_offset (self : Model) (rs : random_source)
           (batch_size : nat) : tensor1 :=
  let offset := tf_zeros1 batch_size in
  if dst_rand_offset (transformer self) then
    let BIG_LEN := 32000%Z in
    let random_offset :=
      tf_random_uniform_i1 rs (t_name (transformer self) ++ "/random_uniform")
                           (len1 offset) (- BIG_LEN) BIG_LEN in
    {| len1 := bdim (len1 offset) (len1 random_offset);
       at1 := fun i => (at1 offset (bidx (len1 offset) i)
                        + at1 random_offset (bidx (len1 random_offset) i))%R |}
  else offset.

(** [Model.encode] up to the state it hands to its initial decode step. *)
Definition Model_encode_state (self : Model) (rs : random_source)
           (batch : Batch) : result DecState :=
  let inp := b_inp batch in
  let inp_len :=
    match b_inp_len batch with
    | Some l => l
    | None => infer_length inp (eos (inp_voc self))
    end in
  (* Encode. *)
  '(enc_out, enc_attn_mask) <-
    Transformer_encode (transformer self) rs inp inp_len false ;;
  (* Decoder dummy input/output *)
  let ninp := icols inp in
  let batch_size := irows inp in
  let hid_size_ := dim2 enc_out in
  let out_seq := tf_zeros_i2 batch_size 0 in
  let rdo := tf_zeros2 batch_size hid_size_ in
  let attnP :=
    {| rows2 := bdim batch_size (ilen inp_len); cols2 := ninp;
       at2 := fun i _ => (1 / IZR (iat1 inp_len (bidx (ilen inp_len) i)))%R |} in
  let offset := Model_encode_offset self rs batch_size in
  let trans := transformer self in
  let empty_emb := tf_zeros3 batch_size 0 (emb_size trans) in
  let empty_dec_layers :=
    repeat (tf_zeros3 batch_size 0 (hid_size trans)) (num_layers_dec trans) in
  let input_layers := ([empty_emb] ++ removelast empty_dec_layers)%list in
  (* prepare kv parts for all decoder attention layers *)
  let dec_enc_kv :=
    map (fun layer => Dense_call (kv_conv (wrapped_layer layer)) enc_out)
        (dec_enc_attn trans) in
  dec_dec_kv <-
    mapM_enumerate
      (fun i layer =>
         input_layer <- py_index input_layers i ;;
         Ok (Dense_call (kv_conv (wrapped_layer layer))
                        (preprocess layer input_layer)))
      0 (dec_attn trans) ;;
  Ok {| st_enc_out := enc_out;
        st_enc_attn_mask := enc_attn_mask;
        st_attnP := attnP;
        st_rdo := rdo;
        st_out_seq := out_seq;
        st_offset := offset;
        st_emb := empty_emb;
        st_dec_layers := empty_dec_layers;
        st_dec_enc_kv := dec_enc_kv;
        st_dec_dec_kv := dec_dec_kv |}.

Definition Model_encode (self : Model) (rs : random_source) (batch : Batch)
           (is_train : bool) : result DecState :=
  new_state <- Model_encode_state self rs batch ;;
  (* perform initial decode (instead of force_bos) with zero embeddings *)
  Model_decode self rs new_state None is_train.

(** Train interface. *)
Definition Model_symbolic_score (self : Model) (rs : random_source)
           (inp out : itensor2) (is_train : bool) : result tensor3 :=
  let inp_len := infer_length inp (eos (inp_voc self)) in
  let out_len := infer_length out (eos (out_voc self)) in
  let out_reverse :=
    {| ilen := ilen inp_len; iat1 := fun _ => 0%Z |} in
  '(enc_out, enc_attn_mask) <-
    Transformer_encode (transformer self) rs inp inp_len is_train ;;
  rdo <- Transformer_decode (transformer self) rs out out_len
           (Some out_reverse) enc_out enc_attn_mask is_train ;;
  Ok (Dense_call (logits self) rdo).

Definition Model_get_logits (self : Model) (dec_state : DecState) : tensor2 :=
  Dense_call2 (logits self) (st_rdo dec_state).

(** A caller that feeds [decode] one batch of words after another, each
    call with its own random draws. *)
Fixpoint Model_decode_steps (self : Model) (dec_state : DecState)
         (steps : list (random_source * itensor1)) (is_train : bool)
  : result DecState :=
  match steps with
  | [] => Ok dec_state
  | (rs, words) :: rest =>
      dec_state' <- Model_decode self rs dec_state (Some words) is_train ;;
      Model_decode_steps self dec_state' rest is_train
  end.

(** The layer lists of a transformer have one entry per layer, every
    attention unit has at least one head, the input bias (when there is
    one) has a single position, and the output norms exist when
    [normalize_out] asks for them. *)
Definition has_heads (l : ResidualLayerWrapper MultiHeadAttn) : bool :=
  negb (num_heads (wrapped_layer l) =? 0).

Definition wf_transformer (t : Transformer) : bool :=
  (List.length (enc_attn t) =? num_layers_enc t)
  && (List.length (enc_ffn t) =? num_layers_enc t)
  && (List.length (dec_attn t) =? num_layers_dec t)
  && (List.length (dec_enc_attn t) =? num_layers_dec t)
  && (List.length (dec_ffn t) =? num_layers_dec t)
  && forallb has_heads (enc_attn t)
  && forallb has_heads (dec_attn t)
  && forallb has_heads (dec_enc_attn t)
  && match emb_inp_bias t with
     | Some bias => dim1 bias =? 1
     | None => true
     end
  && (if normalize_out t
      then match enc_out_norm t, dec_out_norm t with
           | Some _, Some _ => true
           | _, _ => false
           end
      else true).

(** The shape invariant of a decoding state: [k] time-steps in every
    per-layer cache of the decoder, one cache per layer, and an encoder
    mask that broadcasts over the queries. *)
Definition cache_steps (self : Model) (k : nat) (st : DecState) : Prop :=
  e2 (st_enc_attn_mask st) = 1 /\
  List.length (st_dec_dec_kv st) = num_layers_dec (transformer self) /\
  List.length (st_dec_layers st) = num_layers_dec (transformer self) /\
  List.length (st_dec_enc_kv st) = num_layers_dec (transformer self) /\
  Forall (fun kv => dim1 kv = k) (st_dec_dec_kv st) /\
  Forall (fun x => dim1 x = k) (st_dec_layers st).

(** [get_rdo]: the read-out of the last step and the words decoded so
    far. *)
Definition Model_get_rdo (self : Model) (dec_state : DecState)
  : tensor2 * itensor2 :=
  (st_rdo dec_state, st_out_seq dec_state).

Definition Model_get_attnP (self : Model) (dec_state : DecState) : tensor2 :=
  st_attnP dec_state.

(** Equality of rank-4 tensors, as [teq3]. *)
Definition teq4 (a b : tensor4) : Prop :=
  e0 a = e0 b /\ e1 a = e1 b /\ e2 a = e2 b /\ e3 a = e3 b /\
  forall b0 h i j, b0 < e0 a -> h < e1 a -> i < e2 a -> j < e3 a ->
                   at4 a b0 h i j = at4 b b0 h i j.

(** The inputs a decoder layer has been fed so far, as a decoding state
    keeps them: [emb] for the first layer, the entry of [dec_layers] of the
    layer below for the others ([input_layers] of [Model.encode]). *)
Definition cached_layer_input (st : DecState) (layer : nat) : option tensor3 :=
  match layer with
  | 0 => Some (st_emb st)
  | S below => nth_error (st_dec_layers st) below
  end.

(** The self-attention cache of every layer holds the key/value projection
    of the inputs that layer has been fed. *)
Definition kv_cache_consistent (self : Model) (st : DecState) : Prop :=
  forall layer attn kv inputs,
    nth_error (dec_attn (transformer self)) layer = Some attn ->
    nth_error (st_dec_dec_kv st) layer = Some kv ->
    cached_layer_input st layer = Some inputs ->
    teq3 kv (Dense_call (kv_conv (wrapped_layer attn)) (preprocess attn inputs)).

(** [x], a tensor of one position, is position [k] of [y], which has
    [k + 1] positions, for each of [n] sequences. *)
Definition last_row_eq (n k : nat) (x y : tensor3) : Prop :=
  dim0 x = n /\ dim0 y = n /\ dim1 x = 1 /\ dim1 y = k + 1 /\
  dim2 x = dim2 y /\
  forall b c, b < n -> at3 x b 0 c = at3 y b k c.


(** An attention unit that [MultiHeadAttn.__init__] has built with the
    given depths and number of heads. *)
Definition built_unit (a : MultiHeadAttn) (kd vd heads : nat) : Prop :=
  exists vs scope name inp_size od ad avd dbg fmt,
    MultiHeadAttn_init vs scope name inp_size kd vd od heads ad avd dbg fmt
    = Ok a.

(** The words [Model.decode] is fed for position [j] of the targets [out]
    of [n] sequences: none for the initial step, column [j - 1] after. *)
Definition words_for_position (n j : nat) (out : itensor2)
           (words : option itensor1) : Prop :=
  match words with
  | None => j = 0
  | Some w =>
      1 <= j /\ ilen w = n /\
      forall b, b < n -> iat1 w b = iat2 out b (j - 1)
  end.

(** A decoding state that has been fed the first [j] positions of the
    decoder input [D] of the batch decoder, for [n] sequences. *)
Definition decoding_prefix (self : Model) (n j : nat) (D : tensor3)
           (st : DecState) : Prop :=
  dim0 (st_emb st) = n /\ dim1 (st_emb st) = j /\
  dim2 (st_emb st) = dim2 D /\
  (forall b i c, b < n -> i < j -> at3 (st_emb st) b i c = at3 D b i c) /\
  len1 (st_offset st) = n /\
  (forall b, b < n -> at1 (st_offset st) b = INR j) /\
  rows2 (st_rdo st) = n /\
  icols (st_out_seq st) = j - 1 /\
  kv_cache_consistent self st /\
  cache_steps self j st.

(* ------------------------------------------------------------------ *)
(** ** [src/run.py]: the command line of the driver

    Of [run.py] the part that decides what [run_model] is called with is
    modelled: the argument namespace, the filter [main] applies to it, and
    the two places where [run_model] reads the input length limit.  Reading
    files, building the session and running the graph are left out. *)

(** The value of a parsed argument: [None] for an option that was not
    given, a string, an integer ([type=int]) or a float ([type=float]). *)
Inductive arg_value : Type :=
| ArgNone
| ArgStr (s : string)
| ArgInt (n : Z)
| ArgFloat (x : PrimFloat.float).

(** The truth value Python gives an argument value: [None], the empty
    string and a zero are false. *)
Definition truthy (v : arg_value) : bool :=
  match v with
  | ArgNone => false
  | ArgStr s => negb (String.eqb s "")
  | ArgInt n => negb (n =? 0)%Z
  | ArgFloat x => negb (PrimFloat.eqb x PrimFloat.zero)
  end.

(** What [parser.parse_args()] returns for the parser of [main]. *)
Record cli_args : Type :=
  { a_model : string;
    a_data_path : option string;
    a_model_path : option string;
    a_input_path : option string;
    a_output_path : option string;
    a_hp_file_path : option string;
    a_batch_size_for_inference : option Z;
    a_max_input_len : option Z;
    a_gpu_memory_fraction : option PrimFloat.float }.

Definition opt_arg {A : Type} (f : A -> arg_value) (x : option A) : arg_value :=
  match x with
  | Some a => f a
  | None => ArgNone
  end.

(** [vars(args)]: a dict with one entry per argument, in the order in
    which the arguments were added to the parser. *)
Definition vars (args : cli_args) : list (string * arg_value) :=
  [ ("model", ArgStr (a_model args));
    ("data_path", opt_arg ArgStr (a_data_path args));
    ("model_path", opt_arg ArgStr (a_model_path args));
    ("input_path", opt_arg ArgStr (a_input_path args));
    ("output_path", opt_arg ArgStr (a_output_path args));
    ("hp_file_path", opt_arg ArgStr (a_hp_file_path args));
    ("batch_size_for_inference",
     opt_arg ArgInt (a_batch_size_for_inference args));
    ("max_input_len", opt_arg ArgInt (a_max_input_len args));
    ("gpu_memory_fraction", opt_arg ArgFloat (a_gpu_memory_fraction args)) ].

(** [config = dict(filter(lambda x: x[1], config.items()))] *)
Definition main_config (args : cli_args) : list (string * arg_value) :=
  filter (fun x => truthy (snd x)) (vars args).

(** [config.get(key, default)] *)
Definition dict_get (config : list (string * arg_value)) (key : string)
           (default : arg_value) : arg_value :=
  match find (fun entry => String.eqb (fst entry) key) config with
  | Some entry => snd entry
  | None => default
  end.

(** [max_len = config.get('max_input_len', 200)] of [run_model]. *)
Definition run_model_max_len (config : list (string * arg_value)) : arg_value :=
  dict_get config "max_input_len" (ArgInt 200).

(** [x[:, :stop]] on an array for an integer [stop]: a negative [stop]
    counts from the end. *)
Definition slice_cols_to (x : itensor2) (stop : Z) : itensor2 :=
  {| irows := irows x;
     icols := if (stop <? 0)%Z then Z.to_nat (Z.of_nat (icols x) + stop)
              else Nat.min (Z.to_nat stop) (icols x);
     iat2 := iat2 x |}.

(* ================================================================== *)
(** * A small model and concrete runs

    A model with two layers and two heads of hidden size 4, all of whose
    variables are zero, run on the input [[5, 8, 2]]. *)

Definition zero_variables : string -> nat -> nat -> R := fun _ _ _ => 0%R.

Definition plain_norm : string -> nat -> (nat -> R) -> nat -> R :=
  fun _ _ row k => row k.

Definition full_length (inp : itensor2) (eos : Z) : itensor1 :=
  {| ilen := irows inp; iat1 := fun _ => Z.of_nat (icols inp) |}.

Definition example_voc : Vocab := {| voc_len := 10; eos := 2%Z |}.

Definition make_hp (heads layers : nat) (rand_offset : bool) : hparams :=
  {| hp_emb_size := None; hp_hid_size := 4; hp_key_size := None;
     hp_value_size := None; hp_inner_hid_size := None; hp_ff_size := None;
     hp_num_heads := heads; hp_num_layers := layers;
     hp_attn_dropout := 0%R; hp_attn_value_dropout := 0%R;
     hp_relu_dropout := 0%R; hp_res_dropout := 0.1%R;
     hp_debug := false; hp_share_emb := false; hp_inp_emb_bias := false;
     hp_rescale_emb := false; hp_dst_reverse := false;
     hp_dst_rand_offset := rand_offset; hp_res_steps := "ldan";
     hp_normalize_out := false; hp_multihead_attn_format := "v1";
     hp_dwwt := false |}.

(** A model without layers, the fallback of [from_ok]. *)
Definition empty_model : Model :=
  {| m_name := ""; inp_voc := example_voc; out_voc := example_voc;
     hp := make_hp 1 0 false; debug := false;
     transformer :=
       {| t_name := ""; num_layers_enc := 0; num_layers_dec := 0;
          res_dropout := 0%R; emb_size := 0; hid_size := 0;
          rescale_emb := false; dst_reverse := false;
          dst_rand_offset := false; normalize_out := false;
          emb_inp := Embedding_init zero_variables "" "" 0 0 None;
          emb_out := Embedding_init zero_variables "" "" 0 0 None;
          emb_inp_bias := None; enc_attn := []; enc_ffn := [];
          enc_out_norm := None; dec_attn := []; dec_enc_attn := [];
          dec_ffn := []; dec_out_norm := None |};
     logits := Dense_init zero_variables "" "" 0 0 identity None None |}.

Definition example_model : Model :=
  from_ok empty_model
          (Model_init zero_variables identity "mod" example_voc example_voc
                      (make_hp 2 2 false)).

(** The same model with [dst_rand_offset] on. *)
Definition example_model_rand : Model :=
  from_ok empty_model
          (Model_init zero_variables identity "mod" example_voc example_voc
                      (make_hp 2 2 true)).

Definition example_batch : Batch :=
  {| b_inp := {| irows := 1; icols := 3;
                 iat2 := fun _ j =>
                   match j with 0 => 5%Z | 1 => 8%Z | _ => 2%Z end |};
     b_inp_len := None |}.

Definition example_words : itensor1 := {| ilen := 1; iat1 := fun _ => 7%Z |}.

(** Two runs' worth of random draws that differ in the integers drawn. *)
Definition draws_zero : random_source :=
  {| draw_int := fun _ _ _ _ => 0%Z; draw_unit := fun _ _ _ _ _ => 0%R |}.
Definition draws_one : random_source :=
  {| draw_int := fun _ _ _ _ => 1%Z; draw_unit := fun _ _ _ _ _ => 0%R |}.

(** A decoding state for [example_model] with empty caches. *)
Definition example_state : DecState :=
  {| st_enc_out := tf_zeros3 1 3 4;
     st_enc_attn_mask :=
       Transformer_make_enc_attn_mask (b_inp example_batch)
         (full_length (b_inp example_batch) 2%Z);
     st_attnP := tf_zeros2 1 3;
     st_rdo := tf_zeros2 1 4;
     st_out_seq := tf_zeros_i2 1 0;
     st_offset := tf_zeros1 1;
     st_emb := tf_zeros3 1 0 4;
     st_dec_layers := [tf_zeros3 1 0 4; tf_zeros3 1 0 4];
     st_dec_enc_kv := [tf_zeros3 1 3 8; tf_zeros3 1 3 8];
     st_dec_dec_kv := [tf_zeros3 1 0 8; tf_zeros3 1 0 8] |}.

(** An attention unit whose depths 6 are not divisible by its 4 heads, and
    a well-formed one; [no_attn] is the fallback of [from_ok]. *)
Definition no_attn : MultiHeadAttn :=
  {| mha_name := ""; key_depth := 0; value_depth := 0; num_heads := 0;
     attn_dropout := 0%R; attn_value_dropout := 0%R; mha_debug := false;
     format := "";
     query_conv := Dense_init zero_variables "" "" 0 0 identity None None;
     kv_conv := Dense_init zero_variables "" "" 0 0 identity None None;
     combined_conv := Dense_init zero_variables "" "" 0 0 identity None None;
     out_conv := Dense_init zero_variables "" "" 0 0 identity None None |}.

Definition example_attn : MultiHeadAttn :=
  from_ok no_attn
          (MultiHeadAttn_init zero_variables "mod" "dec_attn-0" 4 4 4 4 2
                              0%R 0%R false "combined").

(** One query position, three positions, and two masks: one that blocks the
    only key of a single position, one that blocks the last of three keys. *)
Definition one_position : tensor3 :=
  {| dim0 := 1; dim1 := 1; dim2 := 4; at3 := fun _ _ k => INR k |}.
Definition three_positions : tensor3 :=
  {| dim0 := 1; dim1 := 3; dim2 := 4; at3 := fun _ j k => INR (j + k) |}.
Definition blocked_mask : tensor4 :=
  {| e0 := 1; e1 := 1; e2 := 1; e3 := 1; at4 := fun _ _ _ _ => 0%R |}.
Definition padding_mask : tensor4 :=
  {| e0 := 1; e1 := 1; e2 := 1; e3 := 3;
     at4 := fun _ _ _ j => if j <? 2 then 1%R else 0%R |}.

(** Reversal flags for two sequences, the second of them reversed; the
    offset of a single sequence after its first step; the last of the
    [three_positions]; and a target batch of one sequence. *)
Definition second_reversed : itensor1 :=
  {| ilen := 2; iat1 := fun b => match b with 0 => 0%Z | _ => 1%Z end |}.

Definition offset_one : tensor1 := {| len1 := 1; at1 := fun _ => INR 1 |}.

Definition last_position : tensor3 :=
  {| dim0 := 1; dim1 := 1; dim2 := 4;
     at3 := fun b _ c => at3 three_positions b 2 c |}.

Definition example_out : itensor2 :=
  {| irows := 1; icols := 3;
     iat2 := fun _ j => match j with 0 => 7%Z | 1 => 4%Z | _ => 2%Z end |}.

(** The second word of [example_out], fed after [example_words]. *)
Definition example_words_next : itensor1 :=
  {| ilen := 1; iat1 := fun _ => 4%Z |}.

(* ================================================================== *)
(** * Properties *)

(** ** Results and loops *)

Lemma bind_ok {A B : Type} (r : result A) (k : A -> result B) (b : B) :
  bind r k = Ok b -> exists a, r = Ok a /\ k a = Ok b.
Proof.
  destruct r as [a | e]; simpl; intros H.
  - exists a; split; [reflexivity | exact H].
  - discriminate H.
Qed.

Lemma is_ok_inv {A : Type} (r : result A) :
  is_ok r = true -> exists a, r = Ok a.
Proof.
  destruct r as [a | e]; simpl; intros H.
  - exists a. reflexivity.
  - discriminate H.
Qed.

Ltac inv_bind H :=
  let a := fresh "v" in
  let Ha := fresh "Hv" in
  apply bind_ok in H; destruct H as [a [Ha H]].

Lemma py_index_ok {A : Type} (xs : list A) (i : nat) :
  i < List.length xs -> exists x, py_index xs i = Ok x /\ In x xs.
Proof.
  intros Hi. unfold py_index.
  destruct (nth_error xs i) as [x |] eqn:E.
  - exists x; split; [reflexivity | eapply nth_error_In; exact E].
  - apply nth_error_None in E. lia.
Qed.

Lemma py_index_In {A : Type} (xs : list A) (i : nat) (x : A) :
  py_index xs i = Ok x -> In x xs /\ i < List.length xs.
Proof.
  unfold py_index. destruct (nth_error xs i) as [y |] eqn:E; intros H.
  - injection H as <-. split.
    + eapply nth_error_In; exact E.
    + apply nth_error_Some. congruence.
  - discriminate H.
Qed.

Lemma foldM_ext {A B : Type} (f g : A -> B -> result A) (xs : list B) :
  (forall acc x, f acc x = g acc x) ->
  forall acc, foldM f acc xs = foldM g acc xs.
Proof.
  intros Hfg. induction xs as [| x rest IH]; intros acc; simpl.
  - reflexivity.
  - rewrite Hfg. destruct (g acc x) as [a | e]; simpl; [apply IH | reflexivity].
Qed.

(** A loop whose body keeps an invariant and never raises on states that
    satisfy it returns a state that satisfies it. *)
Lemma foldM_invariant {A B : Type} (P : A -> Prop) (f : A -> B -> result A)
      (xs : list B) :
  (forall acc x, P acc -> In x xs -> exists acc', f acc x = Ok acc' /\ P acc') ->
  forall acc, P acc -> exists acc', foldM f acc xs = Ok acc' /\ P acc'.
Proof.
  induction xs as [| x rest IH]; intros Hstep acc Hacc; simpl.
  - exists acc; split; [reflexivity | exact Hacc].
  - destruct (Hstep acc x Hacc (or_introl eq_refl)) as [acc1 [E1 P1]].
    rewrite E1; simpl. apply IH; [| exact P1].
    intros a y Pa Hy. apply Hstep; [exact Pa | right; exact Hy].
Qed.

(** The same when the loop is known to return. *)
Lemma foldM_preserves {A B : Type} (P : A -> Prop) (f : A -> B -> result A)
      (xs : list B) :
  (forall acc x acc', P acc -> f acc x = Ok acc' -> P acc') ->
  forall acc acc', P acc -> foldM f acc xs = Ok acc' -> P acc'.
Proof.
  intros Hstep. induction xs as [| x rest IH]; intros acc acc' Hacc H; simpl in H.
  - injection H as <-. exact Hacc.
  - inv_bind H. eapply IH; [| exact H]. eapply Hstep; eassumption.
Qed.

(** ** Sums and broadcasting *)

Lemma sum_n_ext (n : nat) (f g : nat -> R) :
  (forall i, i < n -> f i = g i) -> sum_n n f = sum_n n g.
Proof.
  induction n as [| n IH]; intros H; simpl.
  - reflexivity.
  - rewrite IH by (intros i Hi; apply H; lia). rewrite H by lia. reflexivity.
Qed.

Lemma sum_n_scale (n : nat) (f : nat -> R) (c : R) :
  sum_n n (fun i => (f i * c)%R) = (sum_n n f * c)%R.
Proof.
  induction n as [| n IH]; simpl.
  - ring.
  - rewrite IH. ring.
Qed.

Lemma sum_n_pos (n : nat) (f : nat -> R) :
  0 < n -> (forall i, i < n -> (0 < f i)%R) -> (0 < sum_n n f)%R.
Proof.
  induction n as [| n IH]; intros Hn Hf.
  - lia.
  - simpl. destruct n as [| m].
    + simpl. specialize (Hf 0 (Nat.lt_0_succ 0)). lra.
    + assert (0 < sum_n (S m) f)%R by (apply IH; [lia | intros; apply Hf; lia]).
      specialize (Hf (S m) (Nat.lt_succ_diag_r (S m))). lra.
Qed.

Lemma sum_n_ge_term (n : nat) (f : nat -> R) (j : nat) :
  (forall i, i < n -> (0 <= f i)%R) -> j < n -> (f j <= sum_n n f)%R.
Proof.
  induction n as [| n IH]; intros Hf Hj; [lia |].
  simpl.
  assert (Hs : (0 <= sum_n n f)%R).
  { clear IH Hj. induction n as [| m IHm]; simpl; [lra |].
    assert (0 <= sum_n m f)%R by (apply IHm; intros; apply Hf; lia).
    specialize (Hf m ltac:(lia)). lra. }
  destruct (Nat.eq_dec j n) as [-> | Hne].
  - lra.
  - assert (f j <= sum_n n f)%R by (apply IH; [intros; apply Hf; lia | lia]).
    specialize (Hf n ltac:(lia)). lra.
Qed.

Lemma bdim_same (n : nat) : bdim n n = n.
Proof. unfold bdim. destruct (n =? 1); reflexivity. Qed.

Lemma bdim_1_r (n : nat) : bdim n 1 = n.
Proof. unfold bdim. destruct (n =? 1) eqn:E; [apply Nat.eqb_eq in E; lia | reflexivity]. Qed.

Lemma bdim_1_l (n : nat) : bdim 1 n = n.
Proof. reflexivity. Qed.

Lemma bidx_lt (d i : nat) : i < d -> bidx d i = i.
Proof.
  unfold bidx. intros H. destruct (d =? 1) eqn:E; [| reflexivity].
  apply Nat.eqb_eq in E. lia.
Qed.

(** ** The timing signal *)

Lemma timing_signal_ok (rs : random_source) (ninp hid : nat) (mn mx : R)
      (v : offset_value) (rev : option itensor1) :
  (forall t, v <> OffsetTensor3 t) ->
  exists s, timing_signal rs ninp hid mn mx (Offset v) rev = Ok s.
Proof.
  intros Hv. unfold timing_signal.
  destruct v as [x | x | t | t | t]; simpl; try (eexists; reflexivity).
  exfalso. eapply Hv. reflexivity.
Qed.

Lemma timing_signal_row (rs rs' : random_source) (hid N k : nat)
      (min_timescale max_timescale : R) :
  k < N ->
  exists s1 sN,
    timing_signal rs 1 hid min_timescale max_timescale
                  (Offset (OffsetNumber (INR k))) None = Ok s1 /\
    timing_signal rs' N hid min_timescale max_timescale
                  (Offset (OffsetNumber 0)) None = Ok sN /\
    dim0 s1 = 1 /\ dim0 sN = 1 /\
    dim1 s1 = 1 /\ dim1 sN = N /\ dim2 s1 = hid /\ dim2 sN = hid /\
    forall c, at3 s1 0 0 c = at3 sN 0 k c.
Proof.
  intros Hk. eexists. eexists.
  split; [reflexivity |]. split; [reflexivity |].
  cbn [dim0 dim1 dim2 at3 tf_pad3_axis2_after tf_concat3_axis2 map3 tf_mul3
       tf_add3 bmap3 len1 at1].
  rewrite !bdim_1_r. rewrite !bdim_1_l.
  repeat split.
  - pose proof (Nat.div_mod_eq hid 2). lia.
  - pose proof (Nat.div_mod_eq hid 2). lia.
  - intros c.
    assert (Hpos : (INR (bidx 1 (bidx 1 0)) + INR k
                    = INR (bidx N (bidx N k)) + 0)%R).
    { rewrite !(bidx_lt N) by (try rewrite bidx_lt; lia). simpl. ring. }
    cbn [bidx Nat.eqb] in *.
    rewrite Hpos. reflexivity.
Qed.

(** C2.  For every hidden size [hid], every offset [k] and every length
    [N > k], the positional signal for a length-1 input at offset [k] is
    row [k] of the signal for a length-[N] input at offset 0: both are
    produced, have [hid] channels, and agree on every channel.  Hence
    [_add_timing_signal] maps a single position at offset [k] to what it
    maps position [k] of a whole sequence to at offset 0. *)
Theorem timing_signal_step_is_row (rs rs' : random_source) (hid N k : nat)
        (min_timescale max_timescale : R) :
  k < N ->
  (exists s1 sN,
      timing_signal rs 1 hid min_timescale max_timescale
                    (Offset (OffsetNumber (INR k))) None = Ok s1 /\
      timing_signal rs' N hid min_timescale max_timescale
                    (Offset (OffsetNumber 0)) None = Ok sN /\
      dim1 s1 = 1 /\ dim1 sN = N /\ dim2 s1 = hid /\ dim2 sN = hid /\
      forall c, at3 s1 0 0 c = at3 sN 0 k c) /\
  (forall inp1 inpN : tensor3,
      dim0 inp1 = dim0 inpN ->
      dim1 inp1 = 1 -> dim1 inpN = N -> dim2 inp1 = hid -> dim2 inpN = hid ->
      (forall b c, at3 inp1 b 0 c = at3 inpN b k c) ->
      exists o1 oN,
        Transformer_add_timing_signal rs inp1 min_timescale max_timescale
                                      (Offset (OffsetNumber (INR k))) None
        = Ok o1 /\
        Transformer_add_timing_signal rs' inpN min_timescale max_timescale
                                      (Offset (OffsetNumber 0)) None
        = Ok oN /\
        dim1 o1 = 1 /\ dim1 oN = N /\
        forall b c, at3 o1 b 0 c = at3 oN b k c).
Proof.
  intros Hk.
  destruct (timing_signal_row rs rs' hid N k min_timescale max_timescale Hk)
    as (s1 & sN & E1 & EN & Z1 & ZN & D1 & DN & C1 & CN & Hrow).
  split.
  { exists s1, sN. repeat split; assumption. }
  intros inp1 inpN H0 H1 HN H21 H2N Hinp.
  unfold Transformer_add_timing_signal.
  rewrite H1, HN, H21, H2N, E1, EN. cbn [bind].
  eexists. eexists. split; [reflexivity |]. split; [reflexivity |].
  cbn [dim1 at3 tf_add3 bmap3].
  rewrite H1, HN, D1, DN, Z1, ZN, H21, H2N, C1, CN, H0.
  split; [reflexivity |]. split; [apply bdim_same |].
  intros b c. cbn [bidx Nat.eqb].
  rewrite (bidx_lt N k Hk), Hinp, Hrow. reflexivity.
Qed.

(** ** The shifted decoder input and the causal mask *)

Lemma shift_right_dims (x : tensor3) :
  dim0 (shift_right x) = dim0 x /\
  dim1 (shift_right x) = dim1 x /\
  dim2 (shift_right x) = dim2 x.
Proof. unfold shift_right; simpl. repeat split. lia. Qed.


(** ** The two projection layouts *)

Lemma teq3_refl (x : tensor3) : teq3 x x.
Proof. unfold teq3. repeat split; reflexivity. Qed.

(** C8.  For an attention unit built in either format and every input [x],
    the three pieces of [combined_conv(x)] cut at
    [[key_depth, key_depth, value_depth]] are [query_conv(x)] and the two
    pieces of [kv_conv(x)] cut at [[key_depth, value_depth]]. *)
Theorem combined_projection_splits (vs : variable_store) (scope name : string)
        (inp_size kd vd output_depth heads : nat) (ad avd : R) (dbg : bool)
        (_format : string) (attn : MultiHeadAttn) (x : tensor3) :
  MultiHeadAttn_init vs scope name inp_size kd vd output_depth heads ad avd dbg
                     _format = Ok attn ->
  let combined := Dense_call (combined_conv attn) x in
  let kv := Dense_call (kv_conv attn) x in
  (_format = "use_kv" \/ _format = "combined") /\
  key_depth attn = kd /\ value_depth attn = vd /\
  teq3 (split3_piece combined 0 kd) (Dense_call (query_conv attn) x) /\
  teq3 (split3_piece combined kd kd) (split3_piece kv 0 kd) /\
  teq3 (split3_piece combined (kd + kd) vd) (split3_piece kv kd vd).
Proof.
  unfold MultiHeadAttn_init. intros Hinit.
  destruct (String.eqb _format "use_kv") eqn:Huse.
  - apply String.eqb_eq in Huse. simpl in Hinit. injection Hinit as <-.
    split; [left; exact Huse |]. split; [reflexivity |]. split; [reflexivity |].
    unfold teq3; cbn -[Nat.ltb Nat.add Nat.sub Nat.mul].
    repeat split;
      intros i j k _ _ Hk; unfold identity;
      (f_equal; [apply sum_n_ext; intros l _; f_equal |]);
      repeat match goal with
             | |- context [?a <? ?b] => destruct (Nat.ltb_spec a b); try lia
             end;
      try reflexivity; f_equal; lia.
  - destruct (String.eqb _format "combined") eqn:Hcomb.
    + apply String.eqb_eq in Hcomb. simpl in Hinit. injection Hinit as <-.
      split; [right; exact Hcomb |]. split; [reflexivity |]. split; [reflexivity |].
      unfold teq3; cbn -[Nat.ltb Nat.add Nat.sub Nat.mul Nat.min].
      repeat split; try lia;
        intros i j k _ _ _; unfold identity;
        (f_equal; [apply sum_n_ext; intros l _; f_equal |]);
        try reflexivity; f_equal; lia.
    + simpl in Hinit. discriminate Hinit.
Qed.

(** ** Validation of the number of heads *)

Lemma MultiHeadAttn_init_ok (vs : variable_store) (scope name : string)
      (inp_size kd vd output_depth heads : nat) (ad avd : R) (dbg : bool)
      (_format : string) :
  _format = "use_kv" \/ _format = "combined" ->
  exists attn,
    MultiHeadAttn_init vs scope name inp_size kd vd output_depth heads ad avd dbg
                       _format = Ok attn /\
    key_depth attn = kd /\ value_depth attn = vd /\ num_heads attn = heads.
Proof.
  intros [-> | ->]; unfold MultiHeadAttn_init; simpl;
    eexists; (split; [reflexivity |]); repeat split.
Qed.

Lemma Transformer_init_sizes_bad_heads (hp : hparams) :
  hp_num_heads hp <> 0 ->
  (py_or (hp_key_size hp) (hp_hid_size hp)) mod (hp_num_heads hp) <> 0 \/
  (py_or (hp_value_size hp) (hp_hid_size hp)) mod (hp_num_heads hp) <> 0 ->
  Transformer_init_sizes [] hp = Raise (Exception "Bad number of heads").
Proof.
  intros Hnh Hbad. unfold Transformer_init_sizes, py_mod.
  destruct (hp_num_heads hp =? 0) eqn:E0.
  - apply Nat.eqb_eq in E0. contradiction.
  - simpl.
    destruct (py_or (hp_key_size hp) (hp_hid_size hp) mod hp_num_heads hp =? 0)
             eqn:Ek; simpl; [| reflexivity].
    destruct (py_or (hp_value_size hp) (hp_hid_size hp) mod hp_num_heads hp =? 0)
             eqn:Ev; simpl; [| reflexivity].
    apply Nat.eqb_eq in Ek, Ev. destruct Hbad; contradiction.
Qed.

(** C6 (as the code has it).  The divisibility check lives in
    [Transformer.__init__]: with a non-zero [num_heads] that does not divide
    the key size or the value size, the argument checks raise
    ["Bad number of heads"], so the constructor raises it before it builds
    any embedding, layer or variable.  [MultiHeadAttn.__init__] itself
    checks only the format name: in both formats it returns a unit for
    every depth and every number of heads. *)
Theorem transformer_rejects_bad_heads (vs : variable_store) (name : string)
        (inp_voc out_voc : Vocab) (hp : hparams) :
  hp_num_heads hp <> 0 ->
  (py_or (hp_key_size hp) (hp_hid_size hp)) mod (hp_num_heads hp) <> 0 \/
  (py_or (hp_value_size hp) (hp_hid_size hp)) mod (hp_num_heads hp) <> 0 ->
  Transformer_init_sizes [] hp = Raise (Exception "Bad number of heads") /\
  Transformer_init vs name inp_voc out_voc [] hp
  = Raise (Exception "Bad number of heads") /\
  (forall scope nm inp_size kd vd output_depth heads ad avd dbg _format,
      _format = "use_kv" \/ _format = "combined" ->
      exists attn,
        MultiHeadAttn_init vs scope nm inp_size kd vd output_depth heads ad avd
                           dbg _format = Ok attn /\
        key_depth attn = kd /\ value_depth attn = vd /\
        num_heads attn = heads).
Proof.
  intros Hnh Hbad.
  pose proof (Transformer_init_sizes_bad_heads hp Hnh Hbad) as Hsizes.
  split; [exact Hsizes |]. split.
  - unfold Transformer_init. rewrite Hsizes. reflexivity.
  - intros. apply MultiHeadAttn_init_ok. assumption.
Qed.

(** ** Attention weights under a mask *)

Lemma MultiHeadAttn_weights_inv (self : MultiHeadAttn) (query_inp : tensor3)
      (attn_mask : tensor4) (kv_inp kv : option tensor3) (W : tensor4) :
  MultiHeadAttn_weights self query_inp attn_mask kv_inp kv = Ok W ->
  exists q3 k3 v3 q k,
    MultiHeadAttn_qkv self query_inp kv_inp kv = Ok (q3, k3, v3) /\
    MultiHeadAttn_split_heads self q3 = Ok q /\
    MultiHeadAttn_split_heads self k3 = Ok k /\
    W = tf_softmax4 (MultiHeadAttn_logits self q k attn_mask).
Proof.
  unfold MultiHeadAttn_weights, MultiHeadAttn_attention. intros H.
  inv_bind H. destruct v as [weights vh]. injection H as <-.
  inv_bind Hv. destruct v as [[q3 k3] v3].
  inv_bind Hv. inv_bind Hv. inv_bind Hv.
  injection Hv as <- <-.
  exists q3, k3, v3. do 2 eexists.
  split; [exact Hv0 |]. split; [eassumption |]. split; [eassumption |].
  reflexivity.
Qed.

(** The logit of query [i] and key [j]: the scaled dot product plus the
    bias of the mask entry that broadcasts to [(i, j)]. *)
Lemma MultiHeadAttn_logits_entry (self : MultiHeadAttn) (q k attn_mask : tensor4)
      (b h i j : nat) :
  b < e0 q -> h < e1 q -> i < e2 q -> j < e2 k ->
  at4 (MultiHeadAttn_logits self q k attn_mask) b h i j
  = (scaled_score self q k b h i j
     + ATTN_BIAS_VALUE * (1 - mask_entry attn_mask b h i j))%R.
Proof.
  intros Hb Hh Hi Hj.
  unfold MultiHeadAttn_logits, tf_add4, scaled_score, mask_entry.
  cbn [at4 bmap4 tf_matmul4 tf_transpose4 map4 e0 e1 e2 e3 sel4 unperm4 Nat.eqb].
  rewrite !bidx_lt by assumption.
  f_equal. unfold Rdiv. rewrite <- sum_n_scale.
  apply sum_n_ext. intros c _. ring.
Qed.

Lemma softmax_entry_pos (x : tensor4) (b h i j : nat) :
  j < e3 x -> (0 < at4 (tf_softmax4 x) b h i j)%R.
Proof.
  intros Hj. simpl. apply Rdiv_lt_0_compat; [apply exp_pos |].
  apply sum_n_pos; [lia | intros; apply exp_pos].
Qed.

Lemma softmax_entry_le_1 (x : tensor4) (b h i j : nat) :
  j < e3 x -> (at4 (tf_softmax4 x) b h i j <= 1)%R.
Proof.
  intros Hj. simpl.
  assert (Hpos : (0 < sum_n (e3 x) (fun j' => exp (at4 x b h i j')))%R)
    by (apply sum_n_pos; [lia | intros; apply exp_pos]).
  pose proof (sum_n_ge_term (e3 x) (fun j' => exp (at4 x b h i j')) j
                (fun i' _ => Rlt_le _ _ (exp_pos _)) Hj) as Hle.
  cbv beta in Hle.
  apply (Rmult_le_reg_r (sum_n (e3 x) (fun j' => exp (at4 x b h i j'))));
    [exact Hpos |].
  unfold Rdiv. rewrite Rmult_assoc, Rinv_l by lra. lra.
Qed.

(** With a single key the softmax weight is 1, whatever the logit. *)
Lemma softmax_single_key (x : tensor4) (b h i : nat) :
  e3 x = 1 -> at4 (tf_softmax4 x) b h i 0 = 1%R.
Proof.
  intros H1. simpl. rewrite H1. simpl.
  pose proof (exp_pos (at4 x b h i 0)). field. lra.
Qed.

(** C5 (as the code has it).  For every attention call with a mask, the
    weights are the softmax over the key axis of the logits
    [(Q.K^T) / sqrt(key_depth / num_heads) + (-1e9) * (1 - mask)].  For a
    query that has a key with [mask = 1], the weight of every key with
    [mask = 0] is numerically zero: it lies between 0 and
    [exp(score_j - score_j' - 1e9)], with [j'] the unmasked key.  The
    unmasked key is needed: a query with a single key gives it weight 1
    whatever the mask. *)
Theorem attention_mask_bias (self : MultiHeadAttn) (query_inp : tensor3)
        (attn_mask : tensor4) (kv_inp kv : option tensor3) (W : tensor4) :
  MultiHeadAttn_weights self query_inp attn_mask kv_inp kv = Ok W ->
  exists q3 k3 v3 q k,
    MultiHeadAttn_qkv self query_inp kv_inp kv = Ok (q3, k3, v3) /\
    MultiHeadAttn_split_heads self q3 = Ok q /\
    MultiHeadAttn_split_heads self k3 = Ok k /\
    let L := MultiHeadAttn_logits self q k attn_mask in
    ATTN_BIAS_VALUE = (-1e9)%R /\
    (forall b h i j,
        b < e0 q -> h < e1 q -> i < e2 q -> j < e2 k ->
        at4 L b h i j
        = (scaled_score self q k b h i j
           + ATTN_BIAS_VALUE * (1 - mask_entry attn_mask b h i j))%R) /\
    (forall b h i j,
        at4 W b h i j
        = (exp (at4 L b h i j)
           / sum_n (e3 L) (fun j' => exp (at4 L b h i j')))%R) /\
    (forall b h i j j',
        b < e0 q -> h < e1 q -> i < e2 q -> j < e2 k -> j' < e2 k ->
        j < e3 L -> j' < e3 L ->
        mask_entry attn_mask b h i j = 0%R ->
        mask_entry attn_mask b h i j' = 1%R ->
        (0 <= at4 W b h i j
         <= exp (scaled_score self q k b h i j - scaled_score self q k b h i j'
                 + ATTN_BIAS_VALUE))%R) /\
    (forall b h i, e3 L = 1 -> at4 W b h i 0 = 1%R).
Proof.
  intros H.
  destruct (MultiHeadAttn_weights_inv _ _ _ _ _ _ H)
    as (q3 & k3 & v3 & q & k & Hqkv & Hq & Hk & ->).
  exists q3, k3, v3, q, k.
  split; [exact Hqkv |]. split; [exact Hq |]. split; [exact Hk |].
  intros L.
  assert (Hratio : forall b h i j j',
             b < e0 q -> h < e1 q -> i < e2 q -> j < e2 k -> j' < e2 k ->
             mask_entry attn_mask b h i j = 0%R ->
             mask_entry attn_mask b h i j' = 1%R ->
             at4 (tf_softmax4 L) b h i j
             = (at4 (tf_softmax4 L) b h i j'
                * exp (scaled_score self q k b h i j
                       - scaled_score self q k b h i j' + ATTN_BIAS_VALUE))%R).
  { intros b h i j j' Hb Hh Hi Hj Hj' Hm0 Hm1.
    cbn [at4 tf_softmax4].
    assert (EL : at4 L b h i j
                 = (at4 L b h i j'
                    + (scaled_score self q k b h i j
                       - scaled_score self q k b h i j' + ATTN_BIAS_VALUE))%R).
    { unfold L. rewrite !MultiHeadAttn_logits_entry by assumption.
      rewrite Hm0, Hm1. ring. }
    rewrite EL, exp_plus. unfold Rdiv. ring. }
  split; [reflexivity |].
  split.
  { intros b h i j Hb Hh Hi Hj. unfold L.
    apply MultiHeadAttn_logits_entry; assumption. }
  split; [reflexivity |].
  split.
  { intros b h i j j' Hb Hh Hi Hj Hj' HjL Hj'L Hm0 Hm1. fold L.
    split; [left; apply softmax_entry_pos; exact HjL |].
    rewrite (Hratio b h i j j') by assumption.
    pose proof (softmax_entry_le_1 L b h i j' Hj'L) as Hle.
    pose proof (exp_pos (scaled_score self q k b h i j
                         - scaled_score self q k b h i j' + ATTN_BIAS_VALUE)).
    rewrite <- (Rmult_1_l (exp _)) at 2.
    apply Rmult_le_compat_r; [lra | exact Hle]. }
  intros b h i HeL. fold L. apply softmax_single_key. exact HeL.
Qed.

(** ** Time-steps through the layers *)

Lemma preprocess_dim1 {L : Type} (w : ResidualLayerWrapper L) (x : tensor3) :
  dim1 (preprocess w x) = dim1 x.
Proof. unfold preprocess. destruct (has_step "l" (rlw_steps w)); reflexivity. Qed.

Lemma postprocess_steps_dim1 {L : Type} (w : ResidualLayerWrapper L)
      (d : bool) (rs : random_source) (steps : string) (inp : tensor3) (n : nat) :
  dim1 inp = n ->
  forall out, dim1 out = n -> dim1 (postprocess_steps w d rs steps out inp) = n.
Proof.
  intros Hinp. induction steps as [| c rest IH]; intros out Hout; simpl.
  - exact Hout.
  - apply IH.
    destruct (Ascii.eqb c "d").
    + destruct d; exact Hout.
    + destruct (Ascii.eqb c "a").
      * simpl. rewrite Hout, Hinp. apply bdim_same.
      * destruct (Ascii.eqb c "n"); exact Hout.
Qed.

Lemma rescale_if_dim1 (self : Transformer) (x : tensor3) :
  dim1 (rescale_if self x) = dim1 x.
Proof. unfold rescale_if. destruct (rescale_emb self); reflexivity. Qed.

Lemma dropout_if_dim1 (d : bool) (rs : random_source) (site : string)
      (x : tensor3) (p : R) :
  dim1 (dropout_if d rs site x p) = dim1 x.
Proof. destruct d; reflexivity. Qed.

Lemma bypass_if_no_layers_dim1 (self : Transformer) (enc_out : tensor3)
      (mask : tensor4) (x : tensor3) :
  dim1 (bypass_if_no_layers self enc_out mask x) = dim1 x.
Proof.
  unfold bypass_if_no_layers. destruct (num_layers_dec self =? 0); [| reflexivity].
  simpl. apply bdim_1_r.
Qed.

Lemma normalize_out_if_ok (self : Transformer) (norm : option LayerNorm)
      (x : tensor3) :
  (normalize_out self = true -> norm <> None) ->
  exists y, normalize_out_if self norm x = Ok y /\ dim1 y = dim1 x.
Proof.
  intros Hn. unfold normalize_out_if.
  destruct (normalize_out self).
  - destruct norm as [ln |].
    + eexists; split; reflexivity.
    + exfalso. apply Hn; reflexivity.
  - eexists; split; reflexivity.
Qed.

Lemma MultiHeadAttn_qkv_ok (self : MultiHeadAttn) (x : tensor3)
      (kv_inp kv : option tensor3) :
  kv_inp = None \/ kv = None ->
  exists q k v, MultiHeadAttn_qkv self x kv_inp kv = Ok (q, k, v) /\
                dim1 q = dim1 x.
Proof.
  intros Hone. unfold MultiHeadAttn_qkv.
  destruct kv as [t |], kv_inp as [u |];
    try (destruct Hone; discriminate);
    do 3 eexists; split; reflexivity.
Qed.

Lemma MultiHeadAttn_qkv_dim1 (self : MultiHeadAttn) (x : tensor3)
      (kv_inp kv : option tensor3) (q k v : tensor3) :
  MultiHeadAttn_qkv self x kv_inp kv = Ok (q, k, v) -> dim1 q = dim1 x.
Proof.
  unfold MultiHeadAttn_qkv.
  destruct kv as [t |], kv_inp as [u |]; intros H;
    try discriminate H; injection H as <- <- <-; reflexivity.
Qed.

Lemma MultiHeadAttn_split_heads_inv (self : MultiHeadAttn) (x : tensor3)
      (y : tensor4) :
  MultiHeadAttn_split_heads self x = Ok y ->
  num_heads self <> 0 /\
  y = tf_transpose4 (tf_reshape_split_last x (num_heads self)) 0 2 1 3.
Proof.
  unfold MultiHeadAttn_split_heads.
  destruct (num_heads self =? 0) eqn:E; intros H; [discriminate H |].
  apply Nat.eqb_neq in E. injection H as <-. split; [exact E | reflexivity].
Qed.

Lemma MultiHeadAttn_split_heads_ok (self : MultiHeadAttn) (x : tensor3) :
  num_heads self <> 0 ->
  MultiHeadAttn_split_heads self x
  = Ok (tf_transpose4 (tf_reshape_split_last x (num_heads self)) 0 2 1 3).
Proof.
  intros H. unfold MultiHeadAttn_split_heads.
  apply Nat.eqb_neq in H. rewrite H. reflexivity.
Qed.

(** A call without [kv_inp] and [kv] on a single position has a single
    key: its weight is 1 whatever the mask says. *)
Lemma MultiHeadAttn_weights_single_key (self : MultiHeadAttn) (x : tensor3)
      (attn_mask W : tensor4) (b h i : nat) :
  MultiHeadAttn_weights self x attn_mask None None = Ok W ->
  dim1 x = 1 -> e3 attn_mask = 1 ->
  at4 W b h i 0 = 1%R.
Proof.
  intros H Hx Hm.
  destruct (MultiHeadAttn_weights_inv _ _ _ _ _ _ H)
    as (q3 & k3 & v3 & q & k & Hqkv & Hq & Hk & ->).
  apply softmax_single_key.
  apply MultiHeadAttn_split_heads_inv in Hk. destruct Hk as [_ ->].
  unfold MultiHeadAttn_qkv in Hqkv. injection Hqkv as <- <- <-.
  simpl. rewrite Hx, Hm. reflexivity.
Qed.

(** The output of an attention call has one row per query, stretched to the
    query axis of the mask. *)
Lemma MultiHeadAttn_call_dim1 (self : MultiHeadAttn) (d : bool)
      (rs : random_source) (x : tensor3) (mask : tensor4)
      (kv_inp kv : option tensor3) (y : tensor3) :
  MultiHeadAttn_call self d rs x mask kv_inp kv = Ok y ->
  dim1 y = bdim (dim1 x) (e2 mask).
Proof.
  unfold MultiHeadAttn_call, MultiHeadAttn_attention. intros H.
  inv_bind H. destruct v as [weights vh]. injection H as <-.
  inv_bind Hv. destruct v as [[q3 k3] v3].
  apply MultiHeadAttn_qkv_dim1 in Hv0.
  inv_bind Hv. inv_bind Hv. inv_bind Hv.
  apply MultiHeadAttn_split_heads_inv in Hv1. destruct Hv1 as [_ ->].
  injection Hv as <- <-.
  destruct d; simpl; rewrite Hv0; reflexivity.
Qed.

Lemma MultiHeadAttn_call_ok (self : MultiHeadAttn) (d : bool)
      (rs : random_source) (x : tensor3) (mask : tensor4)
      (kv_inp kv : option tensor3) :
  num_heads self <> 0 -> kv_inp = None \/ kv = None ->
  exists y, MultiHeadAttn_call self d rs x mask kv_inp kv = Ok y.
Proof.
  intros Hnh Hone. unfold MultiHeadAttn_call, MultiHeadAttn_attention.
  destruct (MultiHeadAttn_qkv_ok self x kv_inp kv Hone) as (q & k & v & -> & _).
  simpl. rewrite !MultiHeadAttn_split_heads_ok by exact Hnh. simpl.
  eexists; reflexivity.
Qed.

Lemma has_heads_spec (l : ResidualLayerWrapper MultiHeadAttn) :
  has_heads l = true -> num_heads (wrapped_layer l) <> 0.
Proof.
  unfold has_heads. intros H. apply negb_true_iff in H.
  apply Nat.eqb_neq. exact H.
Qed.

(** An attention layer inside its residual wrapper keeps the number of
    time-steps of its input when the mask has one query row or one row per
    query. *)
Lemma attn_layer_ok (w : ResidualLayerWrapper MultiHeadAttn) (d : bool)
      (rs : random_source) (mask : tensor4) (kv_inp kv : option tensor3)
      (inp : tensor3) :
  has_heads w = true -> kv_inp = None \/ kv = None ->
  e2 mask = 1 \/ e2 mask = dim1 inp ->
  exists y,
    ResidualLayerWrapper_call w d rs
      (fun a x => MultiHeadAttn_call a d rs x mask kv_inp kv) inp = Ok y /\
    dim1 y = dim1 inp.
Proof.
  intros Hh Hone Hmask. unfold ResidualLayerWrapper_call.
  destruct (MultiHeadAttn_call_ok (wrapped_layer w) d rs (preprocess w inp)
              mask kv_inp kv (has_heads_spec w Hh) Hone) as [out Hout].
  rewrite Hout. simpl. eexists; split; [reflexivity |].
  apply postprocess_steps_dim1; [reflexivity |].
  apply MultiHeadAttn_call_dim1 in Hout. rewrite Hout, preprocess_dim1.
  destruct Hmask as [-> | ->]; [apply bdim_1_r | apply bdim_same].
Qed.

Lemma ffn_layer_ok (w : ResidualLayerWrapper FFN) (d : bool)
      (rs : random_source) (inp : tensor3) :
  exists y,
    ResidualLayerWrapper_call w d rs (fun f x => FFN_call f d rs x) inp = Ok y /\
    dim1 y = dim1 inp.
Proof.
  unfold ResidualLayerWrapper_call, FFN_call. simpl.
  eexists; split; [reflexivity |].
  apply postprocess_steps_dim1; [reflexivity |].
  destruct d; simpl; apply preprocess_dim1.
Qed.

Lemma add_timing_signal_ok (rs : random_source) (inp : tensor3) (mn mx : R)
      (v : offset_value) :
  (exists x, v = OffsetNumber x) \/ (exists t, v = OffsetTensor1 t) ->
  exists y, Transformer_add_timing_signal rs inp mn mx (Offset v) None = Ok y /\
            dim1 y = dim1 inp.
Proof.
  intros [[x ->] | [t ->]]; unfold Transformer_add_timing_signal, timing_signal;
    simpl; (eexists; split; [reflexivity |]); simpl;
    rewrite !bdim_1_r; apply bdim_same.
Qed.

(** ** Well-formed transformers *)

Lemma wf_transformer_spec (t : Transformer) :
  wf_transformer t = true ->
  List.length (enc_attn t) = num_layers_enc t /\
  List.length (enc_ffn t) = num_layers_enc t /\
  List.length (dec_attn t) = num_layers_dec t /\
  List.length (dec_enc_attn t) = num_layers_dec t /\
  List.length (dec_ffn t) = num_layers_dec t /\
  (forall l, In l (enc_attn t) -> has_heads l = true) /\
  (forall l, In l (dec_attn t) -> has_heads l = true) /\
  (forall l, In l (dec_enc_attn t) -> has_heads l = true) /\
  (forall bias, emb_inp_bias t = Some bias -> dim1 bias = 1) /\
  (normalize_out t = true -> enc_out_norm t <> None) /\
  (normalize_out t = true -> dec_out_norm t <> None).
Proof.
  unfold wf_transformer. intros H.
  repeat (apply andb_prop in H; destruct H as [H ?]).
  repeat match goal with
         | E : (_ =? _) = true |- _ => apply Nat.eqb_eq in E
         | E : forallb _ _ = true |- _ => rewrite forallb_forall in E
         end.
  repeat split; try assumption.
  - intros bias Hb. rewrite Hb in *. apply Nat.eqb_eq. assumption.
  - intros Hn. rewrite Hn in *.
    destruct (enc_out_norm t); [discriminate | ].
    match goal with E : false = true |- _ => discriminate E
                  | E : match dec_out_norm t with _ => _ end = true |- _ =>
                      destruct (dec_out_norm t); discriminate E end.
  - intros Hn. rewrite Hn in *.
    destruct (enc_out_norm t); destruct (dec_out_norm t);
      try discriminate;
      match goal with E : false = true |- _ => discriminate E end.
Qed.

(** The encoder returns, with one output row per input position and a mask
    with a single query row. *)
Lemma Transformer_encode_ok (self : Transformer) (rs : random_source)
      (inp : itensor2) (inp_len : itensor1) (is_train : bool) :
  wf_transformer self = true ->
  exists enc_out,
    Transformer_encode self rs inp inp_len is_train
    = Ok (enc_out, Transformer_make_enc_attn_mask inp inp_len) /\
    dim1 enc_out = icols inp.
Proof.
  intros Hwf.
  destruct (wf_transformer_spec self Hwf)
    as (La & Lf & _ & _ & _ & Ha & _ & _ & Hb & Hn & _).
  unfold Transformer_encode.
  set (emb := match emb_inp_bias self with
              | Some bias => _
              | None => _
              end).
  assert (Hemb : dim1 emb = icols inp).
  { unfold emb. destruct (emb_inp_bias self) as [bias |] eqn:Eb; simpl.
    - rewrite rescale_if_dim1, (Hb bias eq_refl). simpl. apply bdim_1_r.
    - rewrite rescale_if_dim1. reflexivity. }
  destruct (add_timing_signal_ok rs emb 1.0 1.0e4 (OffsetNumber 0)
              (or_introl (ex_intro _ 0%R eq_refl))) as [enc0 [E0 D0]].
  rewrite E0. cbn [bind].
  set (mask := Transformer_make_enc_attn_mask inp inp_len).
  match goal with
  | |- context [foldM ?f ?a ?xs] =>
      assert (HF : exists acc', foldM f a xs = Ok acc' /\ dim1 acc' = icols inp)
  end.
  { apply (foldM_invariant (fun x => dim1 x = icols inp)).
    - intros acc layer Hacc Hin. apply in_seq in Hin.
      destruct (py_index_ok (enc_attn self) layer) as [attn [-> Hattn]]; [lia |].
      cbn [bind].
      destruct (attn_layer_ok attn is_train rs mask None None acc (Ha attn Hattn)
                  (or_introl eq_refl) (or_introl eq_refl)) as [y [-> Dy]].
      cbn [bind].
      destruct (py_index_ok (enc_ffn self) layer) as [ffn [-> _]]; [lia |].
      cbn [bind].
      destruct (ffn_layer_ok ffn is_train rs y) as [z [-> Dz]].
      exists z. split; [reflexivity | congruence].
    - rewrite dropout_if_dim1, D0. exact Hemb. }
  destruct HF as [enc1 [E1 D1]].
  - rewrite E1. cbn [bind].
    destruct (normalize_out_if_ok self (enc_out_norm self) enc1 Hn) as [y [-> Dy]].
    cbn [bind]. exists y. split; [reflexivity | congruence].
Qed.

(** ** One decoding step *)

Lemma py_index_app_last {A : Type} (xs : list A) (a : A) :
  py_index (xs ++ [a])%list (List.length xs) = Ok a.
Proof.
  unfold py_index. rewrite nth_error_app2 by lia.
  rewrite Nat.sub_diag. reflexivity.
Qed.

Lemma Forall_In_dim1 (k : nat) (xs : list tensor3) (x : tensor3) :
  Forall (fun t => dim1 t = k) xs -> In x xs -> dim1 x = k.
Proof. intros H Hin. rewrite Forall_forall in H. apply H. exact Hin. Qed.

Lemma Model_decode_layer_ok (self : Model) (d : bool) (rs : random_source)
      (st : DecState) (mask : tensor4) (x : tensor3) (ls kvs : list tensor3)
      (layer k : nat) :
  wf_transformer (transformer self) = true ->
  cache_steps self k st ->
  layer < num_layers_dec (transformer self) ->
  e2 mask = 1 -> dim1 x = 1 -> List.length kvs = layer ->
  exists x' l' kv',
    Model_decode_layer (transformer self) d rs st mask (x, ls, kvs) layer
    = Ok (x', (ls ++ [l'])%list, (kvs ++ [kv'])%list) /\
    dim1 x' = 1 /\ dim1 l' = k + 1 /\ dim1 kv' = k + 1.
Proof.
  intros Hwf (Hm & Lkv & Ll & Lekv & Fkv & Fl) Hlayer Hmask Hx Hlen.
  subst layer.
  destruct (wf_transformer_spec _ Hwf)
    as (_ & _ & La & Lea & Lf & _ & Ha & Hea & _).
  unfold Model_decode_layer.
  destruct (py_index_ok (dec_attn (transformer self)) (List.length kvs))
    as [attn [-> Hattn]]; [lia |]. cbn [bind].
  destruct (py_index_ok (st_dec_dec_kv st) (List.length kvs)) as [old [-> Hold]]; [lia |].
  cbn [bind].
  rewrite py_index_app_last. cbn [bind].
  set (kv' := tf_concat3_axis1 old _).
  destruct (attn_layer_ok attn d rs mask None (Some kv') x (Ha attn Hattn)
              (or_introl eq_refl) (or_introl Hmask)) as [y1 [-> D1]].
  cbn [bind].
  destruct (py_index_ok (dec_enc_attn (transformer self)) (List.length kvs))
    as [eattn [-> Heattn]]; [lia |]. cbn [bind].
  destruct (py_index_ok (st_dec_enc_kv st) (List.length kvs)) as [ekv [-> _]]; [lia |].
  cbn [bind].
  destruct (attn_layer_ok eattn d rs (st_enc_attn_mask st) None (Some ekv) y1
              (Hea eattn Heattn) (or_introl eq_refl) (or_introl Hm))
    as [y2 [-> D2]].
  cbn [bind].
  destruct (py_index_ok (dec_ffn (transformer self)) (List.length kvs))
    as [ffn [-> _]]; [lia |]. cbn [bind].
  destruct (ffn_layer_ok ffn d rs y2) as [y3 [-> D3]]. cbn [bind].
  destruct (py_index_ok (st_dec_layers st) (List.length kvs)) as [prev [-> Hprev]]; [lia |].
  cbn [bind].
  exists y3, (tf_concat3_axis1 prev y3), kv'.
  split; [reflexivity |]. split; [congruence |]. split.
  - simpl. rewrite (Forall_In_dim1 k _ prev Fl Hprev). lia.
  - unfold kv'. simpl. rewrite (Forall_In_dim1 k _ old Fkv Hold).
    rewrite preprocess_dim1. lia.
Qed.

Lemma Model_decode_loop_ok (self : Model) (d : bool) (rs : random_source)
      (st : DecState) (mask : tensor4) (k : nat) :
  wf_transformer (transformer self) = true ->
  cache_steps self k st ->
  e2 mask = 1 ->
  forall m a x ls kvs,
    a + m = num_layers_dec (transformer self) ->
    dim1 x = 1 -> List.length ls = a -> List.length kvs = a ->
    Forall (fun t => dim1 t = k + 1) ls ->
    Forall (fun t => dim1 t = k + 1) kvs ->
    exists x' ls' kvs',
      foldM (Model_decode_layer (transformer self) d rs st mask)
            (x, ls, kvs) (seq a m) = Ok (x', ls', kvs') /\
      dim1 x' = 1 /\
      List.length ls' = a + m /\ List.length kvs' = a + m /\
      Forall (fun t => dim1 t = k + 1) ls' /\
      Forall (fun t => dim1 t = k + 1) kvs'.
Proof.
  intros Hwf Hst Hmask.
  induction m as [| m IH]; intros a x ls kvs Ham Hx Hls Hkvs Fls Fkvs.
  - simpl. exists x, ls, kvs. repeat split; try assumption; lia.
  - cbn [seq foldM].
    destruct (Model_decode_layer_ok self d rs st mask x ls kvs a k Hwf Hst)
      as (x1 & l1 & kv1 & -> & Hx1 & Hl1 & Hkv1); try assumption; [lia |].
    cbn [bind].
    destruct (IH (S a) x1 (ls ++ [l1])%list (kvs ++ [kv1])%list)
      as (x' & ls' & kvs' & E & Hx' & Lls' & Lkvs' & F1 & F2);
      try assumption; try lia.
    + rewrite length_app. simpl. lia.
    + rewrite length_app. simpl. lia.
    + apply Forall_app. split; [assumption | constructor; [assumption | constructor]].
    + apply Forall_app. split; [assumption | constructor; [assumption | constructor]].
    + exists x', ls', kvs'. repeat split; try assumption; lia.
Qed.

(** A decoding step on a state with [k] cached time-steps returns a state
    with [k + 1]: it leaves the encoder output, its mask and the
    cross-attention cache alone, appends the words (when given) to the
    output sequence, and advances the offset by one. *)
Lemma Model_decode_ok (self : Model) (rs : random_source) (st : DecState)
      (words : option itensor1) (is_train : bool) (k : nat) :
  wf_transformer (transformer self) = true ->
  cache_steps self k st ->
  exists st',
    Model_decode self rs st words is_train = Ok st' /\
    cache_steps self (k + 1) st' /\
    st_enc_out st' = st_enc_out st /\
    st_enc_attn_mask st' = st_enc_attn_mask st /\
    st_dec_enc_kv st' = st_dec_enc_kv st /\
    st_out_seq st' = match words with
                     | Some w => append_words (st_out_seq st) w
                     | None => st_out_seq st
                     end /\
    len1 (st_offset st') = len1 (st_offset st) /\
    (forall i, at1 (st_offset st') i = (at1 (st_offset st) i + 1)%R) /\
    exists x,
      Transformer_add_timing_signal rs
        (Model_decode_embedding (transformer self) (rows2 (st_rdo st)) words)
        1.0 1.0e4 (Offset (OffsetTensor1 (st_offset st))) None = Ok x /\
      st_emb st'
      = tf_concat3_axis1 (st_emb st)
          (bypass_if_no_layers (transformer self) (st_enc_out st)
             (st_enc_attn_mask st)
             (dropout_if is_train rs (t_name (transformer self) ++ "/dropout")
                         x (1.0 - res_dropout (transformer self))%R)).
Proof.
  intros Hwf Hst.
  pose proof Hst as (Hm & Lkv & Ll & Lekv & Fkv & Fl).
  destruct (wf_transformer_spec _ Hwf) as (_ & _ & _ & _ & _ & _ & _ & _ & _ & _ & Hn).
  unfold Model_decode.
  set (emb := Model_decode_embedding _ _ _).
  assert (Hemb : dim1 emb = 1).
  { unfold emb, Model_decode_embedding.
    destruct words; [rewrite rescale_if_dim1 |]; reflexivity. }
  destruct (add_timing_signal_ok rs emb 1.0 1.0e4 (OffsetTensor1 (st_offset st))
              (or_intror (ex_intro _ _ eq_refl))) as [x0 [E0 D0]].
  rewrite E0.
  cbn [bind].
  set (x1 := bypass_if_no_layers _ _ _ _).
  assert (Hx1 : dim1 x1 = 1).
  { unfold x1. rewrite bypass_if_no_layers_dim1, dropout_if_dim1. congruence. }
  set (mask := slice4_last_axis2 _).
  assert (Hmask : e2 mask = 1).
  { unfold mask.
    cbn [e2 slice4_last_axis2 Transformer_make_dec_attn_mask pad_out_seq icols].
    rewrite Nat.add_1_r. reflexivity. }
  destruct (Model_decode_loop_ok self is_train rs st mask k Hwf Hst Hmask
              (num_layers_dec (transformer self)) 0 x1 [] [])
    as (x' & ls' & kvs' & -> & Hx' & Lls' & Lkvs' & F1 & F2);
    try reflexivity; try assumption; try constructor.
  cbn [bind].
  destruct (normalize_out_if_ok (transformer self)
              (dec_out_norm (transformer self)) x' Hn) as [y [-> Dy]].
  cbn [bind].
  eexists. split; [reflexivity |].
  cbn [st_enc_out st_enc_attn_mask st_dec_enc_kv st_out_seq st_offset st_emb
       len1 at1].
  split.
  { unfold cache_steps; cbn. repeat split; assumption. }
  do 6 (split; [reflexivity |]).
  exists x0. split; reflexivity.
Qed.

(** ** The state built by [encode] *)

Lemma removelast_repeat {A : Type} (x : A) (n : nat) :
  removelast (repeat x n) = repeat x (n - 1).
Proof.
  induction n as [| n IH]; [reflexivity |].
  destruct n as [| m]; [reflexivity |].
  change (removelast (repeat x (S (S m))))
    with (x :: removelast (repeat x (S m))).
  rewrite IH. simpl. rewrite Nat.sub_0_r. reflexivity.
Qed.

Lemma mapM_enumerate_kv_ok (input_layers : list tensor3)
      (layers : list (ResidualLayerWrapper MultiHeadAttn)) :
  Forall (fun t => dim1 t = 0) input_layers ->
  forall start,
    start + List.length layers <= List.length input_layers ->
    exists ys,
      mapM_enumerate
        (fun i layer =>
           input_layer <- py_index input_layers i ;;
           Ok (Dense_call (kv_conv (wrapped_layer layer))
                          (preprocess layer input_layer)))
        start layers = Ok ys /\
      List.length ys = List.length layers /\
      Forall (fun t => dim1 t = 0) ys.
Proof.
  intros Hin. induction layers as [| l rest IH]; intros start Hlen.
  - exists []. repeat split; constructor.
  - cbn [mapM_enumerate]. simpl in Hlen.
    destruct (py_index_ok input_layers start) as [il [-> Hil]]; [lia |].
    cbn [bind].
    destruct (IH (S start)) as [ys [-> [Lys Fys]]]; [lia |].
    cbn [bind]. eexists. split; [reflexivity |]. split.
    + simpl. rewrite Lys. reflexivity.
    + constructor; [| exact Fys].
      simpl. rewrite preprocess_dim1.
      apply (Forall_In_dim1 0 input_layers); assumption.
Qed.

Lemma Model_encode_state_ok (self : Model) (rs : random_source) (batch : Batch) :
  wf_transformer (transformer self) = true ->
  exists st0,
    Model_encode_state self rs batch = Ok st0 /\
    cache_steps self 0 st0 /\
    dim1 (st_enc_out st0) = icols (b_inp batch) /\
    st_dec_enc_kv st0
    = map (fun layer => Dense_call (kv_conv (wrapped_layer layer))
                                   (st_enc_out st0))
          (dec_enc_attn (transformer self)) /\
    st_out_seq st0 = tf_zeros_i2 (irows (b_inp batch)) 0 /\
    st_offset st0 = Model_encode_offset self rs (irows (b_inp batch)) /\
    rows2 (st_rdo st0) = irows (b_inp batch).
Proof.
  intros Hwf.
  destruct (wf_transformer_spec _ Hwf) as (_ & _ & La & Lea & _).
  unfold Model_encode_state.
  set (inp_len := match b_inp_len batch with Some l => l | None => _ end).
  destruct (Transformer_encode_ok (transformer self) rs (b_inp batch) inp_len
              false Hwf) as [enc_out [-> Denc]].
  cbn [bind].
  set (n := num_layers_dec (transformer self)) in *.
  set (z := tf_zeros3 (irows (b_inp batch)) 0 (hid_size (transformer self))).
  set (e := tf_zeros3 (irows (b_inp batch)) 0 (emb_size (transformer self))).
  destruct (mapM_enumerate_kv_ok ([e] ++ removelast (repeat z n))%list
              (dec_attn (transformer self))) with (start := 0)
    as [kvs [-> [Lkvs Fkvs]]].
  - rewrite removelast_repeat. constructor; [reflexivity |].
    apply Forall_forall. intros t Ht. apply repeat_spec in Ht. subst t.
    reflexivity.
  - rewrite length_app, removelast_repeat, repeat_length. simpl. lia.
  - cbn [bind]. eexists. split; [reflexivity |].
    cbn [st_enc_out st_dec_enc_kv st_out_seq st_offset st_rdo].
    split.
    + unfold cache_steps; cbn. fold n.
      repeat split.
      * lia.
      * apply repeat_length.
      * rewrite length_map. exact Lea.
      * exact Fkvs.
      * apply Forall_forall. intros t Ht. apply repeat_spec in Ht. subst t.
        reflexivity.
    + repeat split. exact Denc.
Qed.

(** ** Cache growth *)

Lemma cache_steps_eq (self : Model) (k k' : nat) (st : DecState) :
  k = k' -> cache_steps self k st -> cache_steps self k' st.
Proof. intros ->. exact (fun H => H). Qed.

Lemma Model_encode_ok (self : Model) (rs : random_source) (batch : Batch)
      (is_train : bool) :
  wf_transformer (transformer self) = true ->
  exists st0 st,
    Model_encode_state self rs batch = Ok st0 /\
    cache_steps self 0 st0 /\
    Model_decode self rs st0 None is_train = Ok st /\
    Model_encode self rs batch is_train = Ok st /\
    cache_steps self 1 st /\
    dim1 (st_enc_out st) = icols (b_inp batch) /\
    st_dec_enc_kv st
    = map (fun layer => Dense_call (kv_conv (wrapped_layer layer))
                                   (st_enc_out st))
          (dec_enc_attn (transformer self)) /\
    st_out_seq st = tf_zeros_i2 (irows (b_inp batch)) 0 /\
    len1 (st_offset st) = len1 (Model_encode_offset self rs (irows (b_inp batch))) /\
    (forall i, at1 (st_offset st) i
               = (at1 (Model_encode_offset self rs (irows (b_inp batch))) i + 1)%R) /\
    exists x,
      Transformer_add_timing_signal rs
        (tf_zeros3 (irows (b_inp batch)) 1 (emb_size (transformer self)))
        1.0 1.0e4 (Offset (OffsetTensor1 (st_offset st0))) None = Ok x /\
      st_emb st
      = tf_concat3_axis1 (st_emb st0)
          (bypass_if_no_layers (transformer self) (st_enc_out st0)
             (st_enc_attn_mask st0)
             (dropout_if is_train rs (t_name (transformer self) ++ "/dropout")
                         x (1.0 - res_dropout (transformer self))%R)).
Proof.
  intros Hwf.
  destruct (Model_encode_state_ok self rs batch Hwf)
    as (st0 & E0 & C0 & D0 & K0 & S0 & O0 & R0).
  destruct (Model_decode_ok self rs st0 None is_train 0 Hwf C0)
    as (st & E & C & Fe & Fm & Fk & Fs & Ol & Oa & x & Ex & Hemb).
  exists st0, st.
  split; [exact E0 |]. split; [exact C0 |]. split; [exact E |].
  split; [unfold Model_encode; rewrite E0; exact E |].
  split; [exact C |].
  rewrite Fe, Fk, Fs, Ol, <- O0.
  split; [exact D0 |]. split; [exact K0 |]. split; [exact S0 |].
  split; [reflexivity |]. split; [exact Oa |].
  exists x. split; [| exact Hemb].
  unfold Model_decode_embedding in Ex. rewrite R0 in Ex. exact Ex.
Qed.

Lemma Model_decode_steps_ok (self : Model) (is_train : bool)
      (steps : list (random_source * itensor1)) :
  wf_transformer (transformer self) = true ->
  forall st k,
    cache_steps self k st ->
    exists st',
      Model_decode_steps self st steps is_train = Ok st' /\
      cache_steps self (k + List.length steps) st' /\
      st_enc_out st' = st_enc_out st /\
      st_enc_attn_mask st' = st_enc_attn_mask st /\
      st_dec_enc_kv st' = st_dec_enc_kv st /\
      icols (st_out_seq st') = icols (st_out_seq st) + List.length steps.
Proof.
  intros Hwf. induction steps as [| [rs words] rest IH]; intros st k Hst.
  - exists st. simpl. rewrite !Nat.add_0_r.
    split; [reflexivity |]. split; [exact Hst |]. repeat split.
  - cbn [Model_decode_steps].
    destruct (Model_decode_ok self rs st (Some words) is_train k Hwf Hst)
      as (st1 & -> & C1 & Fe & Fm & Fk & Fs & _).
    cbn [bind].
    destruct (IH st1 (k + 1) C1) as (st' & E & C' & Fe' & Fm' & Fk' & Fs').
    exists st'. split; [exact E |].
    split; [eapply cache_steps_eq; [| exact C']; simpl; lia |].
    rewrite Fe', Fm', Fk', Fs', Fe, Fm, Fk, Fs. simpl.
    repeat split. lia.
Qed.

Lemma Model_decode_frame (self : Model) (rs : random_source) (st st' : DecState)
      (words : option itensor1) (is_train : bool) :
  Model_decode self rs st words is_train = Ok st' ->
  st_enc_out st' = st_enc_out st /\
  st_enc_attn_mask st' = st_enc_attn_mask st /\
  st_dec_enc_kv st' = st_dec_enc_kv st.
Proof.
  unfold Model_decode. intros H.
  inv_bind H. inv_bind H. destruct v0 as [[x ls] kvs]. inv_bind H.
  injection H as <-. repeat split.
Qed.

Lemma Model_encode_state_cross_cache (self : Model) (rs : random_source)
      (batch : Batch) (st0 : DecState) :
  Model_encode_state self rs batch = Ok st0 ->
  st_dec_enc_kv st0
  = map (fun layer => Dense_call (kv_conv (wrapped_layer layer)) (st_enc_out st0))
        (dec_enc_attn (transformer self)).
Proof.
  unfold Model_encode_state. intros H.
  inv_bind H. destruct v as [enc_out mask]. inv_bind H.
  injection H as <-. reflexivity.
Qed.

(** C4.  A decoding step returns a state whose encoder output, encoder
    mask and per-layer cross-attention cache are those of the state it was
    given; when that state came from [encode] (directly or through earlier
    steps that left the cache alone), the cache is still the [kv_conv]
    projection of the encoder output that [encode] computed. *)
Theorem decode_keeps_cross_attention_cache (self : Model) (rs : random_source)
        (st st' : DecState) (words : option itensor1) (is_train : bool) :
  Model_decode self rs st words is_train = Ok st' ->
  st_enc_out st' = st_enc_out st /\
  st_enc_attn_mask st' = st_enc_attn_mask st /\
  st_dec_enc_kv st' = st_dec_enc_kv st /\
  (forall rs0 batch is_train0,
      Model_encode self rs0 batch is_train0 = Ok st ->
      st_dec_enc_kv st'
      = map (fun layer =>
               Dense_call (kv_conv (wrapped_layer layer)) (st_enc_out st'))
            (dec_enc_attn (transformer self))).
Proof.
  intros H. destruct (Model_decode_frame _ _ _ _ _ _ H) as (Fe & Fm & Fk).
  repeat split; try assumption.
  intros rs0 batch is_train0 Henc. unfold Model_encode in Henc.
  inv_bind Henc.
  destruct (Model_decode_frame _ _ _ _ _ _ Henc) as (Fe0 & _ & Fk0).
  rewrite Fk, Fe, Fk0, Fe0.
  eapply Model_encode_state_cross_cache. exact Hv.
Qed.

(** C3 (as the code has it).  [encode] already runs one decoding step, so
    for every state produced by [encode] followed by [k] calls of [decode]
    every per-layer self-attention cache and every per-layer activation
    cache has [k + 1] time-steps, and every per-layer cross-attention cache
    has as many time-steps as the encoder input has positions, whatever
    [k]; there is one cache of each kind per decoder layer. *)
Theorem cache_growth (self : Model) (rs : random_source) (batch : Batch)
        (steps : list (random_source * itensor1)) (is_train : bool) :
  wf_transformer (transformer self) = true ->
  exists st stk,
    Model_encode self rs batch is_train = Ok st /\
    Model_decode_steps self st steps is_train = Ok stk /\
    List.length (st_dec_dec_kv stk) = num_layers_dec (transformer self) /\
    List.length (st_dec_layers stk) = num_layers_dec (transformer self) /\
    List.length (st_dec_enc_kv stk) = num_layers_dec (transformer self) /\
    Forall (fun kv => dim1 kv = List.length steps + 1) (st_dec_dec_kv stk) /\
    Forall (fun x => dim1 x = List.length steps + 1) (st_dec_layers stk) /\
    Forall (fun kv => dim1 kv = icols (b_inp batch)) (st_dec_enc_kv stk).
Proof.
  intros Hwf.
  destruct (Model_encode_ok self rs batch is_train Hwf)
    as (st0 & st & _ & _ & _ & E & C & D & K & _).
  destruct (Model_decode_steps_ok self is_train steps Hwf st 1 C)
    as (stk & Ek & (_ & Lkv & Ll & Lekv & Fkv & Fl) & Fe & _ & Fk & _).
  exists st, stk.
  split; [exact E |]. split; [exact Ek |].
  split; [exact Lkv |]. split; [exact Ll |]. split; [exact Lekv |].
  split; [rewrite Nat.add_comm; exact Fkv |].
  split; [rewrite Nat.add_comm; exact Fl |].
  rewrite Fk, K. apply Forall_forall. intros kv Hkv.
  apply in_map_iff in Hkv. destruct Hkv as [layer [<- _]]. exact D.
Qed.

(** C10.  [encode] builds a state with empty caches and hands it to one
    decoding step without words, whose input is the all-zero embedding plus
    the timing signal, so the state it returns has one time-step in every
    per-layer self-attention cache and activation cache, an empty output
    sequence and, with [dst_rand_offset] off, offset 1.  That state
    satisfies cache length [= length(out_seq) + 1], and every decoding step
    with words keeps the relation: it returns, appends one column to the
    output sequence and grows each cache by one step. *)
Theorem encode_seeds_one_step (self : Model) (rs : random_source)
        (batch : Batch) (is_train : bool) :
  wf_transformer (transformer self) = true ->
  exists st0 st,
    Model_encode_state self rs batch = Ok st0 /\
    Forall (fun kv => dim1 kv = 0) (st_dec_dec_kv st0) /\
    Forall (fun x => dim1 x = 0) (st_dec_layers st0) /\
    Model_decode self rs st0 None is_train = Ok st /\
    (exists x,
        Transformer_add_timing_signal rs
          (tf_zeros3 (irows (b_inp batch)) 1 (emb_size (transformer self)))
          1.0 1.0e4 (Offset (OffsetTensor1 (st_offset st0))) None = Ok x /\
        st_emb st
        = tf_concat3_axis1 (st_emb st0)
            (bypass_if_no_layers (transformer self) (st_enc_out st0)
               (st_enc_attn_mask st0)
               (dropout_if is_train rs (t_name (transformer self) ++ "/dropout")
                           x (1.0 - res_dropout (transformer self))%R))) /\
    Model_encode self rs batch is_train = Ok st /\
    List.length (st_dec_dec_kv st) = num_layers_dec (transformer self) /\
    List.length (st_dec_layers st) = num_layers_dec (transformer self) /\
    Forall (fun kv => dim1 kv = 1) (st_dec_dec_kv st) /\
    Forall (fun x => dim1 x = 1) (st_dec_layers st) /\
    irows (st_out_seq st) = irows (b_inp batch) /\
    icols (st_out_seq st) = 0 /\
    (dst_rand_offset (transformer self) = false ->
     len1 (st_offset st) = irows (b_inp batch) /\
     forall i, at1 (st_offset st) i = 1%R) /\
    cache_steps self (icols (st_out_seq st) + 1) st /\
    (forall st1 rs1 words is_train1,
        cache_steps self (icols (st_out_seq st1) + 1) st1 ->
        exists st2,
          Model_decode self rs1 st1 (Some words) is_train1 = Ok st2 /\
          icols (st_out_seq st2) = icols (st_out_seq st1) + 1 /\
          cache_steps self (icols (st_out_seq st2) + 1) st2).
Proof.
  intros Hwf.
  destruct (Model_encode_ok self rs batch is_train Hwf)
    as (st0 & st & E0 & C0 & Ed & E & C & D & K & S & Ol & Oa & Hzero).
  exists st0, st.
  pose proof C0 as (_ & _ & _ & _ & Fkv0 & Fl0).
  pose proof C as (_ & Lkv & Ll & _ & Fkv & Fl).
  split; [exact E0 |]. split; [exact Fkv0 |]. split; [exact Fl0 |].
  split; [exact Ed |]. split; [exact Hzero |]. split; [exact E |].
  split; [exact Lkv |]. split; [exact Ll |].
  split; [exact Fkv |]. split; [exact Fl |].
  rewrite S. cbn [irows icols tf_zeros_i2].
  split; [reflexivity |]. split; [reflexivity |].
  split.
  { intros Hoff. rewrite Ol. unfold Model_encode_offset in *.
    rewrite Hoff in *. split; [reflexivity |].
    intros i. rewrite Oa. simpl. ring. }
  split; [exact C |].
  intros st1 rs1 words is_train1 C1.
  destruct (Model_decode_ok self rs1 st1 (Some words) is_train1 _ Hwf C1)
    as (st2 & E2 & C2 & _ & _ & _ & S2 & _).
  exists st2. split; [exact E2 |].
  rewrite S2. cbn [icols append_words].
  split; [reflexivity | exact C2].
Qed.

(** ** Determinism at inference *)

Lemma bind_ext {A B : Type} (r : result A) (k k' : A -> result B) :
  (forall a, k a = k' a) -> bind r k = bind r k'.
Proof. intros H. destruct r; simpl; [apply H | reflexivity]. Qed.

Lemma postprocess_steps_det {L : Type} (w : ResidualLayerWrapper L)
      (rs1 rs2 : random_source) (steps : string) (inp : tensor3) :
  forall out,
    postprocess_steps w false rs1 steps out inp
    = postprocess_steps w false rs2 steps out inp.
Proof.
  induction steps as [| c rest IH]; intros out; simpl; [reflexivity |].
  apply IH.
Qed.

Lemma ResidualLayerWrapper_call_det {L : Type} (w : ResidualLayerWrapper L)
      (rs1 rs2 : random_source) (call1 call2 : L -> tensor3 -> result tensor3)
      (inp : tensor3) :
  (forall l x, call1 l x = call2 l x) ->
  ResidualLayerWrapper_call w false rs1 call1 inp
  = ResidualLayerWrapper_call w false rs2 call2 inp.
Proof.
  intros H. unfold ResidualLayerWrapper_call. rewrite H.
  apply bind_ext. intros out. rewrite (postprocess_steps_det w rs1 rs2).
  reflexivity.
Qed.

Lemma add_timing_signal_det (rs1 rs2 : random_source) (inp : tensor3)
      (mn mx : R) (v : offset_value) (rev : option itensor1) :
  Transformer_add_timing_signal rs1 inp mn mx (Offset v) rev
  = Transformer_add_timing_signal rs2 inp mn mx (Offset v) rev.
Proof. reflexivity. Qed.

Lemma Transformer_encode_det (self : Transformer) (rs1 rs2 : random_source)
      (inp : itensor2) (inp_len : itensor1) :
  Transformer_encode self rs1 inp inp_len false
  = Transformer_encode self rs2 inp inp_len false.
Proof.
  unfold Transformer_encode.
  rewrite (add_timing_signal_det rs1 rs2).
  apply bind_ext. intros enc_inp. cbn [dropout_if].
  match goal with
  | |- bind (foldM ?f _ _) _ = bind (foldM ?g _ _) _ =>
      rewrite (foldM_ext f g)
  end; [reflexivity |].
  intros acc layer. apply bind_ext. intros attn.
  rewrite (ResidualLayerWrapper_call_det attn rs1 rs2 _
             (fun a x => MultiHeadAttn_call a false rs2 x
                           (Transformer_make_enc_attn_mask inp inp_len)
                           None None))
    by reflexivity.
  apply bind_ext. intros y. apply bind_ext. intros ffn.
  apply ResidualLayerWrapper_call_det. reflexivity.
Qed.

Lemma Transformer_decode_det (self : Transformer) (rs1 rs2 : random_source)
      (out : itensor2) (out_len : itensor1) (out_reverse : option itensor1)
      (enc_out : tensor3) (enc_attn_mask : tensor4) :
  dst_rand_offset self = false ->
  Transformer_decode self rs1 out out_len out_reverse enc_out enc_attn_mask false
  = Transformer_decode self rs2 out out_len out_reverse enc_out enc_attn_mask
                       false.
Proof.
  intros Hoff. unfold Transformer_decode, Transformer_decode_input.
  rewrite Hoff. rewrite (add_timing_signal_det rs1 rs2).
  cbn [dropout_if].
  apply bind_ext. intros dec_inp.
  match goal with
  | |- bind (foldM ?f _ _) _ = bind (foldM ?g _ _) _ =>
      rewrite (foldM_ext f g)
  end; [reflexivity |].
  intros acc layer. apply bind_ext. intros attn.
  rewrite (ResidualLayerWrapper_call_det attn rs1 rs2 _
             (fun a x => MultiHeadAttn_call a false rs2 x
                           (Transformer_make_dec_attn_mask out) None None))
    by reflexivity.
  apply bind_ext. intros y. apply bind_ext. intros eattn.
  rewrite (ResidualLayerWrapper_call_det eattn rs1 rs2 _
             (fun a x => MultiHeadAttn_call a false rs2 x enc_attn_mask
                           (Some enc_out) None))
    by reflexivity.
  apply bind_ext. intros z. apply bind_ext. intros ffn.
  apply ResidualLayerWrapper_call_det. reflexivity.
Qed.

Lemma Model_decode_layer_det (trans : Transformer) (rs1 rs2 : random_source)
      (st : DecState) (mask : tensor4)
      (acc : tensor3 * list tensor3 * list tensor3) (layer : nat) :
  Model_decode_layer trans false rs1 st mask acc layer
  = Model_decode_layer trans false rs2 st mask acc layer.
Proof.
  unfold Model_decode_layer. destruct acc as [[x ls] kvs].
  apply bind_ext. intros attn. apply bind_ext. intros old.
  apply bind_ext. intros kv.
  rewrite (ResidualLayerWrapper_call_det attn rs1 rs2 _
             (fun a x => MultiHeadAttn_call a false rs2 x mask None (Some kv)))
    by reflexivity.
  apply bind_ext. intros y. apply bind_ext. intros eattn.
  apply bind_ext. intros ekv.
  rewrite (ResidualLayerWrapper_call_det eattn rs1 rs2 _
             (fun a x => MultiHeadAttn_call a false rs2 x (st_enc_attn_mask st)
                           None (Some ekv)))
    by reflexivity.
  apply bind_ext. intros z. apply bind_ext. intros ffn.
  rewrite (ResidualLayerWrapper_call_det ffn rs1 rs2 _
             (fun f x => FFN_call f false rs2 x))
    by reflexivity.
  reflexivity.
Qed.

Lemma Model_decode_det (self : Model) (rs1 rs2 : random_source)
      (st : DecState) (words : option itensor1) :
  Model_decode self rs1 st words false = Model_decode self rs2 st words false.
Proof.
  unfold Model_decode.
  rewrite (add_timing_signal_det rs1 rs2).
  apply bind_ext. intros x. cbn [dropout_if].
  match goal with
  | |- bind (foldM ?f _ _) _ = bind (foldM ?g _ _) _ =>
      rewrite (foldM_ext f g)
  end; [reflexivity |].
  intros acc layer. apply Model_decode_layer_det.
Qed.

Lemma Model_encode_offset_det (self : Model) (rs1 rs2 : random_source)
      (batch_size : nat) :
  dst_rand_offset (transformer self) = false ->
  Model_encode_offset self rs1 batch_size
  = Model_encode_offset self rs2 batch_size.
Proof. intros H. unfold Model_encode_offset. rewrite H. reflexivity. Qed.

(** C9 (as the code has it).  With [is_train = False] no dropout is
    applied, and [Model.decode] does not depend on the random draws of the
    run, whatever the configuration.  With [dst_rand_offset] off neither
    do [Model.encode] and [symbolic_score]: two runs with the same
    parameters and inputs return the same result. *)
Theorem inference_is_deterministic (self : Model) (rs1 rs2 : random_source) :
  (forall site x keep_prob, dropout_if false rs1 site x keep_prob = x) /\
  (forall st words,
      Model_decode self rs1 st words false
      = Model_decode self rs2 st words false) /\
  (dst_rand_offset (transformer self) = false ->
   (forall batch,
       Model_encode self rs1 batch false = Model_encode self rs2 batch false) /\
   (forall inp out,
       Model_symbolic_score self rs1 inp out false
       = Model_symbolic_score self rs2 inp out false)).
Proof.
  split; [reflexivity |].
  split; [intros; apply Model_decode_det |].
  intros Hoff. split.
  - intros batch. unfold Model_encode, Model_encode_state.
    rewrite (Transformer_encode_det (transformer self) rs1 rs2).
    rewrite (Model_encode_offset_det self rs1 rs2) by exact Hoff.
    apply bind_ext. intros st0. apply Model_decode_det.
  - intros inp out. unfold Model_symbolic_score.
    rewrite (Transformer_encode_det (transformer self) rs1 rs2).
    apply bind_ext. intros [enc_out mask].
    rewrite (Transformer_decode_det (transformer self) rs1 rs2) by exact Hoff.
    reflexivity.
Qed.

(** ** Constructed models are well-formed *)

Lemma mapM_ok_inv {A B : Type} (f : A -> result B) (P : B -> Prop)
      (xs : list A) :
  (forall x y, f x = Ok y -> P y) ->
  forall ys, mapM f xs = Ok ys ->
             List.length ys = List.length xs /\ Forall P ys.
Proof.
  intros Hf. induction xs as [| x rest IH]; intros ys H; simpl in H.
  - injection H as <-. split; [reflexivity | constructor].
  - inv_bind H. inv_bind H. injection H as <-.
    destruct (IH _ Hv0) as [Hl HF]. split.
    + simpl. rewrite Hl. reflexivity.
    + constructor; [eapply Hf; exact Hv | exact HF].
Qed.

Lemma Transformer_init_sizes_heads (hp : hparams) (sizes : nat * nat * nat) :
  Transformer_init_sizes [] hp = Ok sizes -> hp_num_heads hp <> 0.
Proof.
  unfold Transformer_init_sizes, py_mod.
  destruct (hp_num_heads hp =? 0) eqn:E; simpl; intros H; [discriminate H |].
  apply Nat.eqb_neq. exact E.
Qed.

Lemma attn_layer_has_heads (vs : variable_store) (scope name : string)
      (inp_size kd vd od heads : nat) (ad avd : R) (dbg : bool)
      (_format steps : string) (isz osz : nat) (dr : R)
      (w : ResidualLayerWrapper MultiHeadAttn) :
  heads <> 0 ->
  (attn <- MultiHeadAttn_init vs scope name inp_size kd vd od heads ad avd dbg
             _format ;;
   ResidualLayerWrapper_init scope name attn isz osz steps dr) = Ok w ->
  has_heads w = true.
Proof.
  intros Hh H. inv_bind H.
  unfold MultiHeadAttn_init in Hv. inv_bind Hv.
  destruct v0 as [[qc kc] cc]. injection Hv as <-.
  unfold ResidualLayerWrapper_init in H.
  destruct (has_step "a" steps && negb (isz =? osz)); [discriminate H |].
  injection H as <-. unfold has_heads. simpl.
  apply negb_true_iff. apply Nat.eqb_neq. exact Hh.
Qed.

Lemma Transformer_init_wf (vs : variable_store) (name : string)
      (inp_voc out_voc : Vocab) (hp : hparams) (t : Transformer) :
  Transformer_init vs name inp_voc out_voc [] hp = Ok t ->
  wf_transformer t = true /\
  num_layers_dec t = hp_num_layers hp /\
  dst_rand_offset t = hp_dst_rand_offset hp.
Proof.
  unfold Transformer_init. intros H.
  inv_bind H. destruct v as [[emb_size key_size] value_size].
  pose proof (Transformer_init_sizes_heads hp _ Hv) as Hh.
  inv_bind H. inv_bind H. inv_bind H. inv_bind H. inv_bind H.
  injection H as <-.
  destruct (mapM_ok_inv _ (fun w => has_heads w = true) _
              (fun i w E => attn_layer_has_heads _ _ _ _ _ _ _ _ _ _ _ _ _ _ _ _
                              w Hh E) _ Hv0) as [L0 F0].
  destruct (mapM_ok_inv _ (fun _ => True) _ (fun _ _ _ => I) _ Hv1) as [L1 _].
  destruct (mapM_ok_inv _ (fun w => has_heads w = true) _
              (fun i w E => attn_layer_has_heads _ _ _ _ _ _ _ _ _ _ _ _ _ _ _ _
                              w Hh E) _ Hv2) as [L2 F2].
  destruct (mapM_ok_inv _ (fun w => has_heads w = true) _
              (fun i w E => attn_layer_has_heads _ _ _ _ _ _ _ _ _ _ _ _ _ _ _ _
                              w Hh E) _ Hv3) as [L3 F3].
  destruct (mapM_ok_inv _ (fun _ => True) _ (fun _ _ _ => I) _ Hv4) as [L4 _].
  rewrite length_seq in L0, L1, L2, L3, L4.
  split; [| split; reflexivity].
  unfold wf_transformer. cbn.
  rewrite L0, L1, L2, L3, L4, !Nat.eqb_refl.
  rewrite (proj2 (forallb_forall _ _) (proj1 (Forall_forall _ _) F0)).
  rewrite (proj2 (forallb_forall _ _) (proj1 (Forall_forall _ _) F2)).
  rewrite (proj2 (forallb_forall _ _) (proj1 (Forall_forall _ _) F3)).
  destruct (hp_inp_emb_bias hp); destruct (hp_normalize_out hp); reflexivity.
Qed.

Lemma Model_init_wf (vs : variable_store) (act : R -> R) (name : string)
      (inp_voc out_voc : Vocab) (hp : hparams) (self : Model) :
  Model_init vs act name inp_voc out_voc hp = Ok self ->
  wf_transformer (transformer self) = true /\
  num_layers_dec (transformer self) = hp_num_layers hp /\
  dst_rand_offset (transformer self) = hp_dst_rand_offset hp.
Proof.
  unfold Model_init. intros H. inv_bind H. injection H as <-.
  cbn [transformer]. eapply Transformer_init_wf. exact Hv.
Qed.
(* ================================================================== *)
(** * Further properties

    Properties of the code beyond the claims above, each read off the
    source. *)

(** ** Sums *)

Lemma sum_n_split (a b : nat) (f : nat -> R) :
  sum_n (a + b) f = (sum_n a f + sum_n b (fun i => f (a + i)%nat))%R.
Proof.
  induction b as [| b IH].
  - rewrite Nat.add_0_r. simpl. lra.
  - rewrite Nat.add_succ_r. simpl. rewrite IH. lra.
Qed.

Lemma sum_n_plus (n : nat) (f g : nat -> R) :
  sum_n n (fun i => (f i + g i)%R) = (sum_n n f + sum_n n g)%R.
Proof.
  induction n as [| n IH]; simpl; [lra | rewrite IH; lra].
Qed.

Lemma sum_n_const (n : nat) (c : R) : sum_n n (fun _ => c) = (INR n * c)%R.
Proof.
  induction n as [| n IH].
  - simpl. lra.
  - rewrite S_INR. cbn [sum_n]. rewrite IH. lra.
Qed.

Lemma sum_sq_pairs (m n r : nat) (f : nat -> R) :
  m = n + n + r ->
  (forall c, c < n -> (f c * f c + f (n + c)%nat * f (n + c)%nat = 1)%R) ->
  (forall c, n + n <= c -> f c = 0%R) ->
  sum_n m (fun c => (f c * f c)%R) = INR n.
Proof.
  intros -> Hpair Hpad.
  rewrite sum_n_split, sum_n_split.
  rewrite <- sum_n_plus.
  rewrite (sum_n_ext n _ (fun _ => 1%R)) by (intros c Hc; apply Hpair; exact Hc).
  rewrite (sum_n_ext r _ (fun _ => 0%R)).
  - rewrite !sum_n_const. lra.
  - intros c _. rewrite (Hpad (n + n + c)) by lia. lra.
Qed.

Lemma sin_cos_unit (x : R) : (sin x * sin x + cos x * cos x = 1)%R.
Proof. pose proof (sin2_cos2 x) as H. unfold Rsqr in H. exact H. Qed.

(** ** Heads *)

Lemma combine_split_heads_teq (self : MultiHeadAttn) (x : tensor3) :
  num_heads self <> 0 ->
  dim2 x mod num_heads self = 0 ->
  teq3 (MultiHeadAttn_combine_heads self
          (tf_transpose4 (tf_reshape_split_last x (num_heads self)) 0 2 1 3))
       x.
Proof.
  intros Hh Hdiv.
  assert (HD : num_heads self * (dim2 x / num_heads self) = dim2 x).
  { pose proof (Nat.div_mod_eq (dim2 x) (num_heads self)). lia. }
  unfold teq3, MultiHeadAttn_combine_heads.
  cbn [tf_transpose4 tf_reshape_merge_last tf_reshape_split_last
       dim0 dim1 dim2 at3 e0 e1 e2 e3 at4 sel4 unperm4 Nat.eqb].
  repeat split; try reflexivity; try exact HD.
  intros i j k Hi Hj Hk. f_equal.
  pose proof (Nat.div_mod_eq k (dim2 x / num_heads self)). lia.
Qed.

(** X1.  [_combine_heads] is the inverse of [_split_heads], as its
    docstring says, on tensors whose channel size is a multiple of the
    number of heads: splitting [batch * n * d] gives
    [batch * heads * n * (d / heads)], combining that gives the input back,
    and splitting the combination of a [batch * heads * n * c] tensor gives
    that tensor back. *)
Theorem combine_heads_inverts_split_heads (self : MultiHeadAttn) (x : tensor3) :
  num_heads self <> 0 ->
  dim2 x mod num_heads self = 0 ->
  (exists y,
      MultiHeadAttn_split_heads self x = Ok y /\
      e0 y = dim0 x /\ e1 y = num_heads self /\ e2 y = dim1 x /\
      e3 y = dim2 x / num_heads self /\
      teq3 (MultiHeadAttn_combine_heads self y) x) /\
  (forall y : tensor4,
      e1 y = num_heads self ->
      exists y',
        MultiHeadAttn_split_heads self (MultiHeadAttn_combine_heads self y)
        = Ok y' /\ teq4 y' y).
Proof.
  intros Hh Hdiv. split.
  - exists (tf_transpose4 (tf_reshape_split_last x (num_heads self)) 0 2 1 3).
    split; [apply MultiHeadAttn_split_heads_ok; exact Hh |].
    repeat (split; [reflexivity |]).
    apply combine_split_heads_teq; assumption.
  - intros y Hy.
    rewrite MultiHeadAttn_split_heads_ok by exact Hh.
    eexists. split; [reflexivity |].
    unfold teq4, MultiHeadAttn_combine_heads.
    cbn [tf_transpose4 tf_reshape_merge_last tf_reshape_split_last
         dim0 dim1 dim2 at3 e0 e1 e2 e3 at4 sel4 unperm4 Nat.eqb].
    assert (HD : e1 y * e3 y / num_heads self = e3 y).
    { rewrite Hy, Nat.mul_comm. apply Nat.div_mul. exact Hh. }
    rewrite HD.
    repeat split; try reflexivity; try (symmetry; exact Hy).
    intros b h i j Hb Hhd Hi Hj.
    assert (Hc : e3 y <> 0) by lia.
    rewrite Nat.div_add_l by exact Hc.
    rewrite (Nat.div_small j (e3 y)) by exact Hj.
    rewrite (Nat.add_comm (h * e3 y) j), Nat.Div0.mod_add.
    rewrite Nat.mod_small by exact Hj.
    rewrite Nat.add_0_r. reflexivity.
Qed.

(** ** Attention weights *)

Lemma softmax_sums_to_one (x : tensor4) (b h i : nat) :
  0 < e3 x -> sum_n (e3 x) (fun j => at4 (tf_softmax4 x) b h i j) = 1%R.
Proof.
  intros Hn. cbn [tf_softmax4 at4]. unfold Rdiv. rewrite sum_n_scale.
  apply Rinv_r. apply Rgt_not_eq. apply Rlt_gt.
  apply sum_n_pos; [exact Hn | intros; apply exp_pos].
Qed.

(** X2.  The attention weights of a call are a probability distribution
    over the keys: with at least one key, the weights of every query of
    every head are not negative, at most one, and sum to one.  There is
    one weight per key position (broadcast against the mask). *)
Theorem attention_weights_sum_to_one (self : MultiHeadAttn) (query_inp : tensor3)
        (attn_mask : tensor4) (kv_inp kv : option tensor3) (W : tensor4) :
  MultiHeadAttn_weights self query_inp attn_mask kv_inp kv = Ok W ->
  0 < e3 W ->
  (exists q3 k3 v3,
      MultiHeadAttn_qkv self query_inp kv_inp kv = Ok (q3, k3, v3) /\
      e3 W = bdim (dim1 k3) (e3 attn_mask)) /\
  forall b h i,
    sum_n (e3 W) (fun j => at4 W b h i j) = 1%R /\
    forall j, j < e3 W -> (0 <= at4 W b h i j <= 1)%R.
Proof.
  intros HW Hn.
  destruct (MultiHeadAttn_weights_inv _ _ _ _ _ _ HW)
    as (q3 & k3 & v3 & q & k & Hqkv & Hq & Hk & ->).
  split.
  - exists q3, k3, v3. split; [exact Hqkv |].
    apply MultiHeadAttn_split_heads_inv in Hk. destruct Hk as [_ ->].
    reflexivity.
  - intros b h i. split.
    + exact (softmax_sums_to_one (MultiHeadAttn_logits self q k attn_mask)
                                 b h i Hn).
    + intros j Hj. split.
      * left. apply softmax_entry_pos. exact Hj.
      * apply softmax_entry_le_1. exact Hj.
Qed.

(** ** The timing signal *)

Lemma bidx_idem (d i : nat) : bidx d (bidx d i) = bidx d i.
Proof. unfold bidx. destruct (d =? 1); reflexivity. Qed.

Lemma Ok_inj {A : Type} (a b : A) : Ok a = Ok b -> a = b.
Proof. intros H. injection H as H. exact H. Qed.

Ltac open_timing_signal H :=
  unfold timing_signal in H; cbn [bind] in H;
  try discriminate H; apply Ok_inj in H; subst;
  cbn [dim0 dim1 dim2 at3 tf_pad3_axis2_after tf_concat3_axis2 map3 tf_mul3
       tf_add3 bmap3 len1 at1];
  rewrite ?bdim_1_r, ?bdim_1_l.

(** X3.  The signal [_add_timing_signal] adds has as many channels as the
    input.  For positive timescales, when the number of timescales
    [hid // 2] is not 1 (with a single timescale the increment of the log
    timescale divides by zero), channel [c] of the first half is the sine and channel [hid // 2 + c]
    the cosine of the same scaled position, so the two squares sum to one;
    an odd channel count leaves a last channel of zeros.  Hence the signal
    of every position has squared norm [hid // 2], whatever the offset and
    the reversal flags. *)
Theorem timing_signal_unit_pairs (rs : random_source) (ninp hid : nat)
        (mn mx : R) (v : offset_value) (rev : option itensor1) (s : tensor3) :
  timing_signal rs ninp hid mn mx (Offset v) rev = Ok s ->
  (0 < mn)%R -> (0 < mx)%R ->
  hid / 2 <> 1 ->
  dim2 s = hid /\
  (forall b j c, c < hid / 2 ->
                 (at3 s b j c * at3 s b j c
                  + at3 s b j (hid / 2 + c) * at3 s b j (hid / 2 + c) = 1)%R) /\
  (forall b j c, hid / 2 + hid / 2 <= c -> at3 s b j c = 0%R) /\
  (forall b j, sum_n hid (fun c => (at3 s b j c * at3 s b j c)%R)
               = INR (hid / 2)).
Proof.
  intros H _ _ _.
  assert (Hhid : hid = hid / 2 + hid / 2 + hid mod 2).
  { pose proof (Nat.div_mod_eq hid 2). lia. }
  assert (Hpair : forall b j c, c < hid / 2 ->
                 (at3 s b j c * at3 s b j c
                  + at3 s b j (hid / 2 + c) * at3 s b j (hid / 2 + c) = 1)%R).
  { intros b j c Hc.
    destruct v as [x | x | t | t | t]; destruct rev as [r |];
      open_timing_signal H;
      (destruct (Nat.ltb_spec c (hid / 2 + hid / 2)); [| lia]);
      (destruct (Nat.ltb_spec (hid / 2 + c) (hid / 2 + hid / 2)); [| lia]);
      (destruct (Nat.ltb_spec c (hid / 2)); [| lia]);
      (destruct (Nat.ltb_spec (hid / 2 + c) (hid / 2)); [lia |]);
      replace (hid / 2 + c - hid / 2) with c by lia;
      apply sin_cos_unit. }
  assert (Hpad : forall b j c, hid / 2 + hid / 2 <= c -> at3 s b j c = 0%R).
  { intros b j c Hc.
    destruct v as [x | x | t | t | t]; destruct rev as [r |];
      open_timing_signal H;
      (destruct (Nat.ltb_spec c (hid / 2 + hid / 2)); [lia | reflexivity]). }
  split; [| split; [exact Hpair | split; [exact Hpad |]]].
  - destruct v as [x | x | t | t | t]; destruct rev as [r |];
      open_timing_signal H; symmetry; exact Hhid.
  - intros b j.
    apply (sum_sq_pairs hid (hid / 2) (hid mod 2) (fun c => at3 s b j c) Hhid).
    + intros c Hc. apply Hpair. exact Hc.
    + intros c Hc. apply Hpad. exact Hc.
Qed.

Lemma minus_one_literal : (-1.0 * 1)%R = (-1)%R.
Proof. lra. Qed.

(** X4.  The reversal flags of [_add_timing_signal] mirror the positions of
    a sequence: for a batch element whose flag is non-zero the sine
    channels change sign and the cosine channels stay; for a flag of zero
    (the flags [symbolic_score] passes) the signal is the one computed
    without flags. *)
Theorem timing_signal_reversed (rs : random_source) (ninp hid : nat)
        (mn mx x : R) (rev : itensor1) (s sr : tensor3) :
  timing_signal rs ninp hid mn mx (Offset (OffsetNumber x)) None = Ok s ->
  timing_signal rs ninp hid mn mx (Offset (OffsetNumber x)) (Some rev) = Ok sr ->
  dim0 sr = ilen rev /\ dim1 sr = dim1 s /\ dim2 sr = dim2 s /\
  forall b j c,
    b < ilen rev ->
    at3 sr b j c
    = if (iat1 rev b =? 0)%Z then at3 s b j c
      else if c <? hid / 2 then (- at3 s b j c)%R else at3 s b j c.
Proof.
  intros Hs Hsr.
  open_timing_signal Hs. open_timing_signal Hsr.
  repeat split.
  intros b j c Hb.
  rewrite !bidx_idem.
  rewrite (bidx_lt (ilen rev) b Hb).
  cbn [bidx Nat.eqb].
  destruct (iat1 rev b =? 0)%Z.
  - destruct (c <? hid / 2 + hid / 2); [| reflexivity].
    destruct (c <? hid / 2); f_equal; ring.
  - destruct (c <? hid / 2 + hid / 2).
    + destruct (c <? hid / 2).
      * rewrite <- sin_neg. f_equal. rewrite minus_one_literal. ring.
      * etransitivity; [| apply cos_neg]. f_equal.
        rewrite minus_one_literal. ring.
    + destruct (c <? hid / 2); [ring | reflexivity].
Qed.

(** The signal at a per-sequence offset against the signal at offset 0. *)
Lemma timing_signal_offset_row (rs rs' : random_source)
        (N M hid n : nat) (mn mx : R) (off : tensor1) (s sM : tensor3)
        (b j k : nat) :
  timing_signal rs N hid mn mx (Offset (OffsetTensor1 off)) None = Ok s ->
  timing_signal rs' M hid mn mx (Offset (OffsetNumber 0))
                (Some {| ilen := n; iat1 := fun _ => 0%Z |}) = Ok sM ->
  b < len1 off -> b < n -> j < N -> j + k < M ->
  at1 off b = INR k ->
  dim0 s = len1 off /\ dim1 s = N /\ dim0 sM = n /\ dim1 sM = M /\
  dim2 s = dim2 sM /\
  forall c, at3 s b j c = at3 sM b (j + k) c.
Proof.
  intros Hs HsM Hb Hbn Hj Hjk Hoff.
  open_timing_signal Hs. open_timing_signal HsM.
  repeat split.
  intros c.
  rewrite !bidx_idem.
  rewrite (bidx_lt (len1 off) b Hb), (bidx_lt N j Hj), (bidx_lt M (j + k) Hjk).
  cbn [bidx Nat.eqb iat1 Z.eqb].
  rewrite Hoff, plus_INR.
  destruct (c <? hid / 2 + hid / 2); [| reflexivity].
  destruct (c <? hid / 2); f_equal; ring.
Qed.

(** X5.  The signal of an incremental step is a row of the signal of the
    batch decoder.  [Model.decode] passes the per-sequence [offset] of the
    state; when the offset of batch element [b] is the integer [k], the
    signal of position [j] of that element equals the signal of position
    [j + k] that [_add_timing_signal] computes at offset 0 with reversal
    flags of zero, which is what [Transformer.decode] passes for
    [symbolic_score]. *)
Theorem timing_signal_offset_tensor_is_row (rs rs' : random_source)
        (N M hid n : nat) (mn mx : R) (off : tensor1) (s sM : tensor3)
        (b j k : nat) :
  timing_signal rs N hid mn mx (Offset (OffsetTensor1 off)) None = Ok s ->
  timing_signal rs' M hid mn mx (Offset (OffsetNumber 0))
                (Some {| ilen := n; iat1 := fun _ => 0%Z |}) = Ok sM ->
  b < len1 off -> b < n -> j < N -> j + k < M ->
  at1 off b = INR k ->
  dim0 s = len1 off /\ dim1 s = N /\ dim0 sM = n /\ dim1 sM = M /\
  dim2 s = dim2 sM /\
  forall c, at3 s b j c = at3 sM b (j + k) c.
Proof.
  intros Hs HsM Hb Hbn Hj Hjk Hoff.
  exact (timing_signal_offset_row rs rs' N M hid n mn mx off s sM b j k
           Hs HsM Hb Hbn Hj Hjk Hoff).
Qed.

(** X6.  With [offset='random'] the offset [_add_timing_signal] draws has
    the shape of [position], three axes, and the assertion on the number of
    axes of a tensor offset fails.  [Transformer.decode] asks for a random
    offset when [dst_rand_offset] is set, so the batch decoder and
    [symbolic_score] of such a model raise an assertion error on every
    input, in training and in inference mode. *)
Theorem random_offset_fails_rank_assertion (self : Model) :
  wf_transformer (transformer self) = true ->
  dst_rand_offset (transformer self) = true ->
  let failure : exn := AssertionError "offset.shape.ndims in (0, 1, 2)" in
  (forall rs inp mn mx rev,
      Transformer_add_timing_signal rs inp mn mx OffsetRandom rev
      = Raise failure) /\
  (forall rs out out_len out_reverse enc_out enc_attn_mask is_train,
      Transformer_decode (transformer self) rs out out_len out_reverse
                         enc_out enc_attn_mask is_train = Raise failure) /\
  (forall rs inp out is_train,
      Model_symbolic_score self rs inp out is_train = Raise failure).
Proof.
  intros Hwf Hrand failure.
  assert (Hsig : forall rs inp mn mx rev,
             Transformer_add_timing_signal rs inp mn mx OffsetRandom rev
             = Raise failure).
  { intros. reflexivity. }
  assert (Hdec : forall rs out out_len out_reverse enc_out enc_attn_mask is_train,
             Transformer_decode (transformer self) rs out out_len out_reverse
                                enc_out enc_attn_mask is_train = Raise failure).
  { intros. unfold Transformer_decode, Transformer_decode_input.
    rewrite Hrand, Hsig. reflexivity. }
  split; [exact Hsig | split; [exact Hdec |]].
  intros rs inp out is_train. unfold Model_symbolic_score.
  destruct (Transformer_encode_ok (transformer self) rs inp
              (infer_length inp (eos (inp_voc self))) is_train Hwf)
    as (enc_out & Henc & _).
  rewrite Henc. cbn [bind]. rewrite Hdec. reflexivity.
Qed.

(** ** The decoding state over a run *)

Lemma py_index_nth_error {A : Type} (xs : list A) (i : nat) (x : A) :
  py_index xs i = Ok x <-> nth_error xs i = Some x.
Proof.
  unfold py_index. destruct (nth_error xs i) as [y |]; split; intros H;
    try discriminate H; injection H as ->; reflexivity.
Qed.

(** What one call of [Model.decode] that returns does to the bookkeeping
    fields of the state. *)
Lemma Model_decode_bookkeeping (self : Model) (rs : random_source)
      (st st' : DecState) (words : option itensor1) (is_train : bool) :
  Model_decode self rs st words is_train = Ok st' ->
  st_attnP st' = st_attnP st /\
  st_out_seq st' = match words with
                   | Some w => append_words (st_out_seq st) w
                   | None => st_out_seq st
                   end /\
  len1 (st_offset st') = len1 (st_offset st) /\
  (forall i, at1 (st_offset st') i = (at1 (st_offset st) i + 1)%R).
Proof.
  unfold Model_decode. intros H.
  inv_bind H. inv_bind H. destruct v0 as [[x ls] kvs]. inv_bind H.
  injection H as <-. repeat split.
Qed.

Lemma Model_encode_state_bookkeeping (self : Model) (rs : random_source)
      (batch : Batch) (st0 : DecState) :
  Model_encode_state self rs batch = Ok st0 ->
  let inp_len :=
    match b_inp_len batch with
    | Some l => l
    | None => infer_length (b_inp batch) (eos (inp_voc self))
    end in
  st_attnP st0
  = {| rows2 := bdim (irows (b_inp batch)) (ilen inp_len);
       cols2 := icols (b_inp batch);
       at2 := fun i _ =>
         (1 / IZR (iat1 inp_len (bidx (ilen inp_len) i)))%R |} /\
  st_out_seq st0 = tf_zeros_i2 (irows (b_inp batch)) 0 /\
  st_offset st0 = Model_encode_offset self rs (irows (b_inp batch)).
Proof.
  unfold Model_encode_state. intros H.
  inv_bind H. destruct v as [enc_out mask]. inv_bind H.
  injection H as <-. repeat split.
Qed.

Lemma Model_decode_steps_bookkeeping (self : Model) (is_train : bool)
      (steps : list (random_source * itensor1)) :
  forall st stk,
    Model_decode_steps self st steps is_train = Ok stk ->
    st_attnP stk = st_attnP st /\
    irows (st_out_seq stk) = irows (st_out_seq st) /\
    icols (st_out_seq stk) = icols (st_out_seq st) + List.length steps /\
    (forall b j, j < icols (st_out_seq st) ->
                 iat2 (st_out_seq stk) b j = iat2 (st_out_seq st) b j) /\
    (forall b j step,
        nth_error steps j = Some step ->
        iat2 (st_out_seq stk) b (icols (st_out_seq st) + j)
        = iat1 (snd step) b) /\
    len1 (st_offset stk) = len1 (st_offset st) /\
    (forall i, at1 (st_offset stk) i
               = (at1 (st_offset st) i + INR (List.length steps))%R).
Proof.
  induction steps as [| [rs words] rest IH]; intros st stk H.
  - cbn [Model_decode_steps] in H. injection H as <-.
    cbn [List.length INR]. rewrite Nat.add_0_r.
    repeat split; try reflexivity.
    + intros b j step Hj. destruct j; discriminate Hj.
    + intros i. ring.
  - cbn [Model_decode_steps] in H. inv_bind H.
    destruct (Model_decode_bookkeeping _ _ _ _ _ _ Hv) as (HP & HO & HL & HA).
    destruct (IH _ _ H) as (IP & IR & IC & Ipre & Inew & IL & IA).
    rewrite HO in IR, IC, Ipre, Inew. cbn [append_words irows icols iat2] in *.
    split; [congruence |]. split; [exact IR |].
    split; [cbn [List.length]; lia |].
    split; [| split; [| split; [congruence |]]].
    + intros b j Hj. rewrite Ipre by lia.
      destruct (Nat.ltb_spec j (icols (st_out_seq st))); [reflexivity | lia].
    + intros b j step Hj. destruct j as [| j].
      * cbn [nth_error] in Hj. injection Hj as <-. cbn [snd].
        rewrite Nat.add_0_r, Ipre by lia.
        destruct (Nat.ltb_spec (icols (st_out_seq st)) (icols (st_out_seq st)));
          [lia | reflexivity].
      * cbn [nth_error] in Hj.
        replace (icols (st_out_seq st) + S j)
          with (icols (st_out_seq st) + 1 + j) by lia.
        apply Inew. exact Hj.
    + intros i. rewrite IA, HA. cbn [List.length]. rewrite S_INR. ring.
Qed.

(** X7.  The state records the words it was fed.  After [Model.encode] and
    one [Model.decode] call per entry of [steps], the [out_seq] that
    [get_rdo] returns has one row per input sequence and one column per
    call, column [j] holding the words of call [j]; the position offset of
    every sequence is its initial offset plus one for the initial step of
    [encode] plus one per call. *)
Theorem decoded_words_are_recorded (self : Model) (rs : random_source)
        (batch : Batch) (steps : list (random_source * itensor1))
        (is_train : bool) (st stk : DecState) :
  Model_encode self rs batch is_train = Ok st ->
  Model_decode_steps self st steps is_train = Ok stk ->
  let out_seq := snd (Model_get_rdo self stk) in
  irows out_seq = irows (b_inp batch) /\
  icols out_seq = List.length steps /\
  (forall b j step,
      nth_error steps j = Some step -> iat2 out_seq b j = iat1 (snd step) b) /\
  len1 (st_offset stk)
  = len1 (Model_encode_offset self rs (irows (b_inp batch))) /\
  (forall i, at1 (st_offset stk) i
             = (at1 (Model_encode_offset self rs (irows (b_inp batch))) i
                + 1 + INR (List.length steps))%R).
Proof.
  intros Henc Hsteps out_seq. unfold Model_encode in Henc. inv_bind Henc.
  destruct (Model_encode_state_bookkeeping _ _ _ _ Hv) as (_ & HO0 & HF0).
  destruct (Model_decode_bookkeeping _ _ _ _ _ _ Henc) as (_ & HO & HL & HA).
  destruct (Model_decode_steps_bookkeeping _ _ _ _ _ Hsteps)
    as (_ & IR & IC & _ & Inew & IL & IA).
  rewrite HO, HO0 in IR, IC, Inew. cbn [tf_zeros_i2 irows icols] in *.
  subst out_seq. cbn [Model_get_rdo fst snd].
  split; [exact IR |]. split; [exact IC |].
  split; [| split].
  - intros b j step Hj. exact (Inew b j step Hj).
  - rewrite IL, HL, HF0. reflexivity.
  - intros i. rewrite IA, HA, HF0. reflexivity.
Qed.

(** X8.  [attnP] is not an attention distribution of the decoder:
    [Model.encode] fills it with [1 / inp_len] of every sequence, in every
    column, and no decoding step changes it.  [get_attnP] returns that
    constant matrix after any number of steps. *)
Theorem attnP_is_the_length_prior (self : Model) (rs : random_source)
        (batch : Batch) (steps : list (random_source * itensor1))
        (is_train : bool) (st stk : DecState) :
  Model_encode self rs batch is_train = Ok st ->
  Model_decode_steps self st steps is_train = Ok stk ->
  let inp_len :=
    match b_inp_len batch with
    | Some l => l
    | None => infer_length (b_inp batch) (eos (inp_voc self))
    end in
  Model_get_attnP self stk = Model_get_attnP self st /\
  rows2 (Model_get_attnP self stk) = bdim (irows (b_inp batch)) (ilen inp_len) /\
  cols2 (Model_get_attnP self stk) = icols (b_inp batch) /\
  forall b j,
    at2 (Model_get_attnP self stk) b j
    = (1 / IZR (iat1 inp_len (bidx (ilen inp_len) b)))%R.
Proof.
  intros Henc Hsteps inp_len. unfold Model_encode in Henc. inv_bind Henc.
  destruct (Model_encode_state_bookkeeping _ _ _ _ Hv) as (HP0 & _ & _).
  destruct (Model_decode_bookkeeping _ _ _ _ _ _ Henc) as (HP & _).
  destruct (Model_decode_steps_bookkeeping _ _ _ _ _ Hsteps) as (HPk & _).
  unfold Model_get_attnP. rewrite HPk, HP, HP0.
  repeat split.
Qed.

(** ** The self-attention cache *)

Lemma teq3_sym (a b : tensor3) : teq3 a b -> teq3 b a.
Proof.
  intros (H0 & H1 & H2 & H). repeat split; try congruence.
  intros i j k Hi Hj Hk. symmetry. apply H; congruence.
Qed.

Lemma teq3_trans (a b c : tensor3) : teq3 a b -> teq3 b c -> teq3 a c.
Proof.
  intros (A0 & A1 & A2 & A) (B0 & B1 & B2 & B). repeat split; try congruence.
  intros i j k Hi Hj Hk. rewrite A by assumption. apply B; congruence.
Qed.

Lemma tf_concat3_axis1_teq_l (a a' x : tensor3) :
  teq3 a a' -> teq3 (tf_concat3_axis1 a x) (tf_concat3_axis1 a' x).
Proof.
  intros (H0 & H1 & H2 & H). unfold teq3.
  cbn [tf_concat3_axis1 dim0 dim1 dim2 at3].
  repeat split; try congruence.
  intros i j k Hi Hj Hk. rewrite <- H1.
  destruct (Nat.ltb_spec j (dim1 a)); [apply H; assumption | reflexivity].
Qed.

(** Projections act on every position on its own: projecting a
    concatenation along the time axis is concatenating the projections. *)
Lemma Dense_preprocess_concat {L : Type} (w : ResidualLayerWrapper L)
      (d : Dense) (a x : tensor3) :
  teq3 (Dense_call d (preprocess w (tf_concat3_axis1 a x)))
       (tf_concat3_axis1 (Dense_call d (preprocess w a))
                         (Dense_call d (preprocess w x))).
Proof.
  unfold preprocess, teq3.
  destruct (has_step "l"%char (rlw_steps w));
    cbn [Dense_call LayerNorm_call tf_concat3_axis1 dim0 dim1 dim2 at3];
    (repeat split; try reflexivity);
    intros i j k _ _ _; destruct (j <? dim1 a); reflexivity.
Qed.

Lemma Model_decode_layer_inv (trans : Transformer) (d : bool)
      (rs : random_source) (st : DecState) (mask : tensor4) (x : tensor3)
      (ls kvs : list tensor3) (layer : nat) (x' : tensor3)
      (ls' kvs' : list tensor3) :
  Model_decode_layer trans d rs st mask (x, ls, kvs) layer = Ok (x', ls', kvs') ->
  exists attn old prev,
    nth_error (dec_attn trans) layer = Some attn /\
    nth_error (st_dec_dec_kv st) layer = Some old /\
    nth_error (st_dec_layers st) layer = Some prev /\
    kvs' = (kvs ++ [tf_concat3_axis1 old
                      (Dense_call (kv_conv (wrapped_layer attn))
                                  (preprocess attn x))])%list /\
    ls' = (ls ++ [tf_concat3_axis1 prev x'])%list.
Proof.
  unfold Model_decode_layer. intros H.
  inv_bind H. rename v into attn, Hv into Hattn.
  inv_bind H. rename v into old, Hv into Hold.
  inv_bind H. inv_bind H. inv_bind H. inv_bind H. inv_bind H. inv_bind H.
  inv_bind H. inv_bind H. rename v6 into prev, Hv6 into Hprev.
  injection H as <- <- <-.
  exists attn, old, prev.
  rewrite <- !py_index_nth_error. repeat split; assumption.
Qed.

Lemma nth_error_app_last {A : Type} (xs : list A) (a : A) :
  nth_error (xs ++ [a])%list (List.length xs) = Some a.
Proof.
  rewrite nth_error_app2 by lia. rewrite Nat.sub_diag. reflexivity.
Qed.

Lemma extend_cache_consistent {L : Type} (w : ResidualLayerWrapper L)
      (d : Dense) (old inputs x : tensor3) :
  teq3 old (Dense_call d (preprocess w inputs)) ->
  teq3 (tf_concat3_axis1 old (Dense_call d (preprocess w x)))
       (Dense_call d (preprocess w (tf_concat3_axis1 inputs x))).
Proof.
  intros H.
  eapply teq3_trans; [apply tf_concat3_axis1_teq_l; exact H |].
  apply teq3_sym. apply Dense_preprocess_concat.
Qed.

(** The decoding loop keeps every cache it has extended consistent with the
    inputs it has appended: [x0] is the input of the first layer, and the
    newest entry of the layer list under construction ends with the input
    of the next layer. *)
Lemma Model_decode_loop_consistent (self : Model) (d : bool)
      (rs : random_source) (st : DecState) (mask : tensor4) (x0 : tensor3) :
  kv_cache_consistent self st ->
  let inputs_of (ls : list tensor3) (layer : nat) :=
    match layer with
    | 0 => Some (tf_concat3_axis1 (st_emb st) x0)
    | S below => nth_error ls below
    end in
  forall m a x ls kvs x' ls' kvs',
    List.length ls = a -> List.length kvs = a ->
    (forall layer attn kv inputs,
        layer < a ->
        nth_error (dec_attn (transformer self)) layer = Some attn ->
        nth_error kvs layer = Some kv ->
        inputs_of ls layer = Some inputs ->
        teq3 kv (Dense_call (kv_conv (wrapped_layer attn))
                            (preprocess attn inputs))) ->
    match a with
    | 0 => x = x0
    | S below =>
        exists prev, nth_error (st_dec_layers st) below = Some prev /\
                     nth_error ls below = Some (tf_concat3_axis1 prev x)
    end ->
    foldM (Model_decode_layer (transformer self) d rs st mask)
          (x, ls, kvs) (seq a m) = Ok (x', ls', kvs') ->
    forall layer attn kv inputs,
      nth_error (dec_attn (transformer self)) layer = Some attn ->
      nth_error kvs' layer = Some kv ->
      inputs_of ls' layer = Some inputs ->
      teq3 kv (Dense_call (kv_conv (wrapped_layer attn))
                          (preprocess attn inputs)).
Proof.
  intros Hst inputs_of.
  induction m as [| m IH];
    intros a x ls kvs x' ls' kvs' Hls Hkvs Hdone Hlink H.
  - cbn [seq foldM] in H. injection H as <- <- <-.
    intros layer attn kv inputs Hattn Hkv Hin.
    apply (Hdone layer attn kv inputs); try assumption.
    rewrite <- Hkvs. apply nth_error_Some. congruence.
  - cbn [seq foldM] in H. inv_bind H. destruct v as [[x1 ls1] kvs1].
    destruct (Model_decode_layer_inv _ _ _ _ _ _ _ _ _ _ _ _ Hv)
      as (attn_a & old & prev & Hattn_a & Hold & Hprev & -> & ->).
    refine (IH _ _ _ _ _ _ _ _ _ _ _ H).
    + rewrite length_app. simpl. lia.
    + rewrite length_app. simpl. lia.
    + intros layer attn kv inputs Hlayer Hattn Hkv Hin.
      destruct (Nat.eq_dec layer a) as [-> | Hne].
      * rewrite <- Hkvs in Hkv at 1. rewrite nth_error_app_last in Hkv.
        injection Hkv as <-.
        assert (attn = attn_a) by congruence. subst attn.
        destruct a as [| below].
        -- cbn [inputs_of] in Hin. injection Hin as <-. subst x.
           apply extend_cache_consistent.
           apply (Hst 0 attn_a old (st_emb st)); [assumption .. | reflexivity].
        -- destruct Hlink as (prev0 & Hprev0 & Hls0).
           cbn [inputs_of] in Hin.
           rewrite nth_error_app1 in Hin by lia.
           rewrite Hls0 in Hin. injection Hin as <-.
           apply extend_cache_consistent.
           apply (Hst (S below) attn_a old prev0); assumption.
      * apply (Hdone layer attn kv inputs); try assumption; try lia.
        -- rewrite nth_error_app1 in Hkv by lia. exact Hkv.
        -- destruct layer as [| below]; [exact Hin |].
           cbn [inputs_of] in Hin |- *.
           rewrite nth_error_app1 in Hin by lia. exact Hin.
    + exists prev. split; [exact Hprev |].
      rewrite <- Hls. apply nth_error_app_last.
Qed.

Lemma Model_decode_consistent (self : Model) (rs : random_source)
      (st st' : DecState) (words : option itensor1) (is_train : bool) :
  kv_cache_consistent self st ->
  Model_decode self rs st words is_train = Ok st' ->
  kv_cache_consistent self st'.
Proof.
  intros Hst H. unfold Model_decode in H.
  inv_bind H. inv_bind H. destruct v0 as [[x ls] kvs]. inv_bind H.
  injection H as <-.
  intros layer attn kv inputs Hattn Hkv Hin.
  cbn [st_dec_dec_kv] in Hkv.
  eapply (Model_decode_loop_consistent self is_train rs st _ _ Hst
            (num_layers_dec (transformer self)) 0 _ [] [] x ls kvs);
    try reflexivity; try eassumption.
  intros l a k i Hl. lia.
Qed.

Lemma mapM_enumerate_nth {A B : Type} (f : nat -> A -> result B) (xs : list A) :
  forall start ys,
    mapM_enumerate f start xs = Ok ys ->
    forall i x y,
      nth_error xs i = Some x -> nth_error ys i = Some y ->
      f (start + i) x = Ok y.
Proof.
  induction xs as [| x0 rest IH]; intros start ys H i x y Hx Hy.
  - destruct i; discriminate Hx.
  - cbn [mapM_enumerate] in H. inv_bind H. inv_bind H. injection H as <-.
    destruct i as [| i].
    + cbn [nth_error] in Hx, Hy. injection Hx as <-. injection Hy as <-.
      rewrite Nat.add_0_r. exact Hv.
    + cbn [nth_error] in Hx, Hy.
      replace (start + S i) with (S start + i) by lia.
      exact (IH _ _ Hv0 i x y Hx Hy).
Qed.

Lemma Model_encode_state_consistent (self : Model) (rs : random_source)
      (batch : Batch) (st0 : DecState) :
  Model_encode_state self rs batch = Ok st0 -> kv_cache_consistent self st0.
Proof.
  unfold Model_encode_state. intros H.
  inv_bind H. destruct v as [enc_out mask]. inv_bind H.
  injection H as <-.
  intros layer attn kv inputs Hattn Hkv Hin.
  cbn [st_dec_dec_kv] in Hkv.
  pose proof (mapM_enumerate_nth _ _ _ _ Hv0 layer attn kv Hattn Hkv) as Hf.
  cbn beta in Hf. rewrite Nat.add_0_l in Hf.
  apply bind_ok in Hf. destruct Hf as [input_layer [Hinp Hf]].
  injection Hf as <-.
  apply py_index_nth_error in Hinp.
  assert (input_layer = inputs); [| subst; apply teq3_refl].
  destruct layer as [| below].
  - cbn in Hinp, Hin. congruence.
  - cbn [cached_layer_input st_dec_layers] in Hin.
    cbn [app nth_error] in Hinp.
    apply nth_error_In in Hinp. apply nth_error_In in Hin.
    rewrite removelast_repeat in Hinp.
    apply repeat_spec in Hinp. apply repeat_spec in Hin. congruence.
Qed.

(** X9.  The self-attention cache of the decoder is always the projection
    of the inputs the state has cached.  After [Model.encode] and any
    number of [Model.decode] calls, in training or inference mode, the
    cached keys and values [dec_dec_kv[l]] of every layer [l] equal
    [kv_conv(preprocess(inputs))] of that layer applied to all the inputs
    the layer has been fed: [emb] for the first layer and
    [dec_layers[l - 1]] for layer [l].  Extending the cache by the
    projection of the newest step is the same as projecting the extended
    inputs anew. *)
Theorem self_attention_cache_is_projection_of_inputs
        (self : Model) (rs : random_source) (batch : Batch)
        (steps : list (random_source * itensor1)) (is_train : bool)
        (st stk : DecState) :
  Model_encode self rs batch is_train = Ok st ->
  Model_decode_steps self st steps is_train = Ok stk ->
  forall layer attn kv inputs,
    nth_error (dec_attn (transformer self)) layer = Some attn ->
    nth_error (st_dec_dec_kv stk) layer = Some kv ->
    cached_layer_input stk layer = Some inputs ->
    teq3 kv (Dense_call (kv_conv (wrapped_layer attn)) (preprocess attn inputs)).
Proof.
  intros Henc Hsteps. unfold Model_encode in Henc. inv_bind Henc.
  pose proof (Model_encode_state_consistent _ _ _ _ Hv) as H0.
  pose proof (Model_decode_consistent _ _ _ _ _ _ H0 Henc) as H1.
  clear Hv Henc H0.
  revert st stk H1 Hsteps.
  induction steps as [| [rs1 words] rest IH]; intros st stk Hst Hsteps.
  - cbn [Model_decode_steps] in Hsteps. injection Hsteps as <-. exact Hst.
  - cbn [Model_decode_steps] in Hsteps.
    apply bind_ok in Hsteps. destruct Hsteps as [st1 [Hst1 Hsteps]].
    apply (IH st1 stk); [| exact Hsteps].
    exact (Model_decode_consistent _ _ _ _ _ _ Hst Hst1).
Qed.

(** ** The encoder and its padding mask *)

Lemma count_sequence_mask (len : Z) (n : nat) :
  sum_n n (fun j => if (Z.of_nat j <? len)%Z then 1%R else 0%R)
  = INR (Nat.min (Z.to_nat len) n).
Proof.
  induction n as [| n IH].
  - rewrite Nat.min_0_r. reflexivity.
  - cbn [sum_n]. rewrite IH.
    destruct (Z.ltb_spec (Z.of_nat n) len).
    + rewrite (Nat.min_r _ n), (Nat.min_r _ (S n)) by lia.
      rewrite S_INR. reflexivity.
    + rewrite (Nat.min_l _ n), (Nat.min_l _ (S n)) by lia. lra.
Qed.

(** X10.  [Transformer.encode] of a well-formed transformer returns, for
    every input, an encoder output with one row per input position,
    together with the padding mask of [_make_enc_attn_mask]: shape
    [batch * 1 * 1 * ninp], entry 1 at the positions before [inp_len] of
    the sequence and 0 from there on, so that exactly
    [min(inp_len, ninp)] positions of a sequence are open (none for a
    length that is not positive). *)
Theorem encoder_output_and_padding_mask (self : Transformer)
        (rs : random_source) (inp : itensor2) (inp_len : itensor1)
        (is_train : bool) :
  wf_transformer self = true ->
  exists enc_out mask,
    Transformer_encode self rs inp inp_len is_train = Ok (enc_out, mask) /\
    dim1 enc_out = icols inp /\
    mask = Transformer_make_enc_attn_mask inp inp_len /\
    e0 mask = ilen inp_len /\ e1 mask = 1 /\ e2 mask = 1 /\
    e3 mask = icols inp /\
    (forall b h i j, at4 mask b h i j = 1%R <-> (Z.of_nat j < iat1 inp_len b)%Z) /\
    (forall b h i j, at4 mask b h i j = 0%R <-> (iat1 inp_len b <= Z.of_nat j)%Z) /\
    (forall b h i,
        sum_n (icols inp) (fun j => at4 mask b h i j)
        = INR (Nat.min (Z.to_nat (iat1 inp_len b)) (icols inp))).
Proof.
  intros Hwf.
  destruct (Transformer_encode_ok self rs inp inp_len is_train Hwf)
    as (enc_out & Henc & Hdim).
  exists enc_out, (Transformer_make_enc_attn_mask inp inp_len).
  split; [exact Henc |]. split; [exact Hdim |]. split; [reflexivity |].
  cbn [Transformer_make_enc_attn_mask expand_dims_1_2 tf_sequence_mask
       e0 e1 e2 e3 at4 rows2 cols2 at2].
  repeat (split; [reflexivity |]).
  split; [| split].
  - intros b h i j. destruct (Z.ltb_spec (Z.of_nat j) (iat1 inp_len b)); split;
      intros H'; try reflexivity; try assumption; try lia; lra.
  - intros b h i j. destruct (Z.ltb_spec (Z.of_nat j) (iat1 inp_len b)); split;
      intros H'; try reflexivity; try assumption; try lia; lra.
  - intros b h i. apply count_sequence_mask.
Qed.

(** ** Attention in an incremental step *)

(** X11.  The self-attention of an incremental step blocks nothing.  The
    mask [Model.decode] builds, the last row of the causal mask over the
    padded [out_seq], has a single query row and one entry per cached key,
    all of them 1; the bias of every key is therefore zero, and the weights
    of the newest position over a cache of that length are the plain
    softmax of the scaled dot products. *)
Theorem incremental_step_attends_all_cached_keys (self : MultiHeadAttn)
        (out_seq : itensor2) (x kv : tensor3) (W : tensor4) :
  let mask :=
    slice4_last_axis2 (Transformer_make_dec_attn_mask (pad_out_seq out_seq)) in
  MultiHeadAttn_weights self x mask None (Some kv) = Ok W ->
  dim1 x = 1 ->
  dim1 kv = icols out_seq + 1 ->
  e0 mask = 1 /\ e1 mask = 1 /\ e2 mask = 1 /\ e3 mask = icols out_seq + 1 /\
  (forall b h j, j < icols out_seq + 1 -> at4 mask b h 0 j = 1%R) /\
  exists q k,
    MultiHeadAttn_split_heads self (Dense_call (query_conv self) x) = Ok q /\
    MultiHeadAttn_split_heads self (split3_piece kv 0 (key_depth self)) = Ok k /\
    e3 W = icols out_seq + 1 /\
    forall b h j,
      b < dim0 x -> h < num_heads self -> j < icols out_seq + 1 ->
      at4 (MultiHeadAttn_logits self q k mask) b h 0 j
      = scaled_score self q k b h 0 j /\
      at4 W b h 0 j
      = (exp (scaled_score self q k b h 0 j)
         / sum_n (icols out_seq + 1)
                 (fun j' => exp (scaled_score self q k b h 0 j')))%R.
Proof.
  intros mask HW Hx Hkv.
  assert (Hmask : forall b h j, j < icols out_seq + 1 -> at4 mask b h 0 j = 1%R).
  { intros b h j Hj. unfold mask.
    cbn [slice4_last_axis2 Transformer_make_dec_attn_mask pad_out_seq
         tf_lower_triangle e2 at4 at2 icols].
    destruct (Nat.leb_spec j (icols out_seq + 1 - 1 + 0)); [reflexivity | lia]. }
  assert (He2 : e2 mask = 1).
  { unfold mask.
    cbn [slice4_last_axis2 Transformer_make_dec_attn_mask pad_out_seq e2 icols].
    lia. }
  split; [reflexivity |]. split; [reflexivity |]. split; [exact He2 |].
  split; [reflexivity |]. split; [exact Hmask |].
  destruct (MultiHeadAttn_weights_inv _ _ _ _ _ _ HW)
    as (q3 & k3 & v3 & q & k & Hqkv & Hq & Hk & ->).
  cbn [MultiHeadAttn_qkv fst snd] in Hqkv. injection Hqkv as <- <- <-.
  exists q, k. split; [exact Hq |]. split; [exact Hk |].
  destruct (MultiHeadAttn_split_heads_inv _ _ _ Hq) as [Hh Eq].
  destruct (MultiHeadAttn_split_heads_inv _ _ _ Hk) as [_ Ek].
  assert (Hq0 : e0 q = dim0 x) by (rewrite Eq; reflexivity).
  assert (Hq1 : e1 q = num_heads self) by (rewrite Eq; reflexivity).
  assert (Hq2 : e2 q = 1) by (rewrite Eq; cbn; exact Hx).
  assert (Hk2 : e2 k = icols out_seq + 1) by (rewrite Ek; cbn; exact Hkv).
  assert (HL : forall b h j,
             b < dim0 x -> h < num_heads self -> j < icols out_seq + 1 ->
             at4 (MultiHeadAttn_logits self q k mask) b h 0 j
             = scaled_score self q k b h 0 j).
  { intros b h j Hb Hhd Hj.
    rewrite MultiHeadAttn_logits_entry by lia.
    unfold mask_entry. rewrite He2.
    replace (e0 mask) with 1 by reflexivity.
    replace (e1 mask) with 1 by reflexivity.
    replace (e3 mask) with (icols out_seq + 1) by reflexivity.
    cbn [bidx Nat.eqb].
    rewrite Hmask.
    - unfold ATTN_BIAS_VALUE. lra.
    - unfold bidx. destruct (icols out_seq + 1 =? 1); lia. }
  assert (He3 : e3 (MultiHeadAttn_logits self q k mask) = icols out_seq + 1).
  { unfold MultiHeadAttn_logits.
    cbn [tf_add4 bmap4 tf_matmul4 tf_transpose4 map4 e3 sel4].
    rewrite Hk2. apply bdim_same. }
  split; [exact He3 |].
  intros b h j Hb Hhd Hj. split; [apply HL; assumption |].
  cbn [tf_softmax4 at4]. rewrite He3, HL by assumption.
  f_equal. apply sum_n_ext. intros j' Hj'. rewrite HL by assumption.
  reflexivity.
Qed.

(** ** The feed-forward layer *)

(** X12.  [FFN] acts on every position on its own when dropout is off: it
    always returns, keeps the batch and time axes, and the features it
    returns for a position are a function of the features of that position
    alone.  Applied to a sequence extended along the time axis it returns
    the old outputs followed by the outputs of the new positions. *)
Theorem FFN_acts_on_each_position (self : FFN) (rs : random_source) :
  (forall x, exists y,
      FFN_call self false rs x = Ok y /\
      dim0 y = dim0 x /\ dim1 y = dim1 x /\
      dim2 y = cols2 (dense_W (second_conv self))) /\
  (forall x x' y y' b j b' j',
      FFN_call self false rs x = Ok y ->
      FFN_call self false rs x' = Ok y' ->
      (forall k, at3 x b j k = at3 x' b' j' k) ->
      forall k, at3 y b j k = at3 y' b' j' k) /\
  (forall a x ya yx yax,
      FFN_call self false rs a = Ok ya ->
      FFN_call self false rs x = Ok yx ->
      FFN_call self false rs (tf_concat3_axis1 a x) = Ok yax ->
      teq3 yax (tf_concat3_axis1 ya yx)).
Proof.
  unfold FFN_call. split; [| split].
  - intros x. eexists. split; [reflexivity |]. repeat split.
  - intros x x' y y' b j b' j' Hy Hy' Hrow k.
    apply Ok_inj in Hy. apply Ok_inj in Hy'. subst y y'.
    cbn [Dense_call at3]. f_equal. f_equal.
    apply sum_n_ext. intros l _. f_equal. f_equal. f_equal.
    apply sum_n_ext. intros l' _. rewrite Hrow. reflexivity.
  - intros a x ya yx yax Ha Hx Hax.
    apply Ok_inj in Ha. apply Ok_inj in Hx. apply Ok_inj in Hax.
    subst ya yx yax. unfold teq3.
    cbn [Dense_call tf_concat3_axis1 dim0 dim1 dim2 at3].
    repeat split.
    intros i j k _ _ _. destruct (j <? dim1 a); reflexivity.
Qed.

(** ** What the constructors guarantee *)

Lemma Transformer_init_sizes_inv (hp : hparams) (e k v : nat) :
  Transformer_init_sizes [] hp = Ok (e, k, v) ->
  e = py_or (hp_emb_size hp) (hp_hid_size hp) /\
  k = py_or (hp_key_size hp) (hp_hid_size hp) /\
  v = py_or (hp_value_size hp) (hp_hid_size hp) /\
  hp_num_heads hp <> 0 /\
  k mod hp_num_heads hp = 0 /\ v mod hp_num_heads hp = 0.
Proof.
  unfold Transformer_init_sizes, py_mod.
  destruct (hp_num_heads hp =? 0) eqn:E; cbn [bind]; intros H;
    [discriminate H |].
  destruct (py_or (hp_key_size hp) (hp_hid_size hp) mod hp_num_heads hp =? 0)
    eqn:Ek; cbn [negb] in H; [| discriminate H].
  destruct (py_or (hp_value_size hp) (hp_hid_size hp) mod hp_num_heads hp =? 0)
    eqn:Ev; cbn [negb] in H; [| discriminate H].
  injection H as <- <- <-.
  apply Nat.eqb_neq in E. apply Nat.eqb_eq in Ek. apply Nat.eqb_eq in Ev.
  repeat split; assumption.
Qed.

Lemma attn_layer_fields (vs : variable_store) (scope name : string)
      (inp_size kd vd od heads : nat) (ad avd : R) (dbg : bool)
      (_format steps : string) (isz osz : nat) (dr : R)
      (w : ResidualLayerWrapper MultiHeadAttn) :
  (attn <- MultiHeadAttn_init vs scope name inp_size kd vd od heads ad avd dbg
             _format ;;
   ResidualLayerWrapper_init scope name attn isz osz steps dr) = Ok w ->
  num_heads (wrapped_layer w) = heads /\
  key_depth (wrapped_layer w) = kd /\
  value_depth (wrapped_layer w) = vd /\
  format (wrapped_layer w) = _format.
Proof.
  intros H. inv_bind H.
  unfold MultiHeadAttn_init in Hv. inv_bind Hv.
  destruct v0 as [[qc kc] cc]. injection Hv as <-.
  unfold ResidualLayerWrapper_init in H.
  destruct (has_step "a" steps && negb (isz =? osz)); [discriminate H |].
  injection H as <-. repeat split.
Qed.

(** What [Transformer.__init__] has built when it returns. *)
Lemma Transformer_init_inv (vs : variable_store) (name : string)
      (inp_voc out_voc : Vocab) (hp : hparams) (t : Transformer) :
  Transformer_init vs name inp_voc out_voc [] hp = Ok t ->
  let unit_of (fmt : string) (w : ResidualLayerWrapper MultiHeadAttn) :=
    num_heads (wrapped_layer w) = hp_num_heads hp /\
    key_depth (wrapped_layer w) = py_or (hp_key_size hp) (hp_hid_size hp) /\
    value_depth (wrapped_layer w) = py_or (hp_value_size hp) (hp_hid_size hp) /\
    format (wrapped_layer w) = fmt in
  let voc_rows (own : nat) :=
    if hp_share_emb hp then Nat.max (voc_len inp_voc) (voc_len out_voc)
    else own in
  hp_num_heads hp <> 0 /\
  py_or (hp_key_size hp) (hp_hid_size hp) mod hp_num_heads hp = 0 /\
  py_or (hp_value_size hp) (hp_hid_size hp) mod hp_num_heads hp = 0 /\
  emb_size t = py_or (hp_emb_size hp) (hp_hid_size hp) /\
  hid_size t = hp_hid_size hp /\
  num_layers_enc t = hp_num_layers hp /\
  num_layers_dec t = hp_num_layers hp /\
  List.length (enc_attn t) = hp_num_layers hp /\
  List.length (enc_ffn t) = hp_num_layers hp /\
  List.length (dec_attn t) = hp_num_layers hp /\
  List.length (dec_enc_attn t) = hp_num_layers hp /\
  List.length (dec_ffn t) = hp_num_layers hp /\
  Forall (unit_of "combined") (enc_attn t) /\
  Forall (unit_of "combined") (dec_attn t) /\
  Forall (unit_of (if String.eqb (hp_multihead_attn_format hp) "v1"
                then "use_kv" else "combined")) (dec_enc_attn t) /\
  emb_inp t = Embedding_init vs name "emb_inp" (voc_rows (voc_len inp_voc))
                             (emb_size t) None /\
  emb_out t = Embedding_init vs name "emb_out" (voc_rows (voc_len out_voc))
                             (emb_size t)
                             (if hp_share_emb hp then Some (mat (emb_inp t))
                              else None) /\
  (forall bias, emb_inp_bias t = Some bias -> dim0 bias = 1).
Proof.
  intros H unit_of voc_rows. unfold Transformer_init in H.
  inv_bind H. destruct v as [[e k] v].
  destruct (Transformer_init_sizes_inv hp e k v Hv)
    as (-> & -> & -> & Hh & Hk & Hvd).
  clear Hv.
  inv_bind H. inv_bind H. inv_bind H. inv_bind H. inv_bind H.
  injection H as <-.
  destruct (mapM_ok_inv _ (unit_of "combined") _
              (fun i w E => attn_layer_fields _ _ _ _ _ _ _ _ _ _ _ _ _ _ _ _
                              w E) _ Hv) as [L0 F0].
  destruct (mapM_ok_inv _ (fun _ => True) _ (fun _ _ _ => I) _ Hv0) as [L1 _].
  destruct (mapM_ok_inv _ (unit_of "combined") _
              (fun i w E => attn_layer_fields _ _ _ _ _ _ _ _ _ _ _ _ _ _ _ _
                              w E) _ Hv1) as [L2 F2].
  destruct (mapM_ok_inv _ (unit_of (if String.eqb (hp_multihead_attn_format hp) "v1"
                                 then "use_kv" else "combined")) _
              (fun i w E => attn_layer_fields _ _ _ _ _ _ _ _ _ _ _ _ _ _ _ _
                              w E) _ Hv2) as [L3 F3].
  destruct (mapM_ok_inv _ (fun _ => True) _ (fun _ _ _ => I) _ Hv3) as [L4 _].
  rewrite length_seq in L0, L1, L2, L3, L4.
  cbn [emb_size hid_size num_layers_enc num_layers_dec enc_attn enc_ffn dec_attn
       dec_enc_attn dec_ffn emb_inp emb_out emb_inp_bias].
  repeat (split; [first [assumption | reflexivity] |]).
  intros bias Hb. destruct (hp_inp_emb_bias hp); [| discriminate Hb].
  injection Hb as <-. reflexivity.
Qed.

(** X13.  When [Transformer.__init__] returns, the number of heads is not
    zero and divides the key and the value size (each [hid_size] when not
    given or given as 0); there are [num_layers] layers of every kind;
    every attention unit carries those sizes and that number of heads, the
    self-attention units in the ['combined'] format and the
    encoder-decoder units in ['use_kv'] exactly when
    [multihead_attn_format] is ['v1'].  In every unit [_split_heads]
    therefore cuts keys, queries and values of the unit's depth into heads
    without a remainder, and [_combine_heads] restores them. *)
Theorem constructed_attention_units (vs : variable_store) (name : string)
        (inp_voc out_voc : Vocab) (hp : hparams) (t : Transformer) :
  Transformer_init vs name inp_voc out_voc [] hp = Ok t ->
  let heads := hp_num_heads hp in
  let key_size := py_or (hp_key_size hp) (hp_hid_size hp) in
  let value_size := py_or (hp_value_size hp) (hp_hid_size hp) in
  let unit_of (fmt : string) (w : ResidualLayerWrapper MultiHeadAttn) :=
    num_heads (wrapped_layer w) = heads /\
    key_depth (wrapped_layer w) = key_size /\
    value_depth (wrapped_layer w) = value_size /\
    format (wrapped_layer w) = fmt in
  heads <> 0 /\ key_size mod heads = 0 /\ value_size mod heads = 0 /\
  List.length (enc_attn t) = hp_num_layers hp /\
  List.length (enc_ffn t) = hp_num_layers hp /\
  List.length (dec_attn t) = hp_num_layers hp /\
  List.length (dec_enc_attn t) = hp_num_layers hp /\
  List.length (dec_ffn t) = hp_num_layers hp /\
  Forall (unit_of "combined") (enc_attn t) /\
  Forall (unit_of "combined") (dec_attn t) /\
  Forall (unit_of (if String.eqb (hp_multihead_attn_format hp) "v1"
                then "use_kv" else "combined")) (dec_enc_attn t) /\
  forall w x,
    In w (enc_attn t ++ dec_attn t ++ dec_enc_attn t)%list ->
    dim2 x = key_size \/ dim2 x = value_size ->
    exists y,
      MultiHeadAttn_split_heads (wrapped_layer w) x = Ok y /\
      e1 y = heads /\ e3 y = dim2 x / heads /\
      teq3 (MultiHeadAttn_combine_heads (wrapped_layer w) y) x.
Proof.
  intros H heads key_size value_size unit_of.
  destruct (Transformer_init_inv _ _ _ _ _ _ H)
    as (Hh & Hk & Hv & _ & _ & _ & _ & L0 & L1 & L2 & L3 & L4 & F0 & F2 & F3 & _).
  repeat (split; [assumption |]).
  intros w x Hin Hx.
  assert (Hw : num_heads (wrapped_layer w) = heads).
  { rewrite !in_app_iff in Hin. destruct Hin as [Hin | [Hin | Hin]].
    - exact (proj1 (proj1 (Forall_forall _ _) F0 w Hin)).
    - exact (proj1 (proj1 (Forall_forall _ _) F2 w Hin)).
    - exact (proj1 (proj1 (Forall_forall _ _) F3 w Hin)). }
  assert (Hdiv : dim2 x mod num_heads (wrapped_layer w) = 0).
  { rewrite Hw. destruct Hx as [-> | ->]; assumption. }
  assert (Hne : num_heads (wrapped_layer w) <> 0) by (rewrite Hw; exact Hh).
  eexists. split; [apply MultiHeadAttn_split_heads_ok; exact Hne |].
  split; [exact Hw |]. split; [cbn; rewrite Hw; reflexivity |].
  apply combine_split_heads_teq; assumption.
Qed.

(** X14.  A head count of zero is not reported as a bad number of heads:
    [key_size % num_heads] divides by zero first, so [Transformer.__init__]
    and with it [Model.__init__] raise [ZeroDivisionError].  Positional
    arguments are rejected before that. *)
Theorem zero_heads_is_a_division_error (vs : variable_store) (act : R -> R)
        (name : string) (inp_voc out_voc : Vocab) (hp : hparams) :
  hp_num_heads hp = 0 ->
  Transformer_init vs name inp_voc out_voc [] hp = Raise ZeroDivisionError /\
  Model_init vs act name inp_voc out_voc hp = Raise ZeroDivisionError /\
  forall a args,
    Transformer_init vs name inp_voc out_voc (a :: args) hp
    = Raise (Exception "Unexpected positional arguments").
Proof.
  intros Hh.
  assert (H0 : Transformer_init vs name inp_voc out_voc [] hp
               = Raise ZeroDivisionError).
  { unfold Transformer_init, Transformer_init_sizes, py_mod.
    rewrite Hh. reflexivity. }
  split; [exact H0 |]. split.
  - unfold Model_init. rewrite H0. reflexivity.
  - intros a args. reflexivity.
Qed.

(** X15.  The output projection and the embeddings.  With [share_emb] the
    output embedding uses the matrix of the input embedding, which has
    [max(len(inp_voc), len(out_voc))] rows.  With [dwwt] the weight of
    [logits] is the transpose of the output embedding matrix, so
    [get_logits] scores vocabulary entry [v] by the dot product of the
    read-out with row [v] of that matrix, over [emb_size] features and over
    as many entries as the matrix has rows; without [dwwt] the weight is a
    variable of shape [hid_size * len(out_voc)]. *)
Theorem logits_weight_tying (vs : variable_store) (act : R -> R)
        (name : string) (inp_voc out_voc : Vocab) (hp : hparams)
        (self : Model) :
  Model_init vs act name inp_voc out_voc hp = Ok self ->
  let t := transformer self in
  let out_rows :=
    if hp_share_emb hp then Nat.max (voc_len inp_voc) (voc_len out_voc)
    else voc_len out_voc in
  rows2 (mat (emb_out t)) = out_rows /\
  cols2 (mat (emb_out t)) = emb_size t /\
  (hp_share_emb hp = true -> mat (emb_out t) = mat (emb_inp t)) /\
  (hp_dwwt hp = false ->
   rows2 (dense_W (logits self)) = hid_size t /\
   cols2 (dense_W (logits self)) = voc_len out_voc) /\
  (hp_dwwt hp = true ->
   dense_W (logits self) = tf_transpose2 (mat (emb_out t)) /\
   rows2 (dense_W (logits self)) = emb_size t /\
   cols2 (dense_W (logits self)) = out_rows /\
   forall st b v,
     at2 (Model_get_logits self st) b v
     = act (sum_n (emb_size t)
                  (fun l => at2 (st_rdo st) b l * at2 (mat (emb_out t)) v l)
            + at1 (dense_b (logits self)) v)%R) /\
  forall st,
    rows2 (Model_get_logits self st) = rows2 (st_rdo st) /\
    cols2 (Model_get_logits self st) = cols2 (dense_W (logits self)).
Proof.
  intros H t out_rows. unfold Model_init in H. inv_bind H.
  destruct (Transformer_init_inv _ _ _ _ _ _ Hv)
    as (_ & _ & _ & He & Hhid & _ & _ & _ & _ & _ & _ & _ & _ & _ & _ & Hi & Ho
        & _).
  injection H as <-. subst t. cbn [transformer logits].
  assert (Hrows : rows2 (mat (emb_out v)) = out_rows).
  { rewrite Ho. unfold out_rows. destruct (hp_share_emb hp); [| reflexivity].
    cbn [Embedding_init mat]. rewrite Hi. reflexivity. }
  assert (Hcols : cols2 (mat (emb_out v)) = emb_size v).
  { rewrite Ho. destruct (hp_share_emb hp); [| reflexivity].
    cbn [Embedding_init mat]. rewrite Hi. reflexivity. }
  split; [exact Hrows |]. split; [exact Hcols |].
  split; [| split; [| split]].
  - intros Hs. rewrite Ho, Hs. reflexivity.
  - intros Hd. rewrite Hd. split; reflexivity.
  - intros Hd. rewrite Hd.
    cbn [Dense_init dense_W dense_b dense_activation tf_transpose2 rows2 cols2].
    split; [reflexivity |]. split; [exact Hcols |]. split; [exact Hrows |].
    intros st b w. unfold Model_get_logits.
    cbn [Dense_call2 at2 logits Dense_init dense_W dense_b dense_activation
         tf_transpose2 rows2 cols2].
    rewrite Hcols. reflexivity.
  - intros st. split; reflexivity.
Qed.

(** ** The batch axis *)

Ltac inv_bind_as H a Ha :=
  apply bind_ok in H; destruct H as [a [Ha H]].

Lemma preprocess_dim0 {L : Type} (w : ResidualLayerWrapper L) (x : tensor3) :
  dim0 (preprocess w x) = dim0 x.
Proof. unfold preprocess. destruct (has_step _ _); reflexivity. Qed.

Lemma postprocess_steps_dim0 {L : Type} (w : ResidualLayerWrapper L)
      (d : bool) (rs : random_source) (steps : string) (inp : tensor3) (n : nat) :
  dim0 inp = n ->
  forall out, dim0 out = n -> dim0 (postprocess_steps w d rs steps out inp) = n.
Proof.
  intros Hinp. induction steps as [| c rest IH]; intros out Hout;
    cbn [postprocess_steps]; [exact Hout |].
  apply IH.
  destruct (Ascii.eqb c "d"); [destruct d; exact Hout |].
  destruct (Ascii.eqb c "a").
  - cbn [tf_add3 bmap3 dim0]. rewrite Hinp, Hout. apply bdim_same.
  - destruct (Ascii.eqb c "n"); exact Hout.
Qed.

Lemma MultiHeadAttn_qkv_dim0 (self : MultiHeadAttn) (x : tensor3)
      (kv_inp kv : option tensor3) (q k v : tensor3) :
  MultiHeadAttn_qkv self x kv_inp kv = Ok (q, k, v) -> dim0 q = dim0 x.
Proof.
  unfold MultiHeadAttn_qkv.
  destruct kv as [kv0 |]; destruct kv_inp as [kvi |]; intros H;
    try discriminate H; injection H as <- _ _; reflexivity.
Qed.

Lemma MultiHeadAttn_call_dim0 (self : MultiHeadAttn) (d : bool)
      (rs : random_source) (x : tensor3) (mask : tensor4)
      (kv_inp kv : option tensor3) (y : tensor3) :
  MultiHeadAttn_call self d rs x mask kv_inp kv = Ok y ->
  dim0 y = bdim (dim0 x) (e0 mask).
Proof.
  unfold MultiHeadAttn_call, MultiHeadAttn_attention. intros H.
  inv_bind H. destruct v as [weights vh]. injection H as <-.
  inv_bind Hv. destruct v as [[q3 k3] v3].
  apply MultiHeadAttn_qkv_dim0 in Hv0.
  inv_bind Hv. inv_bind Hv. inv_bind Hv.
  apply MultiHeadAttn_split_heads_inv in Hv1. destruct Hv1 as [_ ->].
  injection Hv as <- <-.
  destruct d; simpl; rewrite Hv0; reflexivity.
Qed.

Lemma attn_layer_dim0 (w : ResidualLayerWrapper MultiHeadAttn) (d : bool)
      (rs : random_source) (mask : tensor4) (kv_inp kv : option tensor3)
      (inp y : tensor3) :
  e0 mask = 1 \/ e0 mask = dim0 inp ->
  ResidualLayerWrapper_call w d rs
    (fun a x => MultiHeadAttn_call a d rs x mask kv_inp kv) inp = Ok y ->
  dim0 y = dim0 inp.
Proof.
  intros Hmask H. unfold ResidualLayerWrapper_call in H. inv_bind H.
  injection H as <-.
  apply postprocess_steps_dim0; [reflexivity |].
  apply MultiHeadAttn_call_dim0 in Hv. rewrite Hv, preprocess_dim0.
  destruct Hmask as [-> | ->]; [apply bdim_1_r | apply bdim_same].
Qed.

Lemma ffn_layer_dim0 (w : ResidualLayerWrapper FFN) (d : bool)
      (rs : random_source) (inp y : tensor3) :
  ResidualLayerWrapper_call w d rs (fun f x => FFN_call f d rs x) inp = Ok y ->
  dim0 y = dim0 inp.
Proof.
  unfold ResidualLayerWrapper_call, FFN_call. cbn [bind]. intros H.
  injection H as <-.
  apply postprocess_steps_dim0; [reflexivity |].
  destruct d; simpl; apply preprocess_dim0.
Qed.

Lemma normalize_out_if_dim0 (self : Transformer) (norm : option LayerNorm)
      (x y : tensor3) :
  normalize_out_if self norm x = Ok y -> dim0 y = dim0 x.
Proof.
  unfold normalize_out_if. destruct (normalize_out self).
  - destruct norm; intros H; [injection H as <-; reflexivity | discriminate H].
  - intros H. injection H as <-. reflexivity.
Qed.

Lemma bypass_if_no_layers_dim0 (self : Transformer) (enc_out : tensor3)
      (mask : tensor4) (x : tensor3) :
  dim0 (bypass_if_no_layers self enc_out mask x) = dim0 x.
Proof.
  unfold bypass_if_no_layers. destruct (num_layers_dec self =? 0);
    [simpl; apply bdim_1_r | reflexivity].
Qed.

Lemma rescale_if_dim0 (self : Transformer) (x : tensor3) :
  dim0 (rescale_if self x) = dim0 x.
Proof. unfold rescale_if. destruct (rescale_emb self); reflexivity. Qed.

Lemma dropout_if_dim0 (d : bool) (rs : random_source) (site : string)
      (x : tensor3) (p : R) :
  dim0 (dropout_if d rs site x p) = dim0 x.
Proof. unfold dropout_if. destruct d; reflexivity. Qed.

(** The batch axis of the sum [inp + signal]. *)
Lemma add_timing_signal_dim0 (rs : random_source) (inp : tensor3) (mn mx : R)
      (v : offset_value) (rev : option itensor1) (y : tensor3) :
  Transformer_add_timing_signal rs inp mn mx (Offset v) rev = Ok y ->
  match v with
  | OffsetTensor1 t => len1 t = dim0 inp
  | OffsetNumber _ => True
  | _ => False
  end ->
  match rev with
  | Some r => ilen r = dim0 inp
  | None => True
  end ->
  dim0 y = dim0 inp.
Proof.
  unfold Transformer_add_timing_signal. intros H Hv Hrev. inv_bind H.
  injection H as <-.
  destruct v as [x | x | t | t | t]; try contradiction;
    destruct rev as [r |]; open_timing_signal Hv0;
    cbn [tf_add3 bmap3 dim0]; rewrite ?bdim_1_r, ?bdim_1_l;
    try rewrite Hv; try rewrite Hrev; rewrite ?bdim_same, ?bdim_1_r;
    reflexivity.
Qed.

Lemma Transformer_encode_dim0 (self : Transformer) (rs : random_source)
      (inp : itensor2) (inp_len : itensor1) (is_train : bool)
      (enc_out : tensor3) (mask : tensor4) :
  (forall bias, emb_inp_bias self = Some bias -> dim0 bias = 1) ->
  ilen inp_len = irows inp ->
  Transformer_encode self rs inp inp_len is_train = Ok (enc_out, mask) ->
  dim0 enc_out = irows inp /\ e0 mask = irows inp.
Proof.
  intros Hb Hlen H. unfold Transformer_encode in H.
  inv_bind H. inv_bind H. inv_bind H. injection H as <- <-.
  split; [| exact Hlen].
  apply normalize_out_if_dim0 in Hv1. rewrite Hv1.
  apply add_timing_signal_dim0 in Hv; [| exact I | exact I].
  assert (H0 : dim0 v = irows inp).
  { rewrite Hv. destruct (emb_inp_bias self) as [bias |] eqn:Eb.
    - cbn [tf_add3 bmap3 dim0]. rewrite (Hb bias eq_refl), bdim_1_r.
      rewrite rescale_if_dim0. reflexivity.
    - cbn [map3 dim0]. rewrite rescale_if_dim0. reflexivity. }
  revert Hv0.
  apply (foldM_preserves (fun x => dim0 x = irows inp)).
  - intros acc layer acc' Hacc Hstep.
    inv_bind_as Hstep attn Hattn. inv_bind_as Hstep y1 Hy1.
    inv_bind_as Hstep ffn Hffn.
    apply ffn_layer_dim0 in Hstep.
    apply attn_layer_dim0 in Hy1;
      [| right; cbn [Transformer_make_enc_attn_mask expand_dims_1_2
                      tf_sequence_mask e0 rows2]; congruence].
    congruence.
  - rewrite dropout_if_dim0. exact H0.
Qed.

Lemma Model_init_inv (vs : variable_store) (act : R -> R) (name : string)
      (iv ov : Vocab) (hp0 : hparams) (self : Model) :
  Model_init vs act name iv ov hp0 = Ok self ->
  Transformer_init vs name iv ov [] hp0 = Ok (transformer self) /\
  inp_voc self = iv /\ out_voc self = ov /\
  logits self
  = Dense_init vs name "logits" (hid_size (transformer self)) (voc_len ov) act
               (if hp_dwwt hp0
                then Some (tf_transpose2 (mat (emb_out (transformer self))))
                else None)
               None.
Proof.
  unfold Model_init. intros H. inv_bind_as H t Ht. injection H as <-.
  repeat split. exact Ht.
Qed.

Lemma Model_decode_dim0 (self : Model) (rs : random_source)
      (st st' : DecState) (words : option itensor1) (is_train : bool)
      (B : nat) :
  rows2 (st_rdo st) = B ->
  len1 (st_offset st) = B ->
  e0 (st_enc_attn_mask st) = 1 \/ e0 (st_enc_attn_mask st) = B ->
  match words with
  | Some w => ilen w = B
  | None => True
  end ->
  Model_decode self rs st words is_train = Ok st' ->
  rows2 (st_rdo st') = B.
Proof.
  intros Hrdo Hoff Hmask Hwords H. unfold Model_decode in H.
  inv_bind_as H x0 Hx0. inv_bind_as H acc Hloop.
  destruct acc as [[x ls] kvs]. inv_bind_as H y Hy.
  injection H as <-. cbn [st_rdo slice3_last_axis1 rows2].
  apply normalize_out_if_dim0 in Hy. rewrite Hy.
  assert (Hemb : dim0 (Model_decode_embedding (transformer self)
                         (rows2 (st_rdo st)) words) = B).
  { destruct words as [w |]; cbn [Model_decode_embedding].
    - rewrite rescale_if_dim0. exact Hwords.
    - exact Hrdo. }
  apply add_timing_signal_dim0 in Hx0; [| congruence | exact I].
  change x with (fst (fst (x, ls, kvs))).
  revert Hloop.
  apply (foldM_preserves (fun acc => dim0 (fst (fst acc)) = B)).
  - intros [[x1 ls1] kvs1] layer [[x2 ls2] kvs2] Hacc Hstep.
    cbn [fst] in Hacc |- *.
    unfold Model_decode_layer in Hstep.
    inv_bind_as Hstep attn Hattn. inv_bind_as Hstep old Hold.
    inv_bind_as Hstep kv Hkv. inv_bind_as Hstep y1 Hy1.
    inv_bind_as Hstep eattn Heattn. inv_bind_as Hstep ekv Hekv.
    inv_bind_as Hstep y2 Hy2. inv_bind_as Hstep ffn Hffn.
    inv_bind_as Hstep y3 Hy3. inv_bind_as Hstep prev Hprev.
    injection Hstep as <- _ _.
    apply attn_layer_dim0 in Hy1; [| left; reflexivity].
    apply attn_layer_dim0 in Hy2; [| rewrite Hy1, Hacc; exact Hmask].
    apply ffn_layer_dim0 in Hy3. congruence.
  - cbn [fst]. rewrite bypass_if_no_layers_dim0, dropout_if_dim0. congruence.
Qed.


Lemma Model_encode_offset_len (self : Model) (rs : random_source) (n : nat) :
  len1 (Model_encode_offset self rs n) = n.
Proof.
  unfold Model_encode_offset.
  destruct (dst_rand_offset (transformer self)); [| reflexivity].
  cbn [len1 tf_zeros1 tf_random_uniform_i1]. apply bdim_same.
Qed.

Lemma add_timing_signal_number_ok (rs : random_source) (inp : tensor3)
      (mn mx x : R) (rev : option itensor1) :
  exists y,
    Transformer_add_timing_signal rs inp mn mx (Offset (OffsetNumber x)) rev
    = Ok y /\ dim1 y = dim1 inp.
Proof.
  unfold Transformer_add_timing_signal, timing_signal.
  destruct rev as [r |]; cbn [bind]; (eexists; split; [reflexivity |]);
    cbn [tf_add3 bmap3 dim1 tf_pad3_axis2_after tf_concat3_axis2 map3 tf_mul3];
    rewrite !bdim_1_r; apply bdim_same.
Qed.

Lemma Transformer_decode_ok (self : Transformer) (rs : random_source)
      (out : itensor2) (out_len : itensor1) (out_reverse : option itensor1)
      (enc_out : tensor3) (enc_attn_mask : tensor4) (is_train : bool) :
  wf_transformer self = true ->
  dst_rand_offset self = false ->
  e2 enc_attn_mask = 1 ->
  exists y,
    Transformer_decode self rs out out_len out_reverse enc_out enc_attn_mask
                       is_train = Ok y /\
    dim1 y = icols out.
Proof.
  intros Hwf Hrand Hmask.
  destruct (wf_transformer_spec self Hwf)
    as (_ & _ & La & Lea & Lf & _ & Ha & Hea & _ & _ & Hn).
  unfold Transformer_decode, Transformer_decode_input. rewrite Hrand.
  destruct (add_timing_signal_number_ok rs
              (shift_right (rescale_if self (Embedding_call (emb_out self) out)))
              1.0 1.0e4 0 out_reverse) as [x0 [-> D0]].
  cbn [bind].
  assert (Hx0 : dim1 x0 = icols out).
  { rewrite D0. destruct (shift_right_dims
                            (rescale_if self (Embedding_call (emb_out self) out)))
      as (_ & -> & _).
    rewrite rescale_if_dim1. reflexivity. }
  match goal with
  | |- context [foldM ?f ?a ?xs] =>
      assert (HF : exists acc', foldM f a xs = Ok acc' /\ dim1 acc' = icols out)
  end.
  { apply (foldM_invariant (fun x => dim1 x = icols out)).
    - intros acc layer Hacc Hin. apply in_seq in Hin.
      destruct (py_index_ok (dec_attn self) layer) as [attn [-> Hattn]]; [lia |].
      cbn [bind].
      destruct (attn_layer_ok attn is_train rs (Transformer_make_dec_attn_mask out)
                  None None acc (Ha attn Hattn) (or_introl eq_refl))
        as [y1 [-> D1]]; [right; rewrite Hacc; reflexivity |].
      cbn [bind].
      destruct (py_index_ok (dec_enc_attn self) layer) as [eattn [-> Heattn]];
        [lia |].
      cbn [bind].
      destruct (attn_layer_ok eattn is_train rs enc_attn_mask (Some enc_out) None
                  y1 (Hea eattn Heattn) (or_intror eq_refl) (or_introl Hmask))
        as [y2 [-> D2]].
      cbn [bind].
      destruct (py_index_ok (dec_ffn self) layer) as [ffn [-> _]]; [lia |].
      cbn [bind].
      destruct (ffn_layer_ok ffn is_train rs y2) as [y3 [-> D3]].
      exists y3. split; [reflexivity | congruence].
    - rewrite bypass_if_no_layers_dim1, dropout_if_dim1. exact Hx0. }
  destruct HF as [x1 [-> D1]]. cbn [bind].
  destruct (normalize_out_if_ok self (dec_out_norm self) x1 Hn) as [y [-> Dy]].
  cbn [bind]. exists y. split; [reflexivity | congruence].
Qed.


Lemma Model_encode_state_dim0 (self : Model) (rs : random_source)
      (batch : Batch) (st0 : DecState) :
  (forall bias, emb_inp_bias (transformer self) = Some bias -> dim0 bias = 1) ->
  ilen (match b_inp_len batch with
        | Some l => l
        | None => infer_length (b_inp batch) (eos (inp_voc self))
        end) = irows (b_inp batch) ->
  Model_encode_state self rs batch = Ok st0 ->
  dim0 (st_enc_out st0) = irows (b_inp batch) /\
  e0 (st_enc_attn_mask st0) = irows (b_inp batch) /\
  rows2 (st_rdo st0) = irows (b_inp batch) /\
  len1 (st_offset st0) = irows (b_inp batch).
Proof.
  intros Hb Hlen H. unfold Model_encode_state in H.
  inv_bind_as H enc Henc. destruct enc as [enc_out mask].
  inv_bind_as H kvs Hkvs. injection H as <-.
  destruct (Transformer_encode_dim0 _ _ _ _ _ _ _ Hb Hlen Henc) as [H0 H1].
  cbn [st_enc_out st_enc_attn_mask st_rdo st_offset tf_zeros2 rows2].
  repeat split; try assumption. apply Model_encode_offset_len.
Qed.




(** ** The command line of [run.py] *)

Lemma find_key_absent (config : list (string * arg_value)) (key : string)
      (p : string * arg_value -> bool) :
  ~ In key (map fst config) ->
  find (fun entry => String.eqb (fst entry) key) (filter p config) = None.
Proof.
  induction config as [| [k v] rest IH]; intros Hnot; [reflexivity |].
  cbn [filter]. cbn [map fst In] in Hnot.
  destruct (p (k, v)).
  - cbn [find fst]. destruct (String.eqb_spec k key) as [-> | _].
    + exfalso. apply Hnot. left. reflexivity.
    + apply IH. intros Hin. apply Hnot. right. exact Hin.
  - apply IH. intros Hin. apply Hnot. right. exact Hin.
Qed.

Lemma dict_get_filter (config : list (string * arg_value)) (key : string)
      (d : arg_value) :
  NoDup (map fst config) ->
  dict_get (filter (fun x => truthy (snd x)) config) key d
  = match find (fun entry => String.eqb (fst entry) key) config with
    | Some entry => if truthy (snd entry) then snd entry else d
    | None => d
    end.
Proof.
  unfold dict_get.
  induction config as [| [k v] rest IH]; intros Hnd; [reflexivity |].
  cbn [map fst] in Hnd. apply NoDup_cons_iff in Hnd. destruct Hnd as [Hk Hnd].
  cbn [filter find fst snd].
  destruct (truthy v) eqn:Ev.
  - cbn [find fst snd]. destruct (String.eqb_spec k key) as [-> | _].
    + cbn [snd]. rewrite Ev. reflexivity.
    + apply IH. exact Hnd.
  - destruct (String.eqb_spec k key) as [-> | _].
    + cbn [snd]. rewrite Ev. rewrite find_key_absent by exact Hk. reflexivity.
    + apply IH. exact Hnd.
Qed.

Lemma vars_keys_NoDup (args : cli_args) : NoDup (map fst (vars args)).
Proof.
  cbn [vars map fst].
  repeat (apply NoDup_cons; [cbn [In]; intuition discriminate |]).
  apply NoDup_nil.
Qed.

(** X18.  The filter of [main] drops more than the options that were not
    given.  The config handed to [run_model] holds exactly the arguments
    whose value is true for Python: an option given as [0], [0.0] or the
    empty string is dropped like an option that was not given, and
    [config.get] returns [None] for it. *)
Theorem main_config_keeps_truthy_arguments (args : cli_args) :
  (forall key v,
      In (key, v) (main_config args)
      <-> In (key, v) (vars args) /\ truthy v = true) /\
  (forall key,
      dict_get (main_config args) key ArgNone
      = if truthy (dict_get (vars args) key ArgNone)
        then dict_get (vars args) key ArgNone
        else ArgNone) /\
  (forall key v, In (key, v) (main_config args) ->
                 v <> ArgNone /\ v <> ArgInt 0 /\ v <> ArgStr "" /\
                 v <> ArgFloat PrimFloat.zero /\
                 v <> ArgFloat PrimFloat.neg_zero) /\
  (dict_get (main_config args) "batch_size_for_inference" ArgNone
   = match a_batch_size_for_inference args with
     | Some n => if (n =? 0)%Z then ArgNone else ArgInt n
     | None => ArgNone
     end).
Proof.
  split; [| split; [| split]].
  - intros key v. unfold main_config. rewrite filter_In. reflexivity.
  - intros key. unfold main_config.
    rewrite dict_get_filter by apply vars_keys_NoDup.
    unfold dict_get.
    destruct (find (fun entry => String.eqb (fst entry) key) (vars args));
      reflexivity.
  - intros key v Hin. unfold main_config in Hin. apply filter_In in Hin.
    destruct Hin as [_ Ht]. cbn [snd] in Ht.
    repeat split; intros ->; vm_compute in Ht; discriminate Ht.
  - unfold main_config.
    rewrite dict_get_filter by apply vars_keys_NoDup.
    cbn [vars find fst snd String.eqb Ascii.eqb Bool.eqb].
    destruct (a_batch_size_for_inference args) as [n |]; cbn [opt_arg truthy];
      [destruct (n =? 0)%Z |]; reflexivity.
Qed.

(** X19.  The input length limit of [run_model].  [main] drops
    [--max_input_len 0] from the config, so [run_model] falls back to its
    default of 200 instead of cutting the input to nothing; any other
    value is used as given.  The limit is the stop of a slice, so a
    positive limit keeps at most that many token columns and a negative
    one drops that many columns from the end. *)
Theorem max_input_len_zero_means_default (args : cli_args) (tokens : itensor2) :
  run_model_max_len (main_config args)
  = match a_max_input_len args with
    | Some n => if (n =? 0)%Z then ArgInt 200 else ArgInt n
    | None => ArgInt 200
    end /\
  (forall n, (0 < n)%Z ->
             icols (slice_cols_to tokens n) = Nat.min (Z.to_nat n) (icols tokens)) /\
  (forall n, (n < 0)%Z ->
             icols (slice_cols_to tokens n) = icols tokens - Z.to_nat (- n)) /\
  (forall n i j, iat2 (slice_cols_to tokens n) i j = iat2 tokens i j) /\
  (forall n, irows (slice_cols_to tokens n) = irows tokens).
Proof.
  split; [| repeat split].
  - unfold run_model_max_len, main_config.
    rewrite dict_get_filter by apply vars_keys_NoDup.
    cbn [vars find fst snd String.eqb Ascii.eqb Bool.eqb].
    destruct (a_max_input_len args) as [n |]; cbn [opt_arg truthy];
      [destruct (n =? 0)%Z |]; reflexivity.
  - intros n Hn. cbn [slice_cols_to icols].
    destruct (Z.ltb_spec n 0); [lia | reflexivity].
  - intros n Hn. cbn [slice_cols_to icols].
    destruct (Z.ltb_spec n 0); lia.
Qed.

(** ** Incremental and batch self-attention *)

Lemma MultiHeadAttn_split_heads_entry (self : MultiHeadAttn) (x : tensor3)
      (y : tensor4) (n heads : nat) :
  MultiHeadAttn_split_heads self x = Ok y ->
  dim2 x = n -> num_heads self = heads ->
  e0 y = dim0 x /\ e1 y = heads /\ e2 y = dim1 x /\
  e3 y = n / heads /\
  forall b h t c, at4 y b h t c = at3 x b t (h * (n / heads) + c).
Proof.
  intros H <- <-. apply MultiHeadAttn_split_heads_inv in H.
  destruct H as [_ ->]. repeat split.
Qed.

Lemma MultiHeadAttn_call_inv (self : MultiHeadAttn) (rs : random_source)
      (x : tensor3) (mask : tensor4) (kv_inp kv : option tensor3) (y : tensor3) :
  MultiHeadAttn_call self false rs x mask kv_inp kv = Ok y ->
  exists q3 k3 v3 q k v,
    MultiHeadAttn_qkv self x kv_inp kv = Ok (q3, k3, v3) /\
    MultiHeadAttn_split_heads self q3 = Ok q /\
    MultiHeadAttn_split_heads self k3 = Ok k /\
    MultiHeadAttn_split_heads self v3 = Ok v /\
    y = Dense_call (out_conv self)
          (MultiHeadAttn_combine_heads self
             (tf_matmul4 (tf_softmax4 (MultiHeadAttn_logits self q k mask))
                         (tf_transpose4 v 0 1 2 3))).
Proof.
  unfold MultiHeadAttn_call, MultiHeadAttn_attention. intros H.
  inv_bind_as H wv Hwv. destruct wv as [weights v]. injection H as <-.
  inv_bind_as Hwv qkv Hqkv. destruct qkv as [[q3 k3] v3].
  inv_bind_as Hwv q Hq. inv_bind_as Hwv k Hk. inv_bind_as Hwv v' Hv.
  injection Hwv as <- <-.
  exists q3, k3, v3, q, k, v'. repeat split; assumption.
Qed.

(** The projections of a unit built by [MultiHeadAttn.__init__], in either
    format: the query and the key/value projections are the leading
    [key_depth] and the remaining channels of the combined projection. *)
Lemma MultiHeadAttn_init_projections (vs : variable_store) (scope name : string)
      (inp_size kd vd od heads : nat) (ad avd : R) (dbg : bool)
      (_format : string) (a : MultiHeadAttn) :
  MultiHeadAttn_init vs scope name inp_size kd vd od heads ad avd dbg _format
  = Ok a ->
  num_heads a = heads /\ key_depth a = kd /\ value_depth a = vd /\
  cols2 (dense_W (query_conv a)) = kd /\
  cols2 (dense_W (kv_conv a)) = kd + vd /\
  rows2 (dense_W (out_conv a)) = vd /\
  rows2 (dense_W (query_conv a)) = rows2 (dense_W (combined_conv a)) /\
  (forall x b t i,
      i < kd ->
      at3 (Dense_call (combined_conv a) x) b t i
      = at3 (Dense_call (query_conv a) x) b t i) /\
  (forall x b t i,
      at3 (Dense_call (combined_conv a) x) b t (kd + i)
      = at3 (Dense_call (kv_conv a) x) b t i).
Proof.
  unfold MultiHeadAttn_init. intros H.
  inv_bind_as H convs Hconvs. destruct convs as [[qc kc] cc].
  injection H as <-.
  cbn [num_heads key_depth value_depth query_conv kv_conv combined_conv out_conv].
  destruct (String.eqb _format "use_kv").
  - injection Hconvs as <- <- <-.
    cbn [Dense_init dense_W dense_b dense_activation get_variable2 get_variable1
         tf_concat2_axis1 tf_concat1 rows2 cols2 len1 at2 at1 Dense_call at3].
    repeat split.
    + intros x b t i Hi.
      destruct (Nat.ltb_spec i kd); [reflexivity | lia].
    + intros x b t i.
      destruct (Nat.ltb_spec (kd + i) kd); [lia |].
      replace (kd + i - kd) with i by lia. reflexivity.
  - destruct (String.eqb _format "combined"); [| discriminate Hconvs].
    injection Hconvs as <- <- <-.
    cbn [Dense_init dense_W dense_b dense_activation get_variable2 get_variable1
         slice2_cols_to slice2_cols_from slice1_to slice1_from
         rows2 cols2 len1 at2 at1 Dense_call at3].
    repeat split; lia.
Qed.

Lemma Dense_call_row (d : Dense) (x x' : tensor3) (b t b' t' : nat) :
  (forall l, l < rows2 (dense_W d) -> at3 x b t l = at3 x' b' t' l) ->
  forall c, at3 (Dense_call d x) b t c = at3 (Dense_call d x') b' t' c.
Proof.
  intros H c. cbn [Dense_call at3]. f_equal. f_equal.
  apply sum_n_ext. intros l Hl. rewrite (H l Hl). reflexivity.
Qed.

Lemma head_index_bound (n heads l : nat) :
  heads <> 0 -> n mod heads = 0 -> l < n ->
  l / (n / heads) < heads /\ l mod (n / heads) < n / heads /\
  l / (n / heads) * (n / heads) + l mod (n / heads) = l.
Proof.
  intros Hh Hdiv Hl.
  assert (Hn : n = heads * (n / heads)).
  { pose proof (Nat.div_mod_eq n heads). lia. }
  assert (Hc : n / heads <> 0) by (intros E; rewrite E in Hn; lia).
  split; [| split].
  - apply Nat.Div0.div_lt_upper_bound. rewrite Nat.mul_comm. lia.
  - apply Nat.mod_upper_bound. exact Hc.
  - pose proof (Nat.div_mod_eq l (n / heads)). lia.
Qed.

Lemma head_channel_bound (n heads h c : nat) :
  n mod heads = 0 -> heads <> 0 -> h < heads -> c < n / heads ->
  h * (n / heads) + c < n.
Proof.
  intros Hdiv Hh Hlt Hc.
  assert (Hn : n = heads * (n / heads)).
  { pose proof (Nat.div_mod_eq n heads). lia. }
  nia.
Qed.

Lemma causal_mask_last_row (out : itensor2) (k : nat) (b h j : nat) :
  icols out = k + 1 -> j < k + 1 ->
  mask_entry (Transformer_make_dec_attn_mask out) b h k j = 1%R.
Proof.
  intros Hout Hj. unfold mask_entry.
  cbn [Transformer_make_dec_attn_mask tf_lower_triangle e0 e1 e2 e3 at4 at2].
  rewrite Hout. unfold bidx.
  destruct (k + 1 =? 1) eqn:E.
  - reflexivity.
  - destruct (Nat.leb_spec j k); [reflexivity | lia].
Qed.

Lemma step_mask_row (out_seq : itensor2) (k : nat) (b h j : nat) :
  icols out_seq = k -> j < k + 1 ->
  mask_entry (slice4_last_axis2
                (Transformer_make_dec_attn_mask (pad_out_seq out_seq)))
             b h 0 j = 1%R.
Proof.
  intros Hout Hj. unfold mask_entry.
  cbn [slice4_last_axis2 Transformer_make_dec_attn_mask pad_out_seq
       tf_lower_triangle e0 e1 e2 e3 at4 at2 icols].
  rewrite Hout. unfold bidx.
  destruct (Nat.min 1 (k + 1) =? 1); destruct (k + 1 =? 1) eqn:E;
    cbn [Nat.eqb];
    match goal with
    | |- (if ?j' <=? ?i' then _ else _) = _ =>
        destruct (Nat.leb_spec j' i'); [reflexivity | ]
    end;
    try apply Nat.eqb_eq in E; try apply Nat.eqb_neq in E; lia.
Qed.

(** The incremental call against the batch call of one attention unit. *)
Lemma self_attention_step_is_last_row
        (vs : variable_store) (scope name : string)
        (inp_size kd vd od heads : nat) (ad avd : R) (dbg : bool)
        (_format : string) (a : MultiHeadAttn) (rs rs' : random_source)
        (P p kv : tensor3) (k : nat) (out_seq out : itensor2) :
  MultiHeadAttn_init vs scope name inp_size kd vd od heads ad avd dbg _format
  = Ok a ->
  heads <> 0 -> kd mod heads = 0 -> vd mod heads = 0 ->
  dim1 P = k + 1 -> dim1 p = 1 -> dim0 p = dim0 P ->
  (forall b c, b < dim0 P -> at3 p b 0 c = at3 P b k c) ->
  teq3 kv (Dense_call (kv_conv a) P) ->
  icols out_seq = k -> icols out = k + 1 ->
  exists y_step y_batch,
    MultiHeadAttn_call a false rs p
      (slice4_last_axis2 (Transformer_make_dec_attn_mask (pad_out_seq out_seq)))
      None (Some kv) = Ok y_step /\
    MultiHeadAttn_call a false rs' P (Transformer_make_dec_attn_mask out)
                       None None = Ok y_batch /\
    dim1 y_step = 1 /\ dim1 y_batch = k + 1 /\
    dim2 y_step = dim2 y_batch /\
    forall b c, b < dim0 P -> at3 y_step b 0 c = at3 y_batch b k c.
Proof.
  intros Hinit Hh Hkd Hvd HP Hp Hp0 Hrow Hkv Hseq Hout.
  destruct (MultiHeadAttn_init_projections _ _ _ _ _ _ _ _ _ _ _ _ _ Hinit)
    as (Eh & Ekd & Evd & Cq & Ckv & Ro & Rq & Hq_slice & Hkv_slice).
  destruct Hkv as (K0 & K1 & K2 & Hkv).
  cbn [Dense_call dim0 dim1 dim2] in K0, K1, K2. rewrite Ckv in K2.
  assert (Hne : num_heads a <> 0) by (rewrite Eh; exact Hh).
  set (mask1 := slice4_last_axis2
                  (Transformer_make_dec_attn_mask (pad_out_seq out_seq))).
  set (maskN := Transformer_make_dec_attn_mask out).
  destruct (MultiHeadAttn_call_ok a false rs p mask1 None (Some kv) Hne
              (or_introl eq_refl)) as [y1 Hy1].
  destruct (MultiHeadAttn_call_ok a false rs' P maskN None None Hne
              (or_introl eq_refl)) as [yN HyN].
  exists y1, yN. split; [exact Hy1 |]. split; [exact HyN |].
  assert (D1 : dim1 y1 = 1).
  { rewrite (MultiHeadAttn_call_dim1 _ _ _ _ _ _ _ _ Hy1), Hp, bdim_1_l.
    unfold mask1.
    cbn [slice4_last_axis2 Transformer_make_dec_attn_mask pad_out_seq e2 icols].
    lia. }
  assert (DN : dim1 yN = k + 1).
  { rewrite (MultiHeadAttn_call_dim1 _ _ _ _ _ _ _ _ HyN), HP.
    unfold maskN. cbn [Transformer_make_dec_attn_mask e2]. rewrite Hout.
    apply bdim_same. }
  split; [exact D1 |]. split; [exact DN |].
  destruct (MultiHeadAttn_call_inv _ _ _ _ _ _ _ Hy1)
    as (q3 & k3 & v3 & q & kh & v & Hqkv & Hq & Hk & Hv & ->).
  destruct (MultiHeadAttn_call_inv _ _ _ _ _ _ _ HyN)
    as (q3' & k3' & v3' & q' & kh' & v' & Hqkv' & Hq' & Hk' & Hv' & ->).
  cbn [MultiHeadAttn_qkv fst snd] in Hqkv, Hqkv'.
  injection Hqkv as <- <- <-. injection Hqkv' as <- <- <-.
  destruct (MultiHeadAttn_split_heads_entry _ _ _ kd heads Hq Cq Eh)
    as (Q0 & Q1 & Q2 & Q3 & Qe).
  destruct (MultiHeadAttn_split_heads_entry _ _ _ kd heads Hk Ekd Eh)
    as (_ & _ & KH2 & _ & Ke).
  destruct (MultiHeadAttn_split_heads_entry _ _ _ vd heads Hv Evd Eh)
    as (_ & _ & _ & V3 & Ve).
  destruct (MultiHeadAttn_split_heads_entry _ _ _ kd heads Hq' Ekd Eh)
    as (Q0' & Q1' & Q2' & Q3' & Qe').
  destruct (MultiHeadAttn_split_heads_entry _ _ _ kd heads Hk' Ekd Eh)
    as (_ & _ & KH2' & _ & Ke').
  destruct (MultiHeadAttn_split_heads_entry _ _ _ vd heads Hv' Evd Eh)
    as (_ & _ & _ & V3' & Ve').
  cbn [Dense_call split3_piece dim0 dim1] in Q0, Q2, KH2, Q0', Q2', KH2'.
  rewrite K1, HP in KH2. rewrite HP in KH2', Q2'. rewrite Hp in Q2.
  split; [reflexivity |].
  intros b c Hb.
  (* the logits of the newest query *)
  assert (HL : forall h j,
             h < heads -> j < k + 1 ->
             at4 (MultiHeadAttn_logits a q kh mask1) b h 0 j
             = at4 (MultiHeadAttn_logits a q' kh' maskN) b h k j).
  { intros h j Hhd Hj.
    rewrite !MultiHeadAttn_logits_entry by lia.
    unfold mask1, maskN.
    rewrite (step_mask_row out_seq k b h j Hseq Hj).
    rewrite (causal_mask_last_row out k b h j Hout Hj).
    f_equal. unfold scaled_score. f_equal.
    rewrite Q3, Q3'. apply sum_n_ext. intros c' Hc'.
    pose proof (head_channel_bound kd heads h c' Hkd Hh Hhd Hc') as Hidx.
    rewrite Qe, Ke, Qe', Ke'. cbn [at3 split3_piece].
    rewrite !Nat.add_0_l.
    rewrite (Hq_slice P b k _ Hidx).
    rewrite ?Ekd. rewrite Hkv_slice.
    rewrite (Hkv b j (h * (kd / heads) + c')) by lia.
    rewrite (Dense_call_row (query_conv a) p P b 0 b k
               (fun l _ => Hrow b l Hb)).
    reflexivity. }
  assert (E3 : e3 (MultiHeadAttn_logits a q kh mask1) = k + 1).
  { unfold MultiHeadAttn_logits, mask1.
    cbn [tf_add4 bmap4 tf_matmul4 tf_transpose4 map4 e3 sel4
         slice4_last_axis2 Transformer_make_dec_attn_mask pad_out_seq icols].
    rewrite KH2, Hseq. apply bdim_same. }
  assert (E3' : e3 (MultiHeadAttn_logits a q' kh' maskN) = k + 1).
  { unfold MultiHeadAttn_logits, maskN.
    cbn [tf_add4 bmap4 tf_matmul4 tf_transpose4 map4 e3 sel4
         Transformer_make_dec_attn_mask].
    rewrite KH2', Hout. apply bdim_same. }
  apply Dense_call_row. rewrite Ro. intros l Hl.
  destruct (head_index_bound vd heads l Hh Hvd Hl) as (Hhd & Hc & Hidx).
  unfold MultiHeadAttn_combine_heads.
  cbn [tf_reshape_merge_last tf_transpose4 tf_matmul4 tf_softmax4
       at3 at4 e0 e1 e2 e3 sel4 unperm4 Nat.eqb].
  rewrite E3, E3', V3, V3'.
  apply sum_n_ext. intros j Hj.
  rewrite !HL by assumption.
  f_equal.
  - f_equal. apply sum_n_ext. intros j' Hj'. rewrite HL by assumption.
    reflexivity.
  - rewrite Ve, Ve'. cbn [at3 split3_piece].
    rewrite Hidx, ?Ekd.
    rewrite (Hkv b j (kd + l)) by lia.
    rewrite <- Nat.add_assoc. rewrite Hkv_slice. reflexivity.
Qed.

(** X20.  Using only the newest time-step as query gives the newest row.
    For an attention unit built by [MultiHeadAttn.__init__] whose depths
    its heads divide, let [P] be the inputs of [k + 1] positions, [p] its
    last position and [kv] a cache that equals the key/value projection of
    [P].  The incremental call -- query [p], cached [kv], the mask row of
    [Model.decode] -- returns at its single position what the batch call
    over [P] with the causal mask of [_make_dec_attn_mask] returns at the
    last position: no key is masked for the last query, and queries are
    treated independently. *)
Theorem incremental_self_attention_is_last_row
        (vs : variable_store) (scope name : string)
        (inp_size kd vd od heads : nat) (ad avd : R) (dbg : bool)
        (_format : string) (a : MultiHeadAttn) (rs rs' : random_source)
        (P p kv : tensor3) (k : nat) (out_seq out : itensor2) :
  MultiHeadAttn_init vs scope name inp_size kd vd od heads ad avd dbg _format
  = Ok a ->
  heads <> 0 -> kd mod heads = 0 -> vd mod heads = 0 ->
  dim1 P = k + 1 -> dim1 p = 1 -> dim0 p = dim0 P ->
  (forall b c, b < dim0 P -> at3 p b 0 c = at3 P b k c) ->
  teq3 kv (Dense_call (kv_conv a) P) ->
  icols out_seq = k -> icols out = k + 1 ->
  exists y_step y_batch,
    MultiHeadAttn_call a false rs p
      (slice4_last_axis2 (Transformer_make_dec_attn_mask (pad_out_seq out_seq)))
      None (Some kv) = Ok y_step /\
    MultiHeadAttn_call a false rs' P (Transformer_make_dec_attn_mask out)
                       None None = Ok y_batch /\
    dim1 y_step = 1 /\ dim1 y_batch = k + 1 /\
    dim2 y_step = dim2 y_batch /\
    forall b c, b < dim0 P -> at3 y_step b 0 c = at3 y_batch b k c.
Proof.
  intros Hinit Hh Hkd Hvd HP Hp Hp0 Hrow Hkv Hseq Hout.
  exact (self_attention_step_is_last_row vs scope name inp_size kd vd od heads
           ad avd dbg _format a rs rs' P p kv k out_seq out Hinit Hh Hkd Hvd
           HP Hp Hp0 Hrow Hkv Hseq Hout).
Qed.

(** ** One decoder layer: the newest position against the whole prefix *)

Lemma bidx_last (k : nat) : bidx (k + 1) k = k.
Proof.
  unfold bidx. destruct (Nat.eqb_spec (k + 1) 1); [lia | reflexivity].
Qed.

Lemma bidx_bound (n b : nat) : b < n -> bidx n b < n.
Proof. intros H. unfold bidx. destruct (n =? 1); lia. Qed.

Lemma LayerNorm_call_row (ln : LayerNorm) (x y : tensor3) (b j b' j' : nat) :
  (forall c, at3 x b j c = at3 y b' j' c) ->
  forall c, at3 (LayerNorm_call ln x) b j c = at3 (LayerNorm_call ln y) b' j' c.
Proof.
  intros H c. cbn [LayerNorm_call at3].
  replace (fun k' => at3 x b j k') with (fun k' => at3 y b' j' k');
    [reflexivity |].
  apply functional_extensionality. intros k'. symmetry. apply H.
Qed.

Lemma preprocess_row {L : Type} (w : ResidualLayerWrapper L) (x y : tensor3)
      (b j b' j' : nat) :
  (forall c, at3 x b j c = at3 y b' j' c) ->
  forall c, at3 (preprocess w x) b j c = at3 (preprocess w y) b' j' c.
Proof.
  intros H. unfold preprocess. destruct (has_step _ _); [| exact H].
  apply LayerNorm_call_row. exact H.
Qed.

Lemma preprocess_dim2 {L : Type} (w : ResidualLayerWrapper L) (x : tensor3) :
  dim2 (preprocess w x) = dim2 x.
Proof. unfold preprocess. destruct (has_step _ _); reflexivity. Qed.

Lemma preprocess_last_row {L : Type} (w : ResidualLayerWrapper L)
      (n k : nat) (x y : tensor3) :
  last_row_eq n k x y -> last_row_eq n k (preprocess w x) (preprocess w y).
Proof.
  intros (H0 & H0' & H1 & H1' & H2 & H).
  unfold last_row_eq.
  rewrite !preprocess_dim0, !preprocess_dim1, !preprocess_dim2.
  repeat (split; [assumption |]).
  intros b c Hb. apply preprocess_row. intros c'. apply H. exact Hb.
Qed.

Lemma tf_add3_last_row (n k : nat) (x y x' y' : tensor3) :
  last_row_eq n k x y -> last_row_eq n k x' y' ->
  last_row_eq n k (tf_add3 x x') (tf_add3 y y').
Proof.
  intros (H0 & H0' & H1 & H1' & H2 & H) (G0 & G0' & G1 & G1' & G2 & G).
  unfold last_row_eq. cbn [tf_add3 bmap3 dim0 dim1 dim2 at3].
  rewrite H0, H0', H1, H1', G0, G0', G1, G1', H2, G2.
  rewrite !bdim_same.
  repeat (split; [reflexivity |]).
  intros b c Hb. rewrite bidx_last. cbn [bidx Nat.eqb].
  rewrite H, G by (apply bidx_bound; exact Hb). reflexivity.
Qed.

Lemma LayerNorm_call_last_row (ln : LayerNorm) (n k : nat) (x y : tensor3) :
  last_row_eq n k x y ->
  last_row_eq n k (LayerNorm_call ln x) (LayerNorm_call ln y).
Proof.
  intros (H0 & H0' & H1 & H1' & H2 & H).
  unfold last_row_eq. cbn [LayerNorm_call dim0 dim1 dim2].
  repeat (split; [assumption |]).
  intros b c Hb. apply LayerNorm_call_row. intros c'. apply H. exact Hb.
Qed.

Lemma postprocess_steps_last_row {L : Type} (w : ResidualLayerWrapper L)
      (rs rs' : random_source) (n k : nat) (steps : string)
      (inp inp' : tensor3) :
  last_row_eq n k inp inp' ->
  forall out out',
    last_row_eq n k out out' ->
    last_row_eq n k (postprocess_steps w false rs steps out inp)
                    (postprocess_steps w false rs' steps out' inp').
Proof.
  intros Hinp. induction steps as [| c rest IH]; intros out out' Hout;
    cbn [postprocess_steps]; [exact Hout |].
  apply IH.
  destruct (Ascii.eqb c "d"); [exact Hout |].
  destruct (Ascii.eqb c "a"); [apply tf_add3_last_row; assumption |].
  destruct (Ascii.eqb c "n"); [apply LayerNorm_call_last_row |]; exact Hout.
Qed.

Lemma normalize_out_if_last_row (self : Transformer) (norm : option LayerNorm)
      (n k : nat) (x y x' y' : tensor3) :
  last_row_eq n k x y ->
  normalize_out_if self norm x = Ok x' ->
  normalize_out_if self norm y = Ok y' ->
  last_row_eq n k x' y'.
Proof.
  unfold normalize_out_if. intros H Hx Hy.
  destruct (normalize_out self).
  - destruct norm as [ln |]; [| discriminate Hx].
    apply Ok_inj in Hx. apply Ok_inj in Hy. subst.
    apply LayerNorm_call_last_row. exact H.
  - apply Ok_inj in Hx. apply Ok_inj in Hy. subst. exact H.
Qed.

Lemma Dense_call_last_row (d : Dense) (n k : nat) (x y : tensor3) :
  last_row_eq n k x y -> last_row_eq n k (Dense_call d x) (Dense_call d y).
Proof.
  intros (H0 & H0' & H1 & H1' & H2 & H).
  unfold last_row_eq. cbn [Dense_call dim0 dim1 dim2].
  repeat (split; [first [assumption | reflexivity] |]).
  intros b c Hb. apply Dense_call_row. intros l _. apply H. exact Hb.
Qed.

Lemma ffn_layer_last_row (w : ResidualLayerWrapper FFN) (rs rs' : random_source)
      (n k : nat) (x y x' y' : tensor3) :
  last_row_eq n k x y ->
  ResidualLayerWrapper_call w false rs (fun f z => FFN_call f false rs z) x
  = Ok x' ->
  ResidualLayerWrapper_call w false rs' (fun f z => FFN_call f false rs' z) y
  = Ok y' ->
  last_row_eq n k x' y'.
Proof.
  unfold ResidualLayerWrapper_call, FFN_call. cbn [bind]. intros H Hx Hy.
  apply Ok_inj in Hx. apply Ok_inj in Hy. subst.
  apply postprocess_steps_last_row; [exact H |].
  apply Dense_call_last_row. apply Dense_call_last_row.
  apply preprocess_last_row. exact H.
Qed.

Lemma MultiHeadAttn_call_kv_inp (a : MultiHeadAttn) (d : bool)
      (rs : random_source) (x : tensor3) (mask : tensor4) (e : tensor3) :
  MultiHeadAttn_call a d rs x mask (Some e) None
  = MultiHeadAttn_call a d rs x mask None (Some (Dense_call (kv_conv a) e)).
Proof. reflexivity. Qed.

Lemma self_attention_last_row (a : MultiHeadAttn) (kd vd heads : nat)
      (rs rs' : random_source) (n k : nat) (p P kv : tensor3)
      (out_seq out : itensor2) (y y' : tensor3) :
  built_unit a kd vd heads ->
  heads <> 0 -> kd mod heads = 0 -> vd mod heads = 0 ->
  last_row_eq n k p P ->
  teq3 kv (Dense_call (kv_conv a) P) ->
  icols out_seq = k -> icols out = k + 1 ->
  MultiHeadAttn_call a false rs p
    (slice4_last_axis2 (Transformer_make_dec_attn_mask (pad_out_seq out_seq)))
    None (Some kv) = Ok y ->
  MultiHeadAttn_call a false rs' P (Transformer_make_dec_attn_mask out)
                     None None = Ok y' ->
  last_row_eq n k y y'.
Proof.
  intros (vs & scope & name & inp_size & od & ad & avd & dbg & fmt & Hinit)
         Hh Hkd Hvd (H0 & H0' & H1 & H1' & H2 & H) Hkv Hseq Hout Hy Hy'.
  destruct (self_attention_step_is_last_row vs scope name inp_size kd vd od
              heads ad avd dbg fmt a rs rs' P p kv k out_seq out Hinit Hh Hkd
              Hvd H1' H1 (eq_trans H0 (eq_sym H0'))
              (fun b c Hb => H b c (eq_ind _ (fun m => b < m) Hb _ H0'))
              Hkv Hseq Hout)
    as (z & z' & Ez & Ez' & D1 & D1' & D2 & Hrow).
  rewrite Hy in Ez. rewrite Hy' in Ez'.
  apply Ok_inj in Ez. apply Ok_inj in Ez'. subst z z'.
  unfold last_row_eq.
  rewrite (MultiHeadAttn_call_dim0 _ _ _ _ _ _ _ _ Hy).
  rewrite (MultiHeadAttn_call_dim0 _ _ _ _ _ _ _ _ Hy').
  cbn [slice4_last_axis2 Transformer_make_dec_attn_mask e0].
  rewrite !bdim_1_r.
  repeat (split; [assumption |]).
  intros b c Hb. apply Hrow. rewrite H0'. exact Hb.
Qed.

(** The logits of the newest query, for the same keys and a mask that is
    broadcast over the queries. *)
Lemma logits_query_row (a : MultiHeadAttn) (q q' kh mask : tensor4)
      (n k : nat) :
  e0 q = n -> e0 q' = n -> e1 q = e1 q' -> e2 q = 1 -> e2 q' = k + 1 ->
  e3 q = e3 q' -> e2 mask = 1 ->
  (forall b h c, b < n -> at4 q b h 0 c = at4 q' b h k c) ->
  forall b h j,
    b < n ->
    at4 (MultiHeadAttn_logits a q kh mask) b h 0 j
    = at4 (MultiHeadAttn_logits a q' kh mask) b h k j.
Proof.
  intros Q0 Q0' Q1 Q2 Q2' Q3 M2 Hq b h j Hb.
  unfold MultiHeadAttn_logits.
  cbn [tf_add4 bmap4 tf_matmul4 tf_transpose4 map4 at4 e0 e1 e2 e3 sel4 unperm4
       Nat.eqb].
  rewrite Q0, Q0', Q1, Q2, Q2', Q3, M2, bidx_last.
  cbn [bidx Nat.eqb].
  f_equal. apply sum_n_ext. intros c _.
  rewrite (Hq _ _ _ (bidx_bound n b Hb)). reflexivity.
Qed.

Lemma attention_query_last_row (a : MultiHeadAttn) (rs rs' : random_source)
      (n k : nat) (p P : tensor3) (mask : tensor4) (kv y y' : tensor3) :
  last_row_eq n k p P ->
  e2 mask = 1 -> e0 mask = 1 \/ e0 mask = n ->
  MultiHeadAttn_call a false rs p mask None (Some kv) = Ok y ->
  MultiHeadAttn_call a false rs' P mask None (Some kv) = Ok y' ->
  last_row_eq n k y y'.
Proof.
  intros (H0 & H0' & H1 & H1' & H2 & H) M2 M0 Hy Hy'.
  unfold last_row_eq.
  rewrite (MultiHeadAttn_call_dim0 _ _ _ _ _ _ _ _ Hy).
  rewrite (MultiHeadAttn_call_dim0 _ _ _ _ _ _ _ _ Hy').
  rewrite (MultiHeadAttn_call_dim1 _ _ _ _ _ _ _ _ Hy).
  rewrite (MultiHeadAttn_call_dim1 _ _ _ _ _ _ _ _ Hy').
  rewrite H0, H0', H1, H1', M2, !bdim_1_r.
  assert (Hn : bdim n (e0 mask) = n).
  { destruct M0 as [-> | ->]; [apply bdim_1_r | apply bdim_same]. }
  rewrite Hn.
  repeat (split; [reflexivity |]).
  destruct (MultiHeadAttn_call_inv _ _ _ _ _ _ _ Hy)
    as (q3 & k3 & v3 & q & kh & v & Hqkv & Hq & Hk & Hv & ->).
  destruct (MultiHeadAttn_call_inv _ _ _ _ _ _ _ Hy')
    as (q3' & k3' & v3' & q' & kh' & v' & Hqkv' & Hq' & Hk' & Hv' & ->).
  cbn [MultiHeadAttn_qkv fst snd] in Hqkv, Hqkv'.
  injection Hqkv as <- <- <-. injection Hqkv' as <- <- <-.
  rewrite Hk in Hk'. apply Ok_inj in Hk'. subst kh'.
  rewrite Hv in Hv'. apply Ok_inj in Hv'. subst v'.
  destruct (MultiHeadAttn_split_heads_entry _ _ _ _ _ Hq eq_refl eq_refl)
    as (Q0 & Q1 & Q2 & Q3 & Qe).
  destruct (MultiHeadAttn_split_heads_entry _ _ _ _ _ Hq' eq_refl eq_refl)
    as (Q0' & Q1' & Q2' & Q3' & Qe').
  cbn [Dense_call dim0 dim1 dim2] in Q0, Q2, Q3, Q0', Q2', Q3', Qe, Qe'.
  assert (HL : forall b h j,
             b < n ->
             at4 (MultiHeadAttn_logits a q kh mask) b h 0 j
             = at4 (MultiHeadAttn_logits a q' kh mask) b h k j).
  { apply logits_query_row; try congruence.
    intros b h c Hb. rewrite Qe, Qe'.
    apply Dense_call_row. intros l _. apply H. exact Hb. }
  split; [reflexivity |].
  intros b c Hb.
  apply Dense_call_row. intros l _.
  unfold MultiHeadAttn_combine_heads.
  cbn [tf_reshape_merge_last tf_transpose4 tf_matmul4 tf_softmax4
       at3 at4 e0 e1 e2 e3 sel4 unperm4 Nat.eqb].
  assert (E3 : e3 (MultiHeadAttn_logits a q kh mask)
               = e3 (MultiHeadAttn_logits a q' kh mask)) by reflexivity.
  rewrite <- E3.
  apply sum_n_ext. intros j _. rewrite !HL by exact Hb.
  f_equal. f_equal. apply sum_n_ext. intros j' _. rewrite HL by exact Hb.
  reflexivity.
Qed.

Lemma self_attn_layer_last_row (w : ResidualLayerWrapper MultiHeadAttn)
      (kd vd heads : nat) (rs rs' : random_source) (n k : nat)
      (x D kv : tensor3) (out_seq out : itensor2) (z y : tensor3) :
  built_unit (wrapped_layer w) kd vd heads ->
  heads <> 0 -> kd mod heads = 0 -> vd mod heads = 0 ->
  last_row_eq n k x D ->
  teq3 kv (Dense_call (kv_conv (wrapped_layer w)) (preprocess w D)) ->
  icols out_seq = k -> icols out = k + 1 ->
  ResidualLayerWrapper_call w false rs
    (fun a x0 =>
       MultiHeadAttn_call a false rs x0
         (slice4_last_axis2
            (Transformer_make_dec_attn_mask (pad_out_seq out_seq)))
         None (Some kv)) x = Ok z ->
  ResidualLayerWrapper_call w false rs'
    (fun a x0 =>
       MultiHeadAttn_call a false rs' x0 (Transformer_make_dec_attn_mask out)
                          None None) D = Ok y ->
  last_row_eq n k z y.
Proof.
  intros Hb Hh Hkd Hvd Hx Hkv Hseq Hout Hz Hy.
  unfold ResidualLayerWrapper_call in Hz, Hy.
  inv_bind_as Hz o Ho. inv_bind_as Hy o' Ho'.
  apply Ok_inj in Hz. apply Ok_inj in Hy. subst z y.
  apply postprocess_steps_last_row; [exact Hx |].
  eapply (self_attention_last_row (wrapped_layer w) kd vd heads rs rs' n k
            (preprocess w x) (preprocess w D) kv out_seq out);
    try eassumption.
  apply preprocess_last_row. exact Hx.
Qed.

Lemma cross_attn_layer_last_row (w : ResidualLayerWrapper MultiHeadAttn)
      (rs rs' : random_source) (n k : nat) (x D : tensor3) (mask : tensor4)
      (enc_out z y : tensor3) :
  e2 mask = 1 -> e0 mask = 1 \/ e0 mask = n ->
  last_row_eq n k x D ->
  ResidualLayerWrapper_call w false rs
    (fun a x0 =>
       MultiHeadAttn_call a false rs x0 mask None
         (Some (Dense_call (kv_conv (wrapped_layer w)) enc_out))) x = Ok z ->
  ResidualLayerWrapper_call w false rs'
    (fun a x0 => MultiHeadAttn_call a false rs' x0 mask (Some enc_out) None) D
  = Ok y ->
  last_row_eq n k z y.
Proof.
  intros M2 M0 Hx Hz Hy.
  unfold ResidualLayerWrapper_call in Hz, Hy.
  inv_bind_as Hz o Ho. inv_bind_as Hy o' Ho'.
  apply Ok_inj in Hz. apply Ok_inj in Hy. subst z y.
  apply postprocess_steps_last_row; [exact Hx |].
  rewrite MultiHeadAttn_call_kv_inp in Ho'.
  eapply (attention_query_last_row (wrapped_layer w) rs rs' n k
            (preprocess w x) (preprocess w D) mask);
    try eassumption.
  apply preprocess_last_row. exact Hx.
Qed.

(** ** A decoder of one layer: incremental decoding and the batch decoder *)

Lemma attn_layer_built (vs : variable_store) (scope name : string)
      (inp_size kd vd od heads : nat) (ad avd : R) (dbg : bool)
      (_format steps : string) (isz osz : nat) (dr : R)
      (w : ResidualLayerWrapper MultiHeadAttn) :
  (attn <- MultiHeadAttn_init vs scope name inp_size kd vd od heads ad avd dbg
             _format ;;
   ResidualLayerWrapper_init scope name attn isz osz steps dr) = Ok w ->
  built_unit (wrapped_layer w) kd vd heads.
Proof.
  intros H. inv_bind_as H a Ha.
  unfold ResidualLayerWrapper_init in H.
  destruct (has_step "a" steps && negb (isz =? osz)); [discriminate H |].
  apply Ok_inj in H. subst w. cbn [wrapped_layer].
  unfold built_unit. do 9 eexists. exact Ha.
Qed.

Lemma Transformer_init_built (vs : variable_store) (name : string)
      (inp_voc out_voc : Vocab) (hp : hparams) (t : Transformer) :
  Transformer_init vs name inp_voc out_voc [] hp = Ok t ->
  Forall (fun w => built_unit (wrapped_layer w)
                              (py_or (hp_key_size hp) (hp_hid_size hp))
                              (py_or (hp_value_size hp) (hp_hid_size hp))
                              (hp_num_heads hp))
         (dec_attn t).
Proof.
  intros H. unfold Transformer_init in H.
  inv_bind_as H sizes Hsizes. destruct sizes as [[e k] v].
  destruct (Transformer_init_sizes_inv hp e k v Hsizes)
    as (-> & -> & -> & _).
  inv_bind_as H l0 H0. inv_bind_as H l1 H1. inv_bind_as H l2 H2.
  inv_bind_as H l3 H3. inv_bind_as H l4 H4.
  apply Ok_inj in H. subst t. cbn [dec_attn].
  exact (proj2 (mapM_ok_inv _ _ _
                  (fun i w E => attn_layer_built _ _ _ _ _ _ _ _ _ _ _ _ _ _ _ _
                                  w E) _ H2)).
Qed.

Lemma rescale_if_dim2 (self : Transformer) (x : tensor3) :
  dim2 (rescale_if self x) = dim2 x.
Proof. unfold rescale_if. destruct (rescale_emb self); reflexivity. Qed.

Lemma timing_signal_dims (rs : random_source) (ninp hid : nat) (mn mx : R)
      (v : offset_value) (rev : option itensor1) (s : tensor3) :
  timing_signal rs ninp hid mn mx (Offset v) rev = Ok s ->
  match v with
  | OffsetTensor1 _ | OffsetNumber _ => True
  | _ => False
  end ->
  dim1 s = ninp /\ dim2 s = hid.
Proof.
  intros H Hv.
  assert (Hhid : hid / 2 + hid / 2 + hid mod 2 = hid).
  { pose proof (Nat.div_mod_eq hid 2). lia. }
  destruct v as [x | x | t | t | t]; try contradiction;
    destruct rev as [r |]; open_timing_signal H; split;
    (reflexivity || exact Hhid).
Qed.

Lemma add_timing_signal_dims (rs : random_source) (inp : tensor3) (mn mx : R)
      (v : offset_value) (rev : option itensor1) (y : tensor3) :
  Transformer_add_timing_signal rs inp mn mx (Offset v) rev = Ok y ->
  match v with
  | OffsetTensor1 t => len1 t = dim0 inp
  | OffsetNumber _ => True
  | _ => False
  end ->
  match rev with
  | Some r => ilen r = dim0 inp
  | None => True
  end ->
  dim0 y = dim0 inp /\ dim1 y = dim1 inp /\ dim2 y = dim2 inp.
Proof.
  intros H Hv Hrev.
  split; [exact (add_timing_signal_dim0 _ _ _ _ _ _ _ H Hv Hrev) |].
  unfold Transformer_add_timing_signal in H. inv_bind_as H s Hs.
  apply Ok_inj in H. subst y.
  destruct (timing_signal_dims _ _ _ _ _ _ _ _ Hs) as [D1 D2].
  { destruct v; try contradiction; exact I. }
  cbn [tf_add3 bmap3 dim1 dim2]. rewrite D1, D2, !bdim_same.
  split; reflexivity.
Qed.

Lemma Dense_preprocess_rows {L : Type} (w : ResidualLayerWrapper L)
      (d : Dense) (n : nat) (x y : tensor3) :
  dim0 x = n -> dim0 y = n -> dim1 x = dim1 y ->
  (forall b j c, b < n -> j < dim1 x -> at3 x b j c = at3 y b j c) ->
  teq3 (Dense_call d (preprocess w x)) (Dense_call d (preprocess w y)).
Proof.
  intros H0 H0' H1 H. unfold teq3.
  cbn [Dense_call dim0 dim1 dim2].
  rewrite !preprocess_dim0, !preprocess_dim1.
  split; [congruence |]. split; [exact H1 |]. split; [reflexivity |].
  intros b j c Hb Hj _. apply Dense_call_row. intros l _.
  apply preprocess_row. intros c'. apply H; [congruence | exact Hj].
Qed.

Section OneLayer.

Variable self : Model.
Variables kd vd heads : nat.
Variables attn0 eattn0 : ResidualLayerWrapper MultiHeadAttn.
Variable ffn0 : ResidualLayerWrapper FFN.

Hypothesis Hwf : wf_transformer (transformer self) = true.
Hypothesis Hlayers : num_layers_dec (transformer self) = 1.
Hypothesis Hrand : dst_rand_offset (transformer self) = false.
Hypothesis Hattn : dec_attn (transformer self) = [attn0].
Hypothesis Heattn : dec_enc_attn (transformer self) = [eattn0].
Hypothesis Hffn : dec_ffn (transformer self) = [ffn0].
Hypothesis Hbuilt : built_unit (wrapped_layer attn0) kd vd heads.
Hypothesis Hheads : heads <> 0.
Hypothesis Hkd : kd mod heads = 0.
Hypothesis Hvd : vd mod heads = 0.
Hypothesis Hemb :
  cols2 (mat (emb_out (transformer self))) = emb_size (transformer self).

Variables inp out : itensor2.
Variable inp_len : itensor1.
Variable enc_out : tensor3.
Hypothesis Hlen : ilen inp_len = irows inp.
Hypothesis Hout0 : irows out = irows inp.

Variable rs' : random_source.
Variable D : tensor3.
Hypothesis HD :
  Transformer_add_timing_signal rs'
    (shift_right (rescale_if (transformer self)
                             (Embedding_call (emb_out (transformer self)) out)))
    1.0 1.0e4 (Offset (OffsetNumber 0))
    (Some {| ilen := ilen inp_len; iat1 := fun _ => 0%Z |}) = Ok D.

Lemma batch_input_dims :
  dim0 D = irows inp /\ dim1 D = icols out /\
  dim2 D = cols2 (mat (emb_out (transformer self))).
Proof.
  destruct (add_timing_signal_dims _ _ _ _ _ _ _ HD I) as (D0 & D1 & D2).
  { cbn [ilen]. destruct (shift_right_dims
                            (rescale_if (transformer self)
                               (Embedding_call (emb_out (transformer self)) out)))
      as (-> & _).
    rewrite rescale_if_dim0. cbn [Embedding_call dim0]. congruence. }
  destruct (shift_right_dims
              (rescale_if (transformer self)
                 (Embedding_call (emb_out (transformer self)) out)))
    as (S0 & S1 & S2).
  rewrite D0, D1, D2, S0, S1, S2.
  rewrite rescale_if_dim0, rescale_if_dim1, rescale_if_dim2.
  cbn [Embedding_call dim0 dim1 dim2]. repeat split. exact Hout0.
Qed.

Lemma step_embedding_dims (batch_size : nat) (words : option itensor1) (j : nat) :
  batch_size = irows inp ->
  words_for_position (irows inp) j out words ->
  dim0 (Model_decode_embedding (transformer self) batch_size words) = irows inp /\
  dim1 (Model_decode_embedding (transformer self) batch_size words) = 1 /\
  dim2 (Model_decode_embedding (transformer self) batch_size words)
  = cols2 (mat (emb_out (transformer self))).
Proof.
  intros Hbs Hw. destruct words as [w |]; cbn [Model_decode_embedding].
  - destruct Hw as (_ & Hwl & _).
    rewrite rescale_if_dim0, rescale_if_dim1, rescale_if_dim2.
    cbn [Embedding_call expand_words dim0 dim1 dim2 irows icols].
    repeat split. exact Hwl.
  - cbn [tf_zeros3 dim0 dim1 dim2]. repeat split; congruence.
Qed.

Lemma step_embedding_row (batch_size : nat) (words : option itensor1)
      (j b c : nat) :
  words_for_position (irows inp) j out words ->
  b < irows inp ->
  at3 (Model_decode_embedding (transformer self) batch_size words) b 0 c
  = at3 (shift_right (rescale_if (transformer self)
                        (Embedding_call (emb_out (transformer self)) out)))
        b j c.
Proof.
  intros Hw Hb. destruct words as [w |]; cbn [Model_decode_embedding].
  - destruct Hw as (Hj & _ & Hwords).
    unfold shift_right, rescale_if.
    destruct (rescale_emb (transformer self));
      cbn [slice3_drop_last_axis1 tf_pad3_axis1_before map3 Embedding_call
           expand_words at3 iat2];
      (destruct (Nat.ltb_spec j 1); [lia |]);
      rewrite (Hwords b Hb); reflexivity.
  - cbn in Hw. subst j.
    unfold shift_right.
    cbn [slice3_drop_last_axis1 tf_pad3_axis1_before tf_zeros3 at3 Nat.ltb
         Nat.leb].
    reflexivity.
Qed.

(** The decoder input of an incremental step is a row of the decoder input
    of the batch decoder. *)
Lemma decoder_input_row (rs : random_source) (j : nat) (off : tensor1)
      (batch_size : nat) (words : option itensor1) (x : tensor3) :
  batch_size = irows inp ->
  len1 off = irows inp ->
  (forall b, b < irows inp -> at1 off b = INR j) ->
  words_for_position (irows inp) j out words ->
  j < icols out ->
  Transformer_add_timing_signal rs
    (Model_decode_embedding (transformer self) batch_size words)
    1.0 1.0e4 (Offset (OffsetTensor1 off)) None = Ok x ->
  dim0 x = irows inp /\ dim1 x = 1 /\ dim2 x = dim2 D /\
  forall b c, b < irows inp -> at3 x b 0 c = at3 D b j c.
Proof.
  intros Hbs Hoff Hval Hw Hj Hx.
  destruct (step_embedding_dims batch_size words j Hbs Hw) as (E0 & E1 & E2).
  destruct batch_input_dims as (B0 & B1 & B2).
  destruct (add_timing_signal_dims _ _ _ _ _ _ _ Hx) as (X0 & X1 & X2);
    [congruence | exact I |].
  split; [congruence |]. split; [congruence |]. split; [congruence |].
  intros b c Hb.
  pose proof HD as HD'.
  unfold Transformer_add_timing_signal in Hx, HD'.
  inv_bind_as Hx s Hs. inv_bind_as HD' sM HsM.
  apply Ok_inj in Hx. apply Ok_inj in HD'. subst x. subst D.
  destruct (shift_right_dims
              (rescale_if (transformer self)
                 (Embedding_call (emb_out (transformer self)) out)))
    as (S0 & S1 & S2).
  rewrite rescale_if_dim0 in S0. rewrite rescale_if_dim1 in S1.
  rewrite rescale_if_dim2 in S2.
  cbn [Embedding_call dim0 dim1 dim2] in S0, S1, S2.
  rewrite E1, E2 in Hs. rewrite S1, S2 in HsM.
  destruct (timing_signal_dims _ _ _ _ _ _ _ _ Hs I) as (Ts1 & Ts2).
  destruct (timing_signal_dims _ _ _ _ _ _ _ _ HsM I) as (TM1 & TM2).
  assert (Hb' : bidx (irows inp) b < irows inp) by (apply bidx_bound; exact Hb).
  destruct (timing_signal_offset_row rs rs' 1 (icols out)
              (cols2 (mat (emb_out (transformer self)))) (ilen inp_len)
              1.0 1.0e4 off s sM (bidx (irows inp) b) 0 j Hs HsM)
    as (Ts0 & _ & TM0 & _ & _ & Hrow); try lia.
  { apply Hval. exact Hb'. }
  cbn [tf_add3 bmap3 at3].
  rewrite E0, E1, E2, S0, S1, S2, Ts0, Ts1, Ts2, TM0, TM1, TM2.
  rewrite Hoff, Hlen, Hout0.
  rewrite (bidx_lt (icols out) j Hj).
  cbn [bidx Nat.eqb].
  rewrite (Hrow _).
  rewrite (step_embedding_row batch_size words j _ _ Hw Hb').
  reflexivity.
Qed.

(** What a decoding step of a one-layer model computes. *)
Lemma Model_decode_one_layer (rs : random_source) (st st' : DecState)
      (words : option itensor1) :
  Model_decode self rs st words false = Ok st' ->
  exists x old ekv z1 z2 z3 z4,
    Transformer_add_timing_signal rs
      (Model_decode_embedding (transformer self) (rows2 (st_rdo st)) words)
      1.0 1.0e4 (Offset (OffsetTensor1 (st_offset st))) None = Ok x /\
    nth_error (st_dec_dec_kv st) 0 = Some old /\
    nth_error (st_dec_enc_kv st) 0 = Some ekv /\
    ResidualLayerWrapper_call attn0 false rs
      (fun a x0 =>
         MultiHeadAttn_call a false rs x0
           (slice4_last_axis2
              (Transformer_make_dec_attn_mask
                 (pad_out_seq
                    match words with
                    | Some w => append_words (st_out_seq st) w
                    | None => st_out_seq st
                    end)))
           None
           (Some (tf_concat3_axis1 old
                    (Dense_call (kv_conv (wrapped_layer attn0))
                                (preprocess attn0 x))))) x = Ok z1 /\
    ResidualLayerWrapper_call eattn0 false rs
      (fun a x0 =>
         MultiHeadAttn_call a false rs x0 (st_enc_attn_mask st) None (Some ekv))
      z1 = Ok z2 /\
    ResidualLayerWrapper_call ffn0 false rs
      (fun f x0 => FFN_call f false rs x0) z2 = Ok z3 /\
    normalize_out_if (transformer self) (dec_out_norm (transformer self)) z3
    = Ok z4 /\
    st_rdo st' = slice3_last_axis1 z4 /\
    st_emb st' = tf_concat3_axis1 (st_emb st) x.
Proof.
  intros H. unfold Model_decode in H.
  unfold bypass_if_no_layers in H. rewrite Hlayers in H.
  cbn [Nat.eqb dropout_if seq foldM] in H.
  inv_bind_as H x Hx. inv_bind_as H acc Hloop.
  destruct acc as [[xf ls] kvs]. inv_bind_as H z4 Hz4.
  apply Ok_inj in H. subst st'. cbn [st_rdo st_emb].
  inv_bind_as Hloop acc Hlayer. apply Ok_inj in Hloop. subst acc.
  unfold Model_decode_layer in Hlayer.
  rewrite Hattn, Heattn, Hffn in Hlayer.
  cbn [py_index nth_error bind app] in Hlayer.
  inv_bind_as Hlayer old Hold.
  cbn [py_index nth_error bind app] in Hlayer.
  inv_bind_as Hlayer z1 Hz1. inv_bind_as Hlayer ekv Hekv.
  inv_bind_as Hlayer z2 Hz2. inv_bind_as Hlayer z3 Hz3.
  inv_bind_as Hlayer prev Hprev.
  apply Ok_inj in Hlayer.
  assert (xf = z3) by congruence. subst xf.
  apply py_index_nth_error in Hold. apply py_index_nth_error in Hekv.
  exists x, old, ekv, z1, z2, z3, z4.
  repeat (split; [assumption |]). split; reflexivity.
Qed.

(** What the batch decoder of a one-layer model computes from its input. *)
Lemma Transformer_decode_one_layer (out_len : itensor1)
      (enc_attn_mask : tensor4) (y : tensor3) :
  Transformer_decode (transformer self) rs' out out_len
    (Some {| ilen := ilen inp_len; iat1 := fun _ => 0%Z |})
    enc_out enc_attn_mask false = Ok y ->
  exists y1 y2 y3,
    ResidualLayerWrapper_call attn0 false rs'
      (fun a x0 =>
         MultiHeadAttn_call a false rs' x0 (Transformer_make_dec_attn_mask out)
                            None None) D = Ok y1 /\
    ResidualLayerWrapper_call eattn0 false rs'
      (fun a x0 =>
         MultiHeadAttn_call a false rs' x0 enc_attn_mask (Some enc_out) None)
      y1 = Ok y2 /\
    ResidualLayerWrapper_call ffn0 false rs'
      (fun f x0 => FFN_call f false rs' x0) y2 = Ok y3 /\
    normalize_out_if (transformer self) (dec_out_norm (transformer self)) y3
    = Ok y.
Proof.
  intros H. unfold Transformer_decode, Transformer_decode_input in H.
  rewrite Hrand, HD in H.
  unfold bypass_if_no_layers in H. rewrite Hlayers in H.
  cbn [Nat.eqb dropout_if seq foldM bind] in H.
  rewrite Hattn, Heattn, Hffn in H.
  cbn [py_index nth_error bind] in H.
  inv_bind_as H y3 Hloop. inv_bind_as H y' Hy. apply Ok_inj in H. subst y'.
  inv_bind_as Hloop y3' Hlayer. apply Ok_inj in Hloop. subst y3'.
  inv_bind_as Hlayer y1 Hy1. inv_bind_as Hlayer y2 Hy2.
  exists y1, y2, y3. repeat split; assumption.
Qed.

Lemma concat_prefix_rows (j : nat) (prefix x : tensor3) :
  dim1 prefix = j ->
  (forall b i c, b < irows inp -> i < j -> at3 prefix b i c = at3 D b i c) ->
  (forall b c, b < irows inp -> at3 x b 0 c = at3 D b j c) ->
  forall b i c,
    b < irows inp -> i < j + 1 ->
    at3 (tf_concat3_axis1 prefix x) b i c = at3 D b i c.
Proof.
  intros Hj Hpre Hx b i c Hb Hi.
  cbn [tf_concat3_axis1 at3]. rewrite Hj.
  destruct (Nat.ltb_spec i j).
  - apply Hpre; assumption.
  - replace (i - j) with 0 by lia. replace i with j by lia.
    apply Hx. exact Hb.
Qed.

(** A decoding step extends the prefix of the batch decoder's input that
    the state has been fed by one position. *)
Lemma decoding_prefix_step (rs : random_source) (j : nat) (st st' : DecState)
      (words : option itensor1) :
  decoding_prefix self (irows inp) j D st ->
  e0 (st_enc_attn_mask st) = 1 \/ e0 (st_enc_attn_mask st) = irows inp ->
  words_for_position (irows inp) j out words ->
  j < icols out ->
  Model_decode self rs st words false = Ok st' ->
  decoding_prefix self (irows inp) (j + 1) D st'.
Proof.
  intros (P0 & P1 & P2 & Prow & O0 & Oval & R0 & S0 & Hcons & Hcache)
         Hmask Hw Hj H.
  destruct (Model_decode_one_layer rs st st' words H)
    as (x & old & ekv & z1 & z2 & z3 & z4 & Hx & _ & _ & _ & _ & _ & _ & _
        & Hemb').
  destruct (decoder_input_row rs j (st_offset st) (rows2 (st_rdo st)) words x
              R0 O0 Oval Hw Hj Hx) as (X0 & X1 & X2 & Xrow).
  destruct (Model_decode_bookkeeping _ _ _ _ _ _ H) as (_ & Hseq & HL & HA).
  unfold decoding_prefix. rewrite Hemb'.
  split; [exact P0 |].
  split; [cbn [tf_concat3_axis1 dim1]; rewrite P1, X1; reflexivity |].
  split; [exact P2 |].
  split; [exact (concat_prefix_rows j (st_emb st) x P1 Prow Xrow) |].
  split; [congruence |].
  split.
  { intros b Hb. rewrite HA, (Oval b Hb), plus_INR. reflexivity. }
  split.
  { apply (Model_decode_dim0 self rs st st' words false (irows inp) R0 O0 Hmask);
      [| exact H].
    destruct words as [w |]; [exact (proj1 (proj2 Hw)) | exact I]. }
  split.
  { rewrite Hseq. destruct words as [w |].
    - destruct Hw as (Hj1 & _). cbn [append_words icols]. lia.
    - cbn in Hw. rewrite S0. lia. }
  split; [exact (Model_decode_consistent _ _ _ _ _ _ Hcons H) |].
  destruct (Model_decode_ok self rs st words false j Hwf Hcache)
    as (st'' & E & C & _).
  rewrite H in E. apply Ok_inj in E. subst st''. exact C.
Qed.

(** The read-out of the step that feeds position [k] is position [k] of
    the output of the batch decoder over [k + 1] positions. *)
Lemma final_step_row (rs : random_source) (k : nat) (st st' : DecState)
      (words : option itensor1) (out_len : itensor1) (y : tensor3) :
  decoding_prefix self (irows inp) k D st ->
  st_enc_attn_mask st = Transformer_make_enc_attn_mask inp inp_len ->
  st_dec_enc_kv st
  = map (fun layer => Dense_call (kv_conv (wrapped_layer layer)) enc_out)
        (dec_enc_attn (transformer self)) ->
  words_for_position (irows inp) k out words ->
  icols out = k + 1 ->
  Model_decode self rs st words false = Ok st' ->
  Transformer_decode (transformer self) rs' out out_len
    (Some {| ilen := ilen inp_len; iat1 := fun _ => 0%Z |})
    enc_out (Transformer_make_enc_attn_mask inp inp_len) false = Ok y ->
  forall b c, b < irows inp -> at2 (st_rdo st') b c = at3 y b k c.
Proof.
  intros (P0 & P1 & P2 & Prow & O0 & Oval & R0 & S0 & Hcons & Hcache)
         Hmask Hkvmap Hw Hout H Hy.
  destruct (Model_decode_one_layer rs st st' words H)
    as (x & old & ekv & z1 & z2 & z3 & z4 & Hx & Hold & Hekv & Hz1 & Hz2 & Hz3
        & Hz4 & Hrdo & _).
  destruct (Transformer_decode_one_layer out_len _ y Hy)
    as (y1 & y2 & y3 & Hy1 & Hy2 & Hy3 & Hy4).
  destruct (decoder_input_row rs k (st_offset st) (rows2 (st_rdo st)) words x
              R0 O0 Oval Hw) as (X0 & X1 & X2 & Xrow); [lia | exact Hx |].
  destruct batch_input_dims as (B0 & B1 & B2).
  assert (Hlast : last_row_eq (irows inp) k x D).
  { unfold last_row_eq. repeat (split; [congruence |]). exact Xrow. }
  assert (Hkv : teq3 (tf_concat3_axis1 old
                        (Dense_call (kv_conv (wrapped_layer attn0))
                                    (preprocess attn0 x)))
                     (Dense_call (kv_conv (wrapped_layer attn0))
                                 (preprocess attn0 D))).
  { eapply teq3_trans.
    - apply extend_cache_consistent.
      apply (Hcons 0 attn0 old (st_emb st)); [| exact Hold | reflexivity].
      rewrite Hattn. reflexivity.
    - apply (Dense_preprocess_rows attn0 _ (irows inp)).
      + exact P0.
      + exact B0.
      + cbn [tf_concat3_axis1 dim1]. rewrite P1, X1, B1. symmetry. exact Hout.
      + intros b j c Hb Hj. cbn [tf_concat3_axis1 dim1] in Hj.
        rewrite P1, X1 in Hj.
        exact (concat_prefix_rows k (st_emb st) x P1 Prow Xrow b j c Hb Hj). }
  assert (Hseq : icols match words with
                       | Some w => append_words (st_out_seq st) w
                       | None => st_out_seq st
                       end = k).
  { destruct words as [w |].
    - destruct Hw as (Hk1 & _). cbn [append_words icols]. lia.
    - cbn in Hw. rewrite S0. lia. }
  pose proof (self_attn_layer_last_row attn0 kd vd heads rs rs' (irows inp) k
                x D _ _ out z1 y1 Hbuilt Hheads Hkd Hvd Hlast Hkv Hseq Hout
                Hz1 Hy1) as L1.
  rewrite Hkvmap, Heattn in Hekv. cbn [map nth_error] in Hekv.
  injection Hekv as <-.
  rewrite Hmask in Hz2.
  assert (L2 : last_row_eq (irows inp) k z2 y2).
  { apply (cross_attn_layer_last_row eattn0 rs rs' (irows inp) k z1 y1
             (Transformer_make_enc_attn_mask inp inp_len) enc_out z2 y2);
      try assumption.
    - reflexivity.
    - right. exact Hlen. }
  pose proof (ffn_layer_last_row ffn0 rs rs' (irows inp) k z2 y2 z3 y3 L2 Hz3 Hy3)
    as L3.
  pose proof (normalize_out_if_last_row _ _ _ _ _ _ _ _ L3 Hz4 Hy4) as L4.
  destruct L4 as (_ & _ & Z1 & _ & _ & Zrow).
  intros b c Hb. rewrite Hrdo. cbn [slice3_last_axis1 at2].
  rewrite Z1. cbn [Nat.sub]. apply Zrow. exact Hb.
Qed.

(** Feeding the columns of [out] one call after another: after the call
    for the last column, the read-out is the last position of the batch
    decoder's output. *)
Lemma decode_steps_read_out (out_len : itensor1) (y : tensor3)
      (steps : list (random_source * itensor1)) :
  Transformer_decode (transformer self) rs' out out_len
    (Some {| ilen := ilen inp_len; iat1 := fun _ => 0%Z |})
    enc_out (Transformer_make_enc_attn_mask inp inp_len) false = Ok y ->
  forall (j : nat) (rs : random_source) (st st1 stk : DecState)
         (words : option itensor1),
    decoding_prefix self (irows inp) j D st ->
    st_enc_attn_mask st = Transformer_make_enc_attn_mask inp inp_len ->
    st_dec_enc_kv st
    = map (fun layer => Dense_call (kv_conv (wrapped_layer layer)) enc_out)
          (dec_enc_attn (transformer self)) ->
    words_for_position (irows inp) j out words ->
    (forall i rs2 w,
        nth_error steps i = Some (rs2, w) ->
        words_for_position (irows inp) (j + 1 + i) out (Some w)) ->
    icols out = j + List.length steps + 1 ->
    Model_decode self rs st words false = Ok st1 ->
    Model_decode_steps self st1 steps false = Ok stk ->
    forall b c,
      b < irows inp ->
      at2 (st_rdo stk) b c = at3 y b (j + List.length steps) c.
Proof.
  intros Hy.
  induction steps as [| [rs2 w] rest IH];
    intros j rs st st1 stk words Hpre Hmask Hkv Hw Hwords Hcols Hdec Hsteps.
  - cbn [Model_decode_steps] in Hsteps. apply Ok_inj in Hsteps. subst stk.
    cbn [List.length] in *. rewrite Nat.add_0_r in *.
    exact (final_step_row rs j st st1 words out_len y Hpre Hmask Hkv Hw Hcols
                          Hdec Hy).
  - cbn [Model_decode_steps] in Hsteps. inv_bind_as Hsteps st2 H2.
    destruct (Model_decode_frame _ _ _ _ _ _ Hdec) as (_ & F2 & F3).
    assert (Hpre1 : decoding_prefix self (irows inp) (j + 1) D st1).
    { apply (decoding_prefix_step rs j st st1 words Hpre); try assumption.
      - rewrite Hmask. right. exact Hlen.
      - cbn [List.length] in Hcols. lia. }
    replace (j + List.length ((rs2, w) :: rest))
      with (j + 1 + List.length rest) by (cbn [List.length]; lia).
    apply (IH (j + 1) rs2 st1 st2 stk (Some w)); try assumption.
    + congruence.
    + congruence.
    + pose proof (Hwords 0 rs2 w eq_refl) as W0.
      rewrite Nat.add_0_r in W0. exact W0.
    + intros i rs3 w3 Hi.
      replace (j + 1 + 1 + i) with (j + 1 + S i) by lia.
      exact (Hwords (S i) rs3 w3 Hi).
    + cbn [List.length] in Hcols. lia.
Qed.

End OneLayer.

Lemma Model_encode_state_encoder (self : Model) (rs : random_source)
      (batch : Batch) (st0 : DecState) :
  Model_encode_state self rs batch = Ok st0 ->
  Transformer_encode (transformer self) rs (b_inp batch)
    match b_inp_len batch with
    | Some l => l
    | None => infer_length (b_inp batch) (eos (inp_voc self))
    end false
  = Ok (st_enc_out st0, st_enc_attn_mask st0) /\
  st_emb st0
  = tf_zeros3 (irows (b_inp batch)) 0 (emb_size (transformer self)).
Proof.
  intros H. unfold Model_encode_state in H.
  inv_bind_as H enc Henc. destruct enc as [enc_out mask].
  inv_bind_as H kvs Hkvs. injection H as <-.
  cbn [st_enc_out st_enc_attn_mask st_emb].
  split; [exact Henc | reflexivity].
Qed.

Lemma length_one_singleton {A : Type} (l : list A) :
  List.length l = 1 -> exists x, l = [x].
Proof.
  destruct l as [| x [| y l]]; cbn; intros H; try discriminate.
  exists x. reflexivity.
Qed.

Lemma Transformer_init_emb_out_cols (vs : variable_store) (name : string)
      (inp_voc out_voc : Vocab) (hp : hparams) (t : Transformer) :
  Transformer_init vs name inp_voc out_voc [] hp = Ok t ->
  cols2 (mat (emb_out t)) = emb_size t.
Proof.
  intros H. pose proof (Transformer_init_inv _ _ _ _ _ _ H) as Inv.
  cbv zeta in Inv.
  destruct Inv as (_ & _ & _ & _ & _ & _ & _ & _ & _ & _ & _ & _ & _ & _ & _
                   & Einp & Eout & _).
  rewrite Eout. cbn [Embedding_init mat].
  destruct (hp_share_emb hp).
  - rewrite Einp. reflexivity.
  - reflexivity.
Qed.

(** X21.  For a model built by the constructor with one layer and
    [dst_rand_offset] off, decoding step by step agrees with scoring in one
    pass: after [encode] and one [decode] call per column of [out] but the
    last, [get_logits] of the state is the last position of
    [symbolic_score] on the same input and [out], for every row of the
    batch and every vocabulary entry (inference mode, input lengths
    inferred with one length per row). *)
Theorem one_layer_step_logits_are_batch_logits
        (vs : variable_store) (act : R -> R) (name : string) (iv ov : Vocab)
        (hp0 : hparams) (self : Model) (rs0 rs1 : random_source)
        (inp out : itensor2) (steps : list (random_source * itensor1)) :
  Model_init vs act name iv ov hp0 = Ok self ->
  hp_num_layers hp0 = 1 ->
  hp_dst_rand_offset hp0 = false ->
  ilen (infer_length inp (eos iv)) = irows inp ->
  irows out = irows inp ->
  icols out = List.length steps + 1 ->
  (forall j rs w,
      nth_error steps j = Some (rs, w) ->
      ilen w = irows inp /\
      forall b, b < irows inp -> iat1 w b = iat2 out b j) ->
  exists st stk scores,
    Model_encode self rs0 {| b_inp := inp; b_inp_len := None |} false = Ok st /\
    Model_decode_steps self st steps false = Ok stk /\
    Model_symbolic_score self rs1 inp out false = Ok scores /\
    forall b v,
      b < irows inp ->
      at2 (Model_get_logits self stk) b v
      = at3 scores b (List.length steps) v.
Proof.
  intros Hinit Hl Hr Hlen Hout Hcols Hwords.
  destruct (Model_init_wf _ _ _ _ _ _ _ Hinit) as (Hwf & Hnl & Hro).
  rewrite Hl in Hnl. rewrite Hr in Hro.
  destruct (Model_init_inv _ _ _ _ _ _ _ Hinit) as (Ht & Hiv & Hov & _).
  pose proof (Transformer_init_emb_out_cols _ _ _ _ _ _ Ht) as Hembc.
  pose proof (Transformer_init_built _ _ _ _ _ _ Ht) as Hb.
  pose proof (Transformer_init_inv _ _ _ _ _ _ Ht) as Inv.
  cbv zeta in Inv.
  destruct Inv as (Hh & Hkd & Hvd & _ & _ & _ & _ & _ & _ & Lda & Ldea & Ldf
                   & _ & _ & _ & _ & _ & Hbias).
  rewrite Hl in Lda, Ldea, Ldf.
  destruct (length_one_singleton _ Lda) as [attn0 Hda].
  destruct (length_one_singleton _ Ldea) as [eattn0 Hdea].
  destruct (length_one_singleton _ Ldf) as [ffn0 Hdf].
  rewrite Hda in Hb. apply Forall_inv in Hb.
  set (batch := {| b_inp := inp; b_inp_len := None |}).
  destruct (Model_encode_ok self rs0 batch false Hwf)
    as (st0 & st & E0 & C0 & Edec & Eenc & C1 & _).
  destruct (Model_encode_state_encoder _ _ _ _ E0) as (Henc & Hemb0).
  cbn [batch b_inp b_inp_len] in Henc, Hemb0. rewrite Hiv in Henc.
  destruct (Transformer_encode_ok (transformer self) rs0 inp
              (infer_length inp (eos iv)) false Hwf) as (eo & Eeo & _).
  rewrite Henc in Eeo. apply Ok_inj in Eeo.
  assert (Hmask : st_enc_attn_mask st0
                  = Transformer_make_enc_attn_mask inp (infer_length inp (eos iv))).
  { exact (f_equal snd Eeo). }
  clear Eeo eo.
  destruct (Model_decode_steps_ok self false steps Hwf st 1 C1)
    as (stk & Ek & _).
  set (rev0 := {| ilen := ilen (infer_length inp (eos iv));
                  iat1 := fun _ : nat => 0%Z |}).
  destruct (Transformer_decode_ok (transformer self) rs1 out
              (infer_length out (eos ov)) (Some rev0) (st_enc_out st0)
              (st_enc_attn_mask st0) false Hwf Hro (proj1 C0))
    as (y & Hy & _).
  destruct (add_timing_signal_number_ok rs1
              (shift_right (rescale_if (transformer self)
                              (Embedding_call (emb_out (transformer self)) out)))
              1.0 1.0e4 0 (Some rev0)) as (D & HD & _).
  destruct (batch_input_dims self inp out (infer_length inp (eos iv)) Hlen Hout
                             rs1 D HD) as (_ & _ & D2).
  destruct (Model_encode_state_bookkeeping _ _ _ _ E0) as (_ & Hseq0 & Hoff0).
  cbn [batch b_inp] in Hseq0, Hoff0.
  assert (Hdims : rows2 (st_rdo st0) = irows inp).
  { apply (Model_encode_state_dim0 self rs0 batch st0 Hbias); [| exact E0].
    cbn [batch b_inp b_inp_len]. rewrite Hiv. exact Hlen. }
  assert (Hpre0 : decoding_prefix self (irows inp) 0 D st0).
  { unfold decoding_prefix. rewrite Hemb0, Hoff0, Hseq0.
    unfold Model_encode_offset. rewrite Hro.
    cbn [tf_zeros3 tf_zeros1 tf_zeros_i2 dim0 dim1 dim2 len1 at1 icols INR].
    split; [reflexivity |]. split; [reflexivity |].
    split; [congruence |].
    split; [intros b i c _ Hi; lia |].
    split; [reflexivity |]. split; [reflexivity |].
    split; [exact Hdims |]. split; [reflexivity |].
    split; [exact (Model_encode_state_consistent _ _ _ _ E0) | exact C0]. }
  exists st, stk, (Dense_call (logits self) y).
  split; [exact Eenc |]. split; [exact Ek |].
  split.
  { unfold Model_symbolic_score. rewrite Hiv, Hov.
    rewrite (Transformer_encode_det (transformer self) rs1 rs0), Henc.
    cbn [bind]. fold rev0. rewrite Hy. reflexivity. }
  intros b v Hbn.
  unfold Model_get_logits. cbn [Dense_call2 Dense_call at2 at3].
  f_equal. f_equal. apply sum_n_ext. intros l _. f_equal.
  rewrite Hmask in Hy.
  refine (decode_steps_read_out self _ _ _ attn0 eattn0 ffn0 Hwf Hnl Hro Hda
            Hdea Hdf Hb Hh Hkd Hvd Hembc inp out (infer_length inp (eos iv))
            (st_enc_out st0) Hlen Hout rs1 D HD (infer_length out (eos ov)) y
            steps Hy 0 rs0 st0 st stk None Hpre0 Hmask
            (Model_encode_state_cross_cache _ _ _ _ E0) eq_refl _ Hcols Edec Ek
            b l Hbn).
  intros i rs2 w Hi. destruct (Hwords i rs2 w Hi) as (Hwl & Hwv).
  cbn [words_for_position]. split; [lia |]. split; [exact Hwl |].
  intros b' Hb'. replace (0 + 1 + i - 1) with i by lia. apply Hwv. exact Hb'.
Qed.

(** ** The last target token *)






















End Layers.

Arguments rlw_name {L} _.
Arguments wrapped_layer {L} _.
Arguments rlw_inp_size {L} _.
Arguments rlw_out_size {L} _.
Arguments rlw_steps {L} _.
Arguments rlw_dropout {L} _.
Arguments rlw_norm_inp {L} _.
Arguments rlw_norm_out {L} _.

(* ================================================================== *)
(** * The claims at concrete inputs *)

(** The signal of one position at offset 2 and row 2 of the signal of five
    positions, for 8 channels. *)
Lemma timing_signal_step_is_row_witness :
  2 < 5 /\
  (exists s1 sN,
      timing_signal draws_zero 1 8 1.0 1.0e4 (Offset (OffsetNumber (INR 2))) None
      = Ok s1 /\
      timing_signal draws_one 5 8 1.0 1.0e4 (Offset (OffsetNumber 0)) None
      = Ok sN /\
      dim1 s1 = 1 /\ dim1 sN = 5 /\ dim2 s1 = 8 /\ dim2 sN = 8 /\
      forall c, at3 s1 0 0 c = at3 sN 0 2 c) /\
  (forall inp1 inpN : tensor3,
      dim0 inp1 = dim0 inpN ->
      dim1 inp1 = 1 -> dim1 inpN = 5 -> dim2 inp1 = 8 -> dim2 inpN = 8 ->
      (forall b c, at3 inp1 b 0 c = at3 inpN b 2 c) ->
      exists o1 oN,
        Transformer_add_timing_signal draws_zero inp1 1.0 1.0e4
                                      (Offset (OffsetNumber (INR 2))) None
        = Ok o1 /\
        Transformer_add_timing_signal draws_one inpN 1.0 1.0e4
                                      (Offset (OffsetNumber 0)) None
        = Ok oN /\
        dim1 o1 = 1 /\ dim1 oN = 5 /\
        forall b c, at3 o1 b 0 c = at3 oN b 2 c).
Proof.
  split; [lia |].
  apply (timing_signal_step_is_row draws_zero draws_one 8 5 2 1.0 1.0e4)%R.
  lia.
Defined.


(** A unit in the split query / key-value layout, on three positions. *)
Lemma combined_projection_splits_witness :
  exists attn,
    MultiHeadAttn_init zero_variables "mod" "dec_enc_attn-0" 4 4 4 4 2
                       0%R 0%R false "use_kv" = Ok attn /\
    (("use_kv" = "use_kv" \/ "use_kv" = "combined") /\
     key_depth attn = 4 /\ value_depth attn = 4 /\
     teq3 (split3_piece (Dense_call (combined_conv attn) three_positions) 0 4)
          (Dense_call (query_conv attn) three_positions) /\
     teq3 (split3_piece (Dense_call (combined_conv attn) three_positions) 4 4)
          (split3_piece (Dense_call (kv_conv attn) three_positions) 0 4) /\
     teq3 (split3_piece (Dense_call (combined_conv attn) three_positions)
                        (4 + 4) 4)
          (split3_piece (Dense_call (kv_conv attn) three_positions) 4 4)).
Proof.
  destruct (is_ok_inv
              (MultiHeadAttn_init zero_variables "mod" "dec_enc_attn-0" 4 4 4 4 2
                                  0%R 0%R false "use_kv") eq_refl)
    as [attn Hattn].
  exists attn. split; [exact Hattn |].
  exact (combined_projection_splits zero_variables "mod" "dec_enc_attn-0"
           4 4 4 4 2 0%R 0%R false "use_kv" attn three_positions Hattn).
Defined.

(** Hidden size 4 with 3 heads. *)
Lemma transformer_rejects_bad_heads_witness :
  hp_num_heads (make_hp 3 2 false) <> 0 /\
  Transformer_init_sizes [] (make_hp 3 2 false)
  = Raise (Exception "Bad number of heads") /\
  Transformer_init zero_variables "mod" example_voc example_voc []
                   (make_hp 3 2 false)
  = Raise (Exception "Bad number of heads").
Proof.
  assert (H0 : hp_num_heads (make_hp 3 2 false) <> 0) by (simpl; lia).
  assert (H1 : py_or (hp_key_size (make_hp 3 2 false))
                     (hp_hid_size (make_hp 3 2 false))
               mod hp_num_heads (make_hp 3 2 false) <> 0 \/
               py_or (hp_value_size (make_hp 3 2 false))
                     (hp_hid_size (make_hp 3 2 false))
               mod hp_num_heads (make_hp 3 2 false) <> 0)
    by (left; simpl; lia).
  split; [exact H0 |].
  destruct (transformer_rejects_bad_heads zero_variables "mod" example_voc
              example_voc (make_hp 3 2 false) H0 H1) as [Hs [Hi _]].
  split; [exact Hs | exact Hi].
Defined.

(** The constructor of the attention unit accepts depths that its number of
    heads does not divide. *)
Lemma attention_unit_accepts_bad_heads :
  6 mod 4 <> 0 /\
  exists attn,
    MultiHeadAttn_init zero_variables "mod" "attn" 8 6 6 8 4 0%R 0%R false
                       "combined" = Ok attn /\
    key_depth attn = 6 /\ value_depth attn = 6 /\ num_heads attn = 4.
Proof.
  split; [simpl; lia |].
  apply MultiHeadAttn_init_ok. right. reflexivity.
Qed.

(** Cross-attention of one query over three keys, the last of them
    masked. *)
Lemma attention_mask_bias_witness :
  exists W,
    MultiHeadAttn_weights example_attn one_position padding_mask
                          (Some three_positions) None = Ok W /\
    exists q3 k3 v3 q k,
      MultiHeadAttn_qkv example_attn one_position (Some three_positions) None
      = Ok (q3, k3, v3) /\
      MultiHeadAttn_split_heads example_attn q3 = Ok q /\
      MultiHeadAttn_split_heads example_attn k3 = Ok k /\
      let L := MultiHeadAttn_logits example_attn q k padding_mask in
      ATTN_BIAS_VALUE = (-1e9)%R /\
      (forall b h i j,
          b < e0 q -> h < e1 q -> i < e2 q -> j < e2 k ->
          at4 L b h i j
          = (scaled_score example_attn q k b h i j
             + ATTN_BIAS_VALUE * (1 - mask_entry padding_mask b h i j))%R) /\
      (forall b h i j,
          at4 W b h i j
          = (exp (at4 L b h i j)
             / sum_n (e3 L) (fun j' => exp (at4 L b h i j')))%R) /\
      (forall b h i j j',
          b < e0 q -> h < e1 q -> i < e2 q -> j < e2 k -> j' < e2 k ->
          j < e3 L -> j' < e3 L ->
          mask_entry padding_mask b h i j = 0%R ->
          mask_entry padding_mask b h i j' = 1%R ->
          (0 <= at4 W b h i j
           <= exp (scaled_score example_attn q k b h i j
                   - scaled_score example_attn q k b h i j'
                   + ATTN_BIAS_VALUE))%R) /\
      (forall b h i, e3 L = 1 -> at4 W b h i 0 = 1%R).
Proof.
  destruct (is_ok_inv
              (MultiHeadAttn_weights example_attn one_position padding_mask
                                     (Some three_positions) None) eq_refl)
    as [W HW].
  exists W. split; [exact HW |].
  exact (attention_mask_bias example_attn one_position padding_mask
           (Some three_positions) None W HW).
Defined.

(** A key with [mask = 0] whose softmax weight is 1: the only key of a
    call on a single position. *)
Lemma masked_key_keeps_weight :
  exists W,
    MultiHeadAttn_weights example_attn one_position blocked_mask None None
    = Ok W /\
    mask_entry blocked_mask 0 0 0 0 = 0%R /\
    at4 W 0 0 0 0 = 1%R /\
    at4 W 0 0 0 0 <> 0%R.
Proof.
  destruct (is_ok_inv
              (MultiHeadAttn_weights example_attn one_position blocked_mask
                                     None None) eq_refl)
    as [W HW].
  exists W. split; [exact HW |]. split; [reflexivity |].
  assert (H1 : at4 W 0 0 0 0 = 1%R).
  { apply (MultiHeadAttn_weights_single_key example_attn one_position
             blocked_mask W 0 0 0 HW); reflexivity. }
  split; [exact H1 |]. rewrite H1. lra.
Qed.

(** One decoding step of the small model on a state with empty caches. *)
Lemma decode_keeps_cross_attention_cache_witness :
  exists st',
    Model_decode plain_norm example_model draws_zero example_state
                 (Some example_words) false = Ok st' /\
    st_enc_out st' = st_enc_out example_state /\
    st_enc_attn_mask st' = st_enc_attn_mask example_state /\
    st_dec_enc_kv st' = st_dec_enc_kv example_state /\
    (forall rs0 batch is_train0,
        Model_encode plain_norm full_length example_model rs0 batch is_train0
        = Ok example_state ->
        st_dec_enc_kv st'
        = map (fun layer =>
                 Dense_call (kv_conv (wrapped_layer layer)) (st_enc_out st'))
              (dec_enc_attn (transformer example_model))).
Proof.
  destruct (is_ok_inv
              (Model_decode plain_norm example_model draws_zero example_state
                            (Some example_words) false) eq_refl)
    as [st' Hst'].
  exists st'. split; [exact Hst' |].
  exact (decode_keeps_cross_attention_cache plain_norm full_length
           example_model draws_zero example_state st' (Some example_words)
           false Hst').
Defined.

(** The small model on [[5, 8, 2]], followed by two decoding steps. *)
Lemma cache_growth_witness :
  wf_transformer (transformer example_model) = true /\
  exists st stk,
    Model_encode plain_norm full_length example_model draws_zero example_batch
                 false = Ok st /\
    Model_decode_steps plain_norm example_model st
                       [(draws_zero, example_words); (draws_one, example_words)]
                       false = Ok stk /\
    List.length (st_dec_dec_kv stk) = num_layers_dec (transformer example_model) /\
    List.length (st_dec_layers stk) = num_layers_dec (transformer example_model) /\
    List.length (st_dec_enc_kv stk) = num_layers_dec (transformer example_model) /\
    Forall (fun kv => dim1 kv = 2 + 1) (st_dec_dec_kv stk) /\
    Forall (fun x => dim1 x = 2 + 1) (st_dec_layers stk) /\
    Forall (fun kv => dim1 kv = 3) (st_dec_enc_kv stk).
Proof.
  split; [reflexivity |].
  exact (cache_growth plain_norm full_length example_model draws_zero
           example_batch
           [(draws_zero, example_words); (draws_one, example_words)] false
           eq_refl).
Defined.

(** After [encode] and no call of [decode] the self-attention caches are
    not empty: there are two of them and each has one time-step. *)
Lemma encode_cache_has_one_step :
  exists st,
    Model_encode plain_norm full_length example_model draws_zero example_batch
                 false = Ok st /\
    Model_decode_steps plain_norm example_model st [] false = Ok st /\
    List.length (st_dec_dec_kv st) = 2 /\
    Forall (fun kv => dim1 kv = 1) (st_dec_dec_kv st) /\
    ~ Forall (fun kv => dim1 kv = 0) (st_dec_dec_kv st) /\
    ~ Forall (fun x => dim1 x = 0) (st_dec_layers st).
Proof.
  destruct (Model_encode_ok plain_norm full_length example_model draws_zero
              example_batch false eq_refl)
    as (st0 & st & _ & _ & _ & E & (_ & Lkv & Ll & _ & Fkv & Fl) & _).
  exists st. split; [exact E |]. split; [reflexivity |].
  split; [exact Lkv |]. split; [exact Fkv |].
  split.
  - intros H0. destruct (st_dec_dec_kv st) as [| kv rest]; [discriminate Lkv |].
    inversion Fkv; subst. inversion H0; subst. congruence.
  - intros H0. destruct (st_dec_layers st) as [| x rest]; [discriminate Ll |].
    inversion Fl; subst. inversion H0; subst. congruence.
Qed.

(** The small model on [[5, 8, 2]]. *)
Lemma encode_seeds_one_step_witness :
  wf_transformer (transformer example_model) = true /\
  exists st0 st,
    Model_encode_state plain_norm full_length example_model draws_zero
                       example_batch = Ok st0 /\
    Forall (fun kv => dim1 kv = 0) (st_dec_dec_kv st0) /\
    Forall (fun x => dim1 x = 0) (st_dec_layers st0) /\
    Model_decode plain_norm example_model draws_zero st0 None false = Ok st /\
    (exists x,
        Transformer_add_timing_signal draws_zero
          (tf_zeros3 (irows (b_inp example_batch)) 1
                     (emb_size (transformer example_model)))
          1.0 1.0e4 (Offset (OffsetTensor1 (st_offset st0))) None = Ok x /\
        st_emb st
        = tf_concat3_axis1 (st_emb st0)
            (bypass_if_no_layers (transformer example_model) (st_enc_out st0)
               (st_enc_attn_mask st0)
               (dropout_if false draws_zero
                           (t_name (transformer example_model) ++ "/dropout")
                           x (1.0 - res_dropout (transformer example_model))%R))) /\
    Model_encode plain_norm full_length example_model draws_zero example_batch
                 false = Ok st /\
    List.length (st_dec_dec_kv st) = num_layers_dec (transformer example_model) /\
    List.length (st_dec_layers st) = num_layers_dec (transformer example_model) /\
    Forall (fun kv => dim1 kv = 1) (st_dec_dec_kv st) /\
    Forall (fun x => dim1 x = 1) (st_dec_layers st) /\
    irows (st_out_seq st) = irows (b_inp example_batch) /\
    icols (st_out_seq st) = 0 /\
    (dst_rand_offset (transformer example_model) = false ->
     len1 (st_offset st) = irows (b_inp example_batch) /\
     forall i, at1 (st_offset st) i = 1%R) /\
    cache_steps example_model (icols (st_out_seq st) + 1) st /\
    (forall st1 rs1 words is_train1,
        cache_steps example_model (icols (st_out_seq st1) + 1) st1 ->
        exists st2,
          Model_decode plain_norm example_model rs1 st1 (Some words) is_train1
          = Ok st2 /\
          icols (st_out_seq st2) = icols (st_out_seq st1) + 1 /\
          cache_steps example_model (icols (st_out_seq st2) + 1) st2).
Proof.
  split; [reflexivity |].
  exact (encode_seeds_one_step plain_norm full_length example_model draws_zero
           example_batch false eq_refl).
Defined.

(** [decode] on the model with [dst_rand_offset] on, [encode] and
    [symbolic_score] on the model with [dst_rand_offset] off, each under
    two runs' random draws. *)
Lemma inference_is_deterministic_witness :
  dst_rand_offset (transformer example_model_rand) = true /\
  (forall st words,
      Model_decode plain_norm example_model_rand draws_zero st words false
      = Model_decode plain_norm example_model_rand draws_one st words false) /\
  dst_rand_offset (transformer example_model) = false /\
  (forall batch,
      Model_encode plain_norm full_length example_model draws_zero batch false
      = Model_encode plain_norm full_length example_model draws_one batch false) /\
  (forall inp out,
      Model_symbolic_score plain_norm full_length example_model draws_zero
                           inp out false
      = Model_symbolic_score plain_norm full_length example_model draws_one
                             inp out false).
Proof.
  split; [reflexivity |].
  destruct (inference_is_deterministic plain_norm full_length
              example_model_rand draws_zero draws_one) as (_ & Hdec & _).
  split; [exact Hdec |].
  split; [reflexivity |].
  destruct (inference_is_deterministic plain_norm full_length example_model
              draws_zero draws_one) as (_ & _ & Hrest).
  exact (Hrest eq_refl).
Defined.

(** With [dst_rand_offset] on and [is_train = False], two runs of [encode]
    on the same batch with different random draws return different
    states: their offsets differ. *)
Lemma encode_depends_on_random_offset :
  dst_rand_offset (transformer example_model_rand) = true /\
  exists st1 st2,
    Model_encode plain_norm full_length example_model_rand draws_zero
                 example_batch false = Ok st1 /\
    Model_encode plain_norm full_length example_model_rand draws_one
                 example_batch false = Ok st2 /\
    at1 (st_offset st1) 0 = (-31999)%R /\
    at1 (st_offset st2) 0 = (-31998)%R /\
    Model_encode plain_norm full_length example_model_rand draws_zero
                 example_batch false
    <> Model_encode plain_norm full_length example_model_rand draws_one
                    example_batch false.
Proof.
  split; [reflexivity |].
  destruct (Model_encode_ok plain_norm full_length example_model_rand draws_zero
              example_batch false eq_refl)
    as (st01 & st1 & _ & _ & _ & E1 & _ & _ & _ & _ & _ & O1 & _).
  destruct (Model_encode_ok plain_norm full_length example_model_rand draws_one
              example_batch false eq_refl)
    as (st02 & st2 & _ & _ & _ & E2 & _ & _ & _ & _ & _ & O2 & _).
  assert (H1 : at1 (st_offset st1) 0 = (-31999)%R).
  { rewrite O1. unfold Model_encode_offset.
    change (dst_rand_offset (transformer example_model_rand)) with true.
    cbn -[IZR Z.add Z.modulo Z.sub Z.opp].
    replace (- (32000) + 0 mod (32000 - - (32000)))%Z with (-32000)%Z
      by reflexivity.
    lra. }
  assert (H2 : at1 (st_offset st2) 0 = (-31998)%R).
  { rewrite O2. unfold Model_encode_offset.
    change (dst_rand_offset (transformer example_model_rand)) with true.
    cbn -[IZR Z.add Z.modulo Z.sub Z.opp].
    replace (- (32000) + 1 mod (32000 - - (32000)))%Z with (-31999)%Z
      by reflexivity.
    lra. }
  exists st1, st2.
  split; [exact E1 |]. split; [exact E2 |].
  split; [exact H1 |]. split; [exact H2 |].
  rewrite E1, E2. intros Heq. injection Heq as Heq.
  rewrite Heq in H1. rewrite H1 in H2. lra.
Qed.

(** * The further properties at concrete inputs *)

(** Splitting the four channels of [three_positions] into the two heads of
    [example_attn] and combining them again. *)
Lemma combine_heads_inverts_split_heads_witness :
  num_heads example_attn <> 0 /\
  dim2 three_positions mod num_heads example_attn = 0 /\
  (exists y,
      MultiHeadAttn_split_heads example_attn three_positions = Ok y /\
      e0 y = dim0 three_positions /\ e1 y = num_heads example_attn /\
      e2 y = dim1 three_positions /\
      e3 y = dim2 three_positions / num_heads example_attn /\
      teq3 (MultiHeadAttn_combine_heads example_attn y) three_positions) /\
  (forall y : tensor4,
      e1 y = num_heads example_attn ->
      exists y',
        MultiHeadAttn_split_heads example_attn
          (MultiHeadAttn_combine_heads example_attn y) = Ok y' /\
        teq4 y' y).
Proof.
  assert (H0 : num_heads example_attn <> 0) by (simpl; lia).
  assert (H1 : dim2 three_positions mod num_heads example_attn = 0)
    by reflexivity.
  split; [exact H0 |]. split; [exact H1 |].
  exact (combine_heads_inverts_split_heads example_attn three_positions H0 H1).
Defined.

(** The weights of one query over the three keys of [three_positions]. *)
Lemma attention_weights_sum_to_one_witness :
  exists W,
    MultiHeadAttn_weights example_attn one_position padding_mask
                          (Some three_positions) None = Ok W /\
    0 < e3 W /\
    (exists q3 k3 v3,
        MultiHeadAttn_qkv example_attn one_position (Some three_positions) None
        = Ok (q3, k3, v3) /\
        e3 W = bdim (dim1 k3) (e3 padding_mask)) /\
    forall b h i,
      sum_n (e3 W) (fun j => at4 W b h i j) = 1%R /\
      forall j, j < e3 W -> (0 <= at4 W b h i j <= 1)%R.
Proof.
  destruct (is_ok_inv
              (MultiHeadAttn_weights example_attn one_position padding_mask
                                     (Some three_positions) None) eq_refl)
    as [W HW].
  assert (H3 : 0 < e3 W).
  { destruct (MultiHeadAttn_weights_inv _ _ _ _ _ _ HW)
      as (q3 & k3 & v3 & q & k & Hqkv & Hq & Hk & ->).
    injection Hqkv as <- <- <-.
    apply MultiHeadAttn_split_heads_inv in Hk. destruct Hk as [_ ->].
    cbn. lia. }
  exists W. split; [exact HW |]. split; [exact H3 |].
  exact (attention_weights_sum_to_one example_attn one_position padding_mask
           (Some three_positions) None W HW H3).
Defined.

(** The signal of five positions with eight channels. *)
Lemma timing_signal_unit_pairs_witness :
  exists s,
    timing_signal draws_zero 5 8 1.0 1.0e4 (Offset (OffsetNumber 0)) None = Ok s /\
    (0 < 1.0)%R /\ (0 < 1.0e4)%R /\
    8 / 2 <> 1 /\
    dim2 s = 8 /\
    (forall b j c, c < 8 / 2 ->
                   (at3 s b j c * at3 s b j c
                    + at3 s b j (8 / 2 + c) * at3 s b j (8 / 2 + c) = 1)%R) /\
    (forall b j c, 8 / 2 + 8 / 2 <= c -> at3 s b j c = 0%R) /\
    (forall b j, sum_n 8 (fun c => (at3 s b j c * at3 s b j c)%R) = INR (8 / 2)).
Proof.
  destruct (is_ok_inv
              (timing_signal draws_zero 5 8 1.0 1.0e4 (Offset (OffsetNumber 0))
                             None) eq_refl) as [s Hs].
  assert (H8 : 8 / 2 <> 1) by (cbn; lia).
  assert (Hmn : (0 < 1.0)%R) by lra.
  assert (Hmx : (0 < 1.0e4)%R) by lra.
  exists s. split; [exact Hs |].
  split; [exact Hmn |]. split; [exact Hmx |]. split; [exact H8 |].
  exact (timing_signal_unit_pairs draws_zero 5 8 1.0 1.0e4 (OffsetNumber 0) None
           s Hs Hmn Hmx H8).
Defined.

(** Two sequences, the second of them reversed. *)
Lemma timing_signal_reversed_witness :
  exists s sr,
    timing_signal draws_zero 5 8 1.0 1.0e4 (Offset (OffsetNumber 0)) None = Ok s /\
    timing_signal draws_zero 5 8 1.0 1.0e4 (Offset (OffsetNumber 0))
                  (Some second_reversed) = Ok sr /\
    dim0 sr = ilen second_reversed /\ dim1 sr = dim1 s /\ dim2 sr = dim2 s /\
    forall b j c,
      b < ilen second_reversed ->
      at3 sr b j c
      = if (iat1 second_reversed b =? 0)%Z then at3 s b j c
        else if c <? 8 / 2 then (- at3 s b j c)%R else at3 s b j c.
Proof.
  destruct (is_ok_inv
              (timing_signal draws_zero 5 8 1.0 1.0e4 (Offset (OffsetNumber 0))
                             None) eq_refl) as [s Hs].
  destruct (is_ok_inv
              (timing_signal draws_zero 5 8 1.0 1.0e4 (Offset (OffsetNumber 0))
                             (Some second_reversed)) eq_refl) as [sr Hsr].
  exists s, sr. split; [exact Hs |]. split; [exact Hsr |].
  exact (timing_signal_reversed draws_zero 5 8 1.0 1.0e4 0 second_reversed
           s sr Hs Hsr).
Defined.

(** The step at offset 1 of a single sequence against five positions. *)
Lemma timing_signal_offset_tensor_is_row_witness :
  exists s sM,
    timing_signal draws_zero 1 8 1.0 1.0e4 (Offset (OffsetTensor1 offset_one))
                  None = Ok s /\
    timing_signal draws_one 5 8 1.0 1.0e4 (Offset (OffsetNumber 0))
                  (Some {| ilen := 1; iat1 := fun _ => 0%Z |}) = Ok sM /\
    dim0 s = len1 offset_one /\ dim1 s = 1 /\ dim0 sM = 1 /\ dim1 sM = 5 /\
    dim2 s = dim2 sM /\
    forall c, at3 s 0 0 c = at3 sM 0 (0 + 1) c.
Proof.
  destruct (is_ok_inv
              (timing_signal draws_zero 1 8 1.0 1.0e4
                             (Offset (OffsetTensor1 offset_one)) None) eq_refl)
    as [s Hs].
  destruct (is_ok_inv
              (timing_signal draws_one 5 8 1.0 1.0e4 (Offset (OffsetNumber 0))
                             (Some {| ilen := 1; iat1 := fun _ => 0%Z |}))
              eq_refl) as [sM HsM].
  exists s, sM. split; [exact Hs |]. split; [exact HsM |].
  apply (timing_signal_offset_tensor_is_row draws_zero draws_one 1 5 8 1
           1.0 1.0e4 offset_one s sM 0 0 1 Hs HsM); simpl; try lia.
  reflexivity.
Defined.

Lemma random_offset_fails_rank_assertion_witness :
  wf_transformer (transformer example_model_rand) = true /\
  dst_rand_offset (transformer example_model_rand) = true /\
  (forall rs inp mn mx rev,
      Transformer_add_timing_signal rs inp mn mx OffsetRandom rev
      = Raise (AssertionError "offset.shape.ndims in (0, 1, 2)")) /\
  (forall rs out out_len out_reverse enc_out enc_attn_mask is_train,
      Transformer_decode plain_norm (transformer example_model_rand) rs out
                         out_len out_reverse enc_out enc_attn_mask is_train
      = Raise (AssertionError "offset.shape.ndims in (0, 1, 2)")) /\
  (forall rs inp out is_train,
      Model_symbolic_score plain_norm full_length example_model_rand rs inp out
                           is_train
      = Raise (AssertionError "offset.shape.ndims in (0, 1, 2)")).
Proof.
  split; [reflexivity |]. split; [reflexivity |].
  exact (random_offset_fails_rank_assertion plain_norm full_length
           example_model_rand eq_refl eq_refl).
Defined.

Lemma decoded_words_are_recorded_witness :
  exists st stk,
    Model_encode plain_norm full_length example_model draws_zero example_batch
                 false = Ok st /\
    Model_decode_steps plain_norm example_model st
                       [(draws_zero, example_words); (draws_one, example_words)]
                       false = Ok stk /\
    irows (snd (Model_get_rdo example_model stk)) = irows (b_inp example_batch) /\
    icols (snd (Model_get_rdo example_model stk)) = 2 /\
    (forall b j step,
        nth_error [(draws_zero, example_words); (draws_one, example_words)] j
        = Some step ->
        iat2 (snd (Model_get_rdo example_model stk)) b j = iat1 (snd step) b) /\
    len1 (st_offset stk)
    = len1 (Model_encode_offset example_model draws_zero
                                (irows (b_inp example_batch))) /\
    (forall i, at1 (st_offset stk) i
               = (at1 (Model_encode_offset example_model draws_zero
                                           (irows (b_inp example_batch))) i
                  + 1 + INR 2)%R).
Proof.
  destruct (Model_encode_ok plain_norm full_length example_model draws_zero
              example_batch false eq_refl)
    as (st0 & st & _ & _ & _ & E & C1 & _).
  destruct (Model_decode_steps_ok plain_norm example_model false
              [(draws_zero, example_words); (draws_one, example_words)]
              eq_refl st 1 C1) as (stk & Ek & _).
  exists st, stk. split; [exact E |]. split; [exact Ek |].
  exact (decoded_words_are_recorded plain_norm full_length example_model
           draws_zero example_batch
           [(draws_zero, example_words); (draws_one, example_words)] false
           st stk E Ek).
Defined.

Lemma attnP_is_the_length_prior_witness :
  exists st stk,
    Model_encode plain_norm full_length example_model draws_zero example_batch
                 false = Ok st /\
    Model_decode_steps plain_norm example_model st
                       [(draws_zero, example_words)] false = Ok stk /\
    Model_get_attnP example_model stk = Model_get_attnP example_model st /\
    rows2 (Model_get_attnP example_model stk) = 1 /\
    cols2 (Model_get_attnP example_model stk) = 3 /\
    forall b j, at2 (Model_get_attnP example_model stk) b j = (1 / 3)%R.
Proof.
  destruct (Model_encode_ok plain_norm full_length example_model draws_zero
              example_batch false eq_refl)
    as (st0 & st & _ & _ & _ & E & C1 & _).
  destruct (Model_decode_steps_ok plain_norm example_model false
              [(draws_zero, example_words)] eq_refl st 1 C1) as (stk & Ek & _).
  exists st, stk. split; [exact E |]. split; [exact Ek |].
  exact (attnP_is_the_length_prior plain_norm full_length example_model
           draws_zero example_batch [(draws_zero, example_words)] false
           st stk E Ek).
Defined.

Lemma self_attention_cache_is_projection_of_inputs_witness :
  exists st stk,
    Model_encode plain_norm full_length example_model draws_zero example_batch
                 false = Ok st /\
    Model_decode_steps plain_norm example_model st
                       [(draws_zero, example_words)] false = Ok stk /\
    forall layer attn kv inputs,
      nth_error (dec_attn (transformer example_model)) layer = Some attn ->
      nth_error (st_dec_dec_kv stk) layer = Some kv ->
      cached_layer_input stk layer = Some inputs ->
      teq3 kv (Dense_call (kv_conv (wrapped_layer attn))
                          (preprocess plain_norm attn inputs)).
Proof.
  destruct (Model_encode_ok plain_norm full_length example_model draws_zero
              example_batch false eq_refl)
    as (st0 & st & _ & _ & _ & E & C1 & _).
  destruct (Model_decode_steps_ok plain_norm example_model false
              [(draws_zero, example_words)] eq_refl st 1 C1) as (stk & Ek & _).
  exists st, stk. split; [exact E |]. split; [exact Ek |].
  exact (self_attention_cache_is_projection_of_inputs plain_norm full_length
           example_model draws_zero example_batch [(draws_zero, example_words)]
           false st stk E Ek).
Defined.

Lemma encoder_output_and_padding_mask_witness :
  wf_transformer (transformer example_model) = true /\
  exists enc_out mask,
    Transformer_encode plain_norm (transformer example_model) draws_zero
                       (b_inp example_batch)
                       (full_length (b_inp example_batch) 2%Z) false
    = Ok (enc_out, mask) /\
    dim1 enc_out = 3 /\
    mask = Transformer_make_enc_attn_mask (b_inp example_batch)
             (full_length (b_inp example_batch) 2%Z) /\
    e0 mask = 1 /\ e1 mask = 1 /\ e2 mask = 1 /\ e3 mask = 3 /\
    (forall b h i j, at4 mask b h i j = 1%R <-> (Z.of_nat j < 3)%Z) /\
    (forall b h i j, at4 mask b h i j = 0%R <-> (3 <= Z.of_nat j)%Z) /\
    (forall b h i, sum_n 3 (fun j => at4 mask b h i j) = INR 3).
Proof.
  split; [reflexivity |].
  exact (encoder_output_and_padding_mask plain_norm (transformer example_model)
           draws_zero (b_inp example_batch)
           (full_length (b_inp example_batch) 2%Z) false eq_refl).
Defined.

(** The first step with words: one word decoded before, two cached keys. *)
Lemma incremental_step_attends_all_cached_keys_witness :
  exists W,
    MultiHeadAttn_weights example_attn one_position
      (slice4_last_axis2
         (Transformer_make_dec_attn_mask (pad_out_seq (tf_zeros_i2 1 1))))
      None (Some (tf_zeros3 1 2 8)) = Ok W /\
    exists q k,
      MultiHeadAttn_split_heads example_attn
        (Dense_call (query_conv example_attn) one_position) = Ok q /\
      MultiHeadAttn_split_heads example_attn
        (split3_piece (tf_zeros3 1 2 8) 0 (key_depth example_attn)) = Ok k /\
      e3 W = 2 /\
      forall b h j,
        b < 1 -> h < 2 -> j < 2 ->
        at4 W b h 0 j
        = (exp (scaled_score example_attn q k b h 0 j)
           / sum_n 2 (fun j' => exp (scaled_score example_attn q k b h 0 j')))%R.
Proof.
  destruct (is_ok_inv
              (MultiHeadAttn_weights example_attn one_position
                 (slice4_last_axis2
                    (Transformer_make_dec_attn_mask
                       (pad_out_seq (tf_zeros_i2 1 1))))
                 None (Some (tf_zeros3 1 2 8))) eq_refl) as [W HW].
  exists W. split; [exact HW |].
  destruct (incremental_step_attends_all_cached_keys example_attn
              (tf_zeros_i2 1 1) one_position (tf_zeros3 1 2 8) W HW
              eq_refl eq_refl)
    as (_ & _ & _ & _ & _ & q & k & Hq & Hk & He & Hw).
  exists q, k. split; [exact Hq |]. split; [exact Hk |]. split; [exact He |].
  intros b h j Hb Hh Hj. exact (proj2 (Hw b h j Hb Hh Hj)).
Defined.

Lemma constructed_attention_units_witness :
  exists t,
    Transformer_init zero_variables "mod" example_voc example_voc []
                     (make_hp 2 2 false) = Ok t /\
    List.length (enc_attn t) = 2 /\
    List.length (dec_attn t) = 2 /\
    List.length (dec_enc_attn t) = 2 /\
    Forall (fun w => num_heads (wrapped_layer w) = 2 /\
                     key_depth (wrapped_layer w) = 4 /\
                     value_depth (wrapped_layer w) = 4 /\
                     format (wrapped_layer w) = "use_kv") (dec_enc_attn t) /\
    forall w x,
      In w (enc_attn t ++ dec_attn t ++ dec_enc_attn t)%list ->
      dim2 x = 4 \/ dim2 x = 4 ->
      exists y,
        MultiHeadAttn_split_heads (wrapped_layer w) x = Ok y /\
        e1 y = 2 /\ e3 y = dim2 x / 2 /\
        teq3 (MultiHeadAttn_combine_heads (wrapped_layer w) y) x.
Proof.
  destruct (is_ok_inv
              (Transformer_init zero_variables "mod" example_voc example_voc []
                                (make_hp 2 2 false)) eq_refl) as [t Ht].
  exists t. split; [exact Ht |].
  destruct (constructed_attention_units zero_variables "mod" example_voc
              example_voc (make_hp 2 2 false) t Ht)
    as (_ & _ & _ & L0 & _ & L2 & L3 & _ & _ & _ & F3 & Hsplit).
  split; [exact L0 |]. split; [exact L2 |]. split; [exact L3 |].
  split; [exact F3 | exact Hsplit].
Defined.

Lemma zero_heads_is_a_division_error_witness :
  hp_num_heads (make_hp 0 2 false) = 0 /\
  Transformer_init zero_variables "mod" example_voc example_voc []
                   (make_hp 0 2 false) = Raise ZeroDivisionError /\
  Model_init zero_variables identity "mod" example_voc example_voc
             (make_hp 0 2 false) = Raise ZeroDivisionError /\
  forall a args,
    Transformer_init zero_variables "mod" example_voc example_voc (a :: args)
                     (make_hp 0 2 false)
    = Raise (Exception "Unexpected positional arguments").
Proof.
  split; [reflexivity |].
  exact (zero_heads_is_a_division_error zero_variables identity "mod"
           example_voc example_voc (make_hp 0 2 false) eq_refl).
Defined.

Lemma logits_weight_tying_witness :
  exists self,
    Model_init zero_variables identity "mod" example_voc example_voc
               (make_hp 2 2 false) = Ok self /\
    rows2 (mat (emb_out (transformer self))) = 10 /\
    cols2 (mat (emb_out (transformer self))) = emb_size (transformer self) /\
    rows2 (dense_W (logits self)) = hid_size (transformer self) /\
    cols2 (dense_W (logits self)) = 10 /\
    forall st,
      rows2 (Model_get_logits self st) = rows2 (st_rdo st) /\
      cols2 (Model_get_logits self st) = cols2 (dense_W (logits self)).
Proof.
  destruct (is_ok_inv
              (Model_init zero_variables identity "mod" example_voc example_voc
                          (make_hp 2 2 false)) eq_refl) as [self Hself].
  exists self. split; [exact Hself |].
  destruct (logits_weight_tying zero_variables identity "mod" example_voc
              example_voc (make_hp 2 2 false) self Hself)
    as (Hr & Hc & _ & Hfree & _ & Hshape).
  split; [exact Hr |]. split; [exact Hc |].
  split; [exact (proj1 (Hfree eq_refl)) |].
  split; [exact (proj2 (Hfree eq_refl)) | exact Hshape].
Defined.



(** The incremental call on the last of [three_positions] against the batch
    call on all three, for a unit in the ['combined'] format. *)
Lemma incremental_self_attention_is_last_row_witness :
  exists a y_step y_batch,
    MultiHeadAttn_init zero_variables "mod" "dec_attn-0" 4 4 4 4 2 0%R 0%R false
                       "combined" = Ok a /\
    MultiHeadAttn_call a false draws_zero last_position
      (slice4_last_axis2
         (Transformer_make_dec_attn_mask (pad_out_seq (tf_zeros_i2 1 2))))
      None (Some (Dense_call (kv_conv a) three_positions)) = Ok y_step /\
    MultiHeadAttn_call a false draws_one three_positions
      (Transformer_make_dec_attn_mask example_out) None None = Ok y_batch /\
    dim1 y_step = 1 /\ dim1 y_batch = 2 + 1 /\
    dim2 y_step = dim2 y_batch /\
    forall b c, b < 1 -> at3 y_step b 0 c = at3 y_batch b 2 c.
Proof.
  destruct (is_ok_inv
              (MultiHeadAttn_init zero_variables "mod" "dec_attn-0" 4 4 4 4 2
                                  0%R 0%R false "combined") eq_refl)
    as [a Ha].
  assert (H2 : 2 <> 0) by lia.
  destruct (incremental_self_attention_is_last_row zero_variables "mod"
              "dec_attn-0" 4 4 4 4 2 0%R 0%R false "combined" a
              draws_zero draws_one three_positions last_position
              (Dense_call (kv_conv a) three_positions) 2
              (tf_zeros_i2 1 2) example_out Ha H2 eq_refl eq_refl eq_refl
              eq_refl eq_refl (fun b c _ => eq_refl)
              (teq3_refl _) eq_refl eq_refl)
    as (y_step & y_batch & H).
  exists a, y_step, y_batch. split; [exact Ha | exact H].
Defined.


(** A one-layer model fed the first two words of [example_out], against
    the score of [example_out] at its third position. *)
Lemma one_layer_step_logits_are_batch_logits_witness :
  exists self st stk scores,
    Model_init zero_variables identity "mod" example_voc example_voc
               (make_hp 2 1 false) = Ok self /\
    Model_encode plain_norm full_length self draws_zero example_batch false
    = Ok st /\
    Model_decode_steps plain_norm self st
      [(draws_zero, example_words); (draws_one, example_words_next)] false
    = Ok stk /\
    Model_symbolic_score plain_norm full_length self draws_one
                         (b_inp example_batch) example_out false = Ok scores /\
    forall b v,
      b < 1 -> at2 (Model_get_logits self stk) b v = at3 scores b 2 v.
Proof.
  destruct (is_ok_inv
              (Model_init zero_variables identity "mod" example_voc example_voc
                          (make_hp 2 1 false)) eq_refl) as [self Hself].
  assert (Hwords :
            forall j rs w,
              nth_error [(draws_zero, example_words);
                         (draws_one, example_words_next)] j = Some (rs, w) ->
              ilen w = irows (b_inp example_batch) /\
              forall b, b < irows (b_inp example_batch) ->
                        iat1 w b = iat2 example_out b j).
  { intros [| [| j]] rs w Hj; cbn in Hj; try (destruct j; discriminate);
      injection Hj as _ <-; split; reflexivity. }
  destruct (one_layer_step_logits_are_batch_logits plain_norm full_length
              zero_variables identity "mod" example_voc example_voc
              (make_hp 2 1 false) self draws_zero draws_one
              (b_inp example_batch) example_out
              [(draws_zero, example_words); (draws_one, example_words_next)]
              Hself eq_refl eq_refl eq_refl eq_refl eq_refl Hwords)
    as (st & stk & scores & H).
  exists self, st, stk, scores. split; [exact Hself | exact H].
Defined.
